(** * react-date-picker: value derivation and segment synchronisation of DateInput

    A shallow embedding of the logic of [DateInput] (range derivation, value
    projection, segment assembly, focus advancement, token rendering) and of
    the month bounds of [MonthInput] and [MonthSelect].

    Conventions of the embedding.
    - A JavaScript number is an integer or NaN ([number]); every number the
      modelled code handles is a year, a month, a day, a count of
      milliseconds or the value of an integer field.
    - A [Date] is its time value, milliseconds since the epoch, or NaN for
      an invalid date.  Local time is taken with a zero offset from UTC.
    - An exception is a value of [error] carried by [result]. *)

From Stdlib Require Import ZArith Lia Ascii String.
From stdpp Require Import base option list strings gmap.

Open Scope Z_scope.

(** ** Host language: numbers, [parseInt], the [Date] algorithms of ECMA-262 *)

Inductive number : Type :=
  | NaN
  | Num (z : Z).

Global Instance number_eq_dec : EqDecision number.
Proof. solve_decision. Defined.

Definition isNaN (n : number) : bool :=
  match n with NaN => true | Num _ => false end.

(** [a > b] on numbers: false as soon as one side is NaN. *)
Definition num_gt (a b : number) : bool :=
  match a, b with
  | Num x, Num y => bool_decide (y < x)
  | _, _ => false
  end.

Definition num_lt (a b : number) : bool := num_gt b a.

(** [a === b] on numbers: NaN differs from everything. *)
Definition num_strict_eq (a b : number) : bool :=
  match a, b with
  | Num x, Num y => bool_decide (x = y)
  | _, _ => false
  end.

Definition num_mul (a b : number) : number :=
  match a, b with
  | Num x, Num y => Num (x * y)
  | _, _ => NaN
  end.

Definition num_sub (a b : number) : number :=
  match a, b with
  | Num x, Num y => Num (x - y)
  | _, _ => NaN
  end.

Definition num_add (a b : number) : number :=
  match a, b with
  | Num x, Num y => Num (x + y)
  | _, _ => NaN
  end.

(** *** Strings read as numbers *)

Definition isWhiteSpace (c : ascii) : bool :=
  let n := nat_of_ascii c in
  bool_decide (n = 9 ∨ n = 10 ∨ n = 11 ∨ n = 12 ∨ n = 13 ∨ n = 32)%nat.

Definition digitValue (c : ascii) : option Z :=
  let n := Z.of_nat (nat_of_ascii c) in
  if bool_decide (48 <= n <= 57) then Some (n - 48) else None.

Fixpoint trimStart (s : string) : string :=
  match s with
  | String c rest => if isWhiteSpace c then trimStart rest else s
  | EmptyString => s
  end.

(** The value of the longest prefix of decimal digits, [None] when the
    prefix is empty. *)
Fixpoint digitsPrefix (acc : option Z) (s : string) : option Z :=
  match s with
  | String c rest =>
      match digitValue c with
      | Some d => digitsPrefix (Some (10 * default 0 acc + d)) rest
      | None => acc
      end
  | EmptyString => acc
  end.

(** [parseInt(s, 10)]. *)
Definition parseInt (s : string) : number :=
  let trimmed := trimStart s in
  let '(sign, body) :=
    match trimmed with
    | String "-" rest => (-1, rest)
    | String "+" rest => (1, rest)
    | _ => (1, trimmed)
    end in
  match digitsPrefix None body with
  | Some n => Num (sign * n)
  | None => NaN
  end.

(** Every character of [s] is a decimal digit; the value read so far. *)
Fixpoint digitsOnly (acc : Z) (s : string) : option Z :=
  match s with
  | String c rest =>
      match digitValue c with
      | Some d => digitsOnly (10 * acc + d) rest
      | None => None
      end
  | EmptyString => Some acc
  end.

(** [ToNumber] of a string, as [value * 10] applies it to the text of an
    integer field: the empty string is 0, an optionally signed run of
    decimal digits is its value.  A text with white space, a fraction, an
    exponent or a radix prefix is outside this model of numbers; it is read
    as NaN here, and the theorems below are stated for texts that read as
    an integer. *)
Definition StringToNumber (s : string) : number :=
  match s with
  | EmptyString => Num 0
  | String "-" (String c rest) => from_option (fun n => Num (- n)) NaN (digitsOnly 0 (String c rest))
  | String "+" (String c rest) => from_option Num NaN (digitsOnly 0 (String c rest))
  | _ => from_option Num NaN (digitsOnly 0 s)
  end.

(** *** Day number and time within day (ECMA-262, Date objects) *)

Definition msPerDay : Z := 86400000.
Definition msPerHour : Z := 3600000.
Definition msPerMinute : Z := 60000.
Definition msPerSecond : Z := 1000.

Definition Day (t : Z) : Z := t / msPerDay.
Definition TimeWithinDay (t : Z) : Z := t mod msPerDay.

Definition DaysInYear (y : Z) : Z :=
  if decide (y mod 4 ≠ 0) then 365
  else if decide (y mod 100 ≠ 0) then 366
  else if decide (y mod 400 ≠ 0) then 365
  else 366.

Definition DayFromYear (y : Z) : Z :=
  365 * (y - 1970) + (y - 1969) / 4 - (y - 1901) / 100 + (y - 1601) / 400.

Definition TimeFromYear (y : Z) : Z := msPerDay * DayFromYear y.

(** The largest year [y] with [DayFromYear y <= d]: an estimate from the
    mean length of a year, moved by at most one year. *)
Definition YearFromDay (d : Z) : Z :=
  let y := 1970 + (400 * d) / 146097 in
  if decide (d < DayFromYear y) then y - 1
  else if decide (DayFromYear (y + 1) <= d) then y + 1
  else y.

Definition YearFromTime (t : Z) : Z := YearFromDay (Day t).

Definition InLeapYear (t : Z) : Z :=
  if decide (DaysInYear (YearFromTime t) = 366) then 1 else 0.

Definition DayWithinYear (t : Z) : Z := Day t - DayFromYear (YearFromTime t).

Definition MonthFromTime (t : Z) : Z :=
  let d := DayWithinYear t in
  let l := InLeapYear t in
  if decide (d < 31) then 0
  else if decide (d < 59 + l) then 1
  else if decide (d < 90 + l) then 2
  else if decide (d < 120 + l) then 3
  else if decide (d < 151 + l) then 4
  else if decide (d < 181 + l) then 5
  else if decide (d < 212 + l) then 6
  else if decide (d < 243 + l) then 7
  else if decide (d < 273 + l) then 8
  else if decide (d < 304 + l) then 9
  else if decide (d < 334 + l) then 10
  else 11.

Definition DateFromTime (t : Z) : Z :=
  let d := DayWithinYear t in
  let l := InLeapYear t in
  match MonthFromTime t with
  | 0 => d + 1
  | 1 => d - 30
  | 2 => d - 58 - l
  | 3 => d - 89 - l
  | 4 => d - 119 - l
  | 5 => d - 150 - l
  | 6 => d - 180 - l
  | 7 => d - 211 - l
  | 8 => d - 242 - l
  | 9 => d - 272 - l
  | 10 => d - 303 - l
  | _ => d - 333 - l
  end.

(** Days of the year before month [mn] (0 = January), [l] being 1 in a leap
    year and 0 otherwise. *)
Definition DaysBeforeMonth (l mn : Z) : Z :=
  match mn with
  | 0 => 0
  | 1 => 31
  | 2 => 59 + l
  | 3 => 90 + l
  | 4 => 120 + l
  | 5 => 151 + l
  | 6 => 181 + l
  | 7 => 212 + l
  | 8 => 243 + l
  | 9 => 273 + l
  | 10 => 304 + l
  | _ => 334 + l
  end.

Definition MakeTime (hour min sec ms : Z) : Z :=
  hour * msPerHour + min * msPerMinute + sec * msPerSecond + ms.

(** [MakeDay]: the day number of the first day of month [month mod 12] of
    year [year + floor (month / 12)], plus [date - 1]. *)
Definition MakeDay (year month date : Z) : Z :=
  let ym := year + month / 12 in
  let mn := month mod 12 in
  let l := if decide (DaysInYear ym = 366) then 1 else 0 in
  DayFromYear ym + DaysBeforeMonth l mn + date - 1.

(** Length of month [mn] (0 = January) of year [y]. *)
Definition DaysInMonth (y mn : Z) : Z :=
  match mn with
  | 1 => if decide (DaysInYear y = 366) then 29 else 28
  | 3 | 5 | 8 | 10 => 30
  | _ => 31
  end.

(** A day [d] of a month [m] from 1 to 12 of year [y] that the calendar has. *)
Definition validTriple (y m d : Z) : Prop :=
  1 <= m <= 12 ∧ 1 <= d <= DaysInMonth y (m - 1).

Definition MakeDate (day time : Z) : Z := day * msPerDay + time.

Definition maxTime : Z := 8640000000000000.

Definition TimeClip (time : Z) : number :=
  if decide (maxTime < Z.abs time) then NaN else Num time.

(** Local time zone adjustment: zero. *)
Definition LocalTZA : Z := 0.
Definition LocalTime (t : Z) : Z := t + LocalTZA.
Definition UTC (t : Z) : Z := t - LocalTZA.

(** *** Date objects *)

Record Date : Type := mkDate { getTime : number }.

Global Instance Date_eq_dec : EqDecision Date.
Proof. solve_decision. Defined.

(** [new Date(year, month, date)]; a year from 0 to 99 stands for 1900 + year. *)
Definition Date_ymd (year month date : number) : Date :=
  match year, month, date with
  | Num y, Num m, Num dt =>
      let yr := if decide (0 <= y <= 99) then 1900 + y else y in
      mkDate (TimeClip (UTC (MakeDate (MakeDay yr m dt) (MakeTime 0 0 0 0))))
  | _, _, _ => mkDate NaN
  end.

Definition getFullYear (d : Date) : number :=
  match getTime d with
  | Num t => Num (YearFromTime (LocalTime t))
  | NaN => NaN
  end.

Definition getMonth (d : Date) : number :=
  match getTime d with
  | Num t => Num (MonthFromTime (LocalTime t))
  | NaN => NaN
  end.

Definition Date_getDate (d : Date) : number :=
  match getTime d with
  | Num t => Num (DateFromTime (LocalTime t))
  | NaN => NaN
  end.

(** The accessors of @wojtekmaj/date-utils on a [Date]. *)
Definition getYear (d : Date) : number := getFullYear d.
Definition getMonthHuman (d : Date) : number := num_add (getMonth d) (Num 1).
Definition getDate (d : Date) : number := Date_getDate d.

(** The year, human month and day of a date. *)
Definition fields (d : Date) : number * number * number :=
  (getYear d, getMonthHuman d, getDate d).

(** *** Values and exceptions *)

(** A value as the props carry it: nothing, a string or a [Date]. *)
Inductive raw : Type :=
  | RUndefined
  | RNull
  | RString (s : string)
  | RDate (d : Date).

(** The value prop and what the change callback receives: one raw value or
    an array of them. *)
Inductive Value : Type :=
  | Single (r : raw)
  | Arr (items : list raw).

Global Instance raw_eq_dec : EqDecision raw.
Proof. solve_decision. Defined.

Global Instance Value_eq_dec : EqDecision Value.
Proof. solve_decision. Defined.

Inductive error : Type :=
  | InvalidDate (rawValue : raw)
  | InvalidRangeType (rangeType : option string)
  | InvalidReturnValue
  | UnsupportedToken (currentMatch : string).

Inductive result (A : Type) : Type :=
  | Ok (a : A)
  | Throw (e : error).

Arguments Ok {A} a.
Arguments Throw {A} e.

Global Instance result_ret : MRet result := fun A a => Ok a.

Global Instance result_bind : MBind result := fun A B f m =>
  match m with
  | Ok a => f a
  | Throw e => Throw e
  end.

Global Instance result_fmap : FMap result := fun A B f m =>
  match m with
  | Ok a => Ok (f a)
  | Throw e => Throw e
  end.

(** Truthiness of a raw value: [undefined], [null] and the empty string are
    falsy, an object is truthy. *)
Definition truthy (r : raw) : bool :=
  match r with
  | RUndefined | RNull => false
  | RString s => negb (bool_decide (s = ""))
  | RDate _ => true
  end.

(** What the host leaves open: how a string is read as a date, and where a
    decade and a century begin and end. *)
Class Host : Type := {
  Date_parse : string → number;
  getDecadeStart : Date → Date;
  getDecadeEnd : Date → Date;
  getCenturyStart : Date → Date;
  getCenturyEnd : Date → Date;
}.

(** [new Date(rawValue)] for a truthy raw value. *)
Definition Date_of `{Host} (rawValue : raw) : Date :=
  match rawValue with
  | RString s => mkDate (Date_parse s)
  | RDate d => mkDate (getTime d)
  | RUndefined => mkDate NaN
  | RNull => mkDate (Num 0)
  end.

(** ** shared/utils and shared/dates *)

(** Modelled from the spec: [between] of shared/utils is not among the
    sources.  "Returns value unless it lies outside [min, max], in which
    case it returns the nearest bound"; a bound that is absent does not
    bound (the props may leave minDate and maxDate out). *)
Definition between (v : Date) (min max : option Date) : Date :=
  match min with
  | Some lo =>
      if num_gt (getTime lo) (getTime v) then lo
      else match max with
           | Some hi => if num_lt (getTime hi) (getTime v) then hi else v
           | None => v
           end
  | None =>
      match max with
      | Some hi => if num_lt (getTime hi) (getTime v) then hi else v
      | None => v
      end
  end.

(** Modelled from the spec: the starts and ends of units that [getBegin]
    and [getEnd] below return.  Midnight that begins day [date] of month
    [month] (0 = January) of [year], where [month] and [date] may overflow
    into the next month or year; no year is read as 1900 + year here. *)
Definition dateAt (year month date : number) : Date :=
  match year, month, date with
  | Num y, Num m, Num dt =>
      mkDate (TimeClip (UTC (MakeDate (MakeDay y m dt) (MakeTime 0 0 0 0))))
  | _, _, _ => mkDate NaN
  end.

(** Modelled from the spec: the last millisecond before [d], the end of
    the unit that [d] follows. *)
Definition justBefore (d : Date) : Date :=
  match getTime d with
  | Num t => mkDate (TimeClip (t - 1))
  | NaN => mkDate NaN
  end.

(** Modelled from the spec: "the start of the unit" and "the end of that
    unit" for the year, the month and the day of [d]. *)
Definition getYearStart (d : Date) : Date := dateAt (getYear d) (Num 0) (Num 1).
Definition getYearEnd (d : Date) : Date :=
  justBefore (dateAt (num_add (getYear d) (Num 1)) (Num 0) (Num 1)).
Definition getMonthStart (d : Date) : Date := dateAt (getYear d) (getMonth d) (Num 1).
Definition getMonthEnd (d : Date) : Date :=
  justBefore (dateAt (getYear d) (num_add (getMonth d) (Num 1)) (Num 1)).
Definition getDayStart (d : Date) : Date := dateAt (getYear d) (getMonth d) (getDate d).
Definition getDayEnd (d : Date) : Date :=
  justBefore (dateAt (getYear d) (getMonth d) (num_add (getDate d) (Num 1))).

(** Modelled from the spec: [getBegin] and [getEnd] of shared/dates are not
    among the sources.  "From is rounded down to the start of the unit",
    "To is rounded up to the end of that unit": the first and the last
    millisecond of the year, month or day that holds the date.  The spec
    does not say which years a decade or a century spans; those two units
    go to the host.  A range type that is no unit raises. *)
Definition getBegin `{Host} (rangeType : option string) (date : Date) : result Date :=
  match rangeType with
  | Some rt =>
      if decide (rt = "century") then Ok (getCenturyStart date)
      else if decide (rt = "decade") then Ok (getDecadeStart date)
      else if decide (rt = "year") then Ok (getYearStart date)
      else if decide (rt = "month") then Ok (getMonthStart date)
      else if decide (rt = "day") then Ok (getDayStart date)
      else Throw (InvalidRangeType rangeType)
  | None => Throw (InvalidRangeType rangeType)
  end.

(** Modelled from the spec: see [getBegin]; "To is rounded up to the end of
    that unit". *)
Definition getEnd `{Host} (rangeType : option string) (date : Date) : result Date :=
  match rangeType with
  | Some rt =>
      if decide (rt = "century") then Ok (getCenturyEnd date)
      else if decide (rt = "decade") then Ok (getDecadeEnd date)
      else if decide (rt = "year") then Ok (getYearEnd date)
      else if decide (rt = "month") then Ok (getMonthEnd date)
      else if decide (rt = "day") then Ok (getDayEnd date)
      else Throw (InvalidRangeType rangeType)
  | None => Throw (InvalidRangeType rangeType)
  end.

(** ** DateInput: range derivation *)

Definition allViews : list string := ["century"; "decade"; "year"; "month"].
Definition allValueTypes : list string := drop 1 allViews ++ ["day"].

(** [Array.prototype.indexOf]: -1 when the element is absent. *)
Fixpoint indexOf (x : string) (l : list string) : Z :=
  match l with
  | [] => -1
  | y :: rest =>
      if decide (y = x) then 0
      else let i := indexOf x rest in if decide (i < 0) then -1 else i + 1
  end.

(** [l[i]]: [undefined] outside the array. *)
Definition array_get {A : Type} (l : list A) (i : Z) : option A :=
  if decide (i < 0) then None else l !! Z.to_nat i.

(** Returns value type that can be returned with currently applied settings. *)
Definition getValueType (maxDetail : string) : option string :=
  array_get allValueTypes (indexOf maxDetail allViews).

Definition getValueFromRange (valueOrArrayOfValues : Value) (index : nat) : raw :=
  match valueOrArrayOfValues with
  | Arr items => default RUndefined (items !! index)
  | Single r => r
  end.

Definition parseAndValidateDate `{Host} (rawValue : raw) : result raw :=
  if negb (truthy rawValue) then Ok RNull
  else
    let valueDate := Date_of rawValue in
    if isNaN (getTime valueDate) then Throw (InvalidDate rawValue)
    else Ok (RDate valueDate).

Definition getValueFrom `{Host} (value : Value) : result raw :=
  let valueFrom := getValueFromRange value 0 in
  parseAndValidateDate valueFrom.

Definition getDetailValueFrom `{Host} (value : Value) (minDate maxDate : option Date)
    (maxDetail : string) : result raw :=
  valueFrom ← getValueFrom value;
  match valueFrom with
  | RDate d =>
      detailValueFrom ← getBegin (getValueType maxDetail) d;
      Ok (RDate (between detailValueFrom minDate maxDate))
  | _ => Ok RNull
  end.

Definition getValueTo `{Host} (value : Value) : result raw :=
  let valueTo := getValueFromRange value 1 in
  parseAndValidateDate valueTo.

Definition getDetailValueTo `{Host} (value : Value) (minDate maxDate : option Date)
    (maxDetail : string) : result raw :=
  valueTo ← getValueTo value;
  match valueTo with
  | RDate d =>
      detailValueTo ← getEnd (getValueType maxDetail) d;
      Ok (RDate (between detailValueTo minDate maxDate))
  | _ => Ok RNull
  end.

Definition getDetailValueArray `{Host} (value : Value) (minDate maxDate : option Date)
    (maxDetail : string) : result Value :=
  match value with
  | Arr _ => Ok value
  | Single _ =>
      from ← getDetailValueFrom value minDate maxDate maxDetail;
      to ← getDetailValueTo value minDate maxDate maxDetail;
      Ok (Arr [from; to])
  end.

(** ** DateInput: the component *)

Record Props : Type := {
  props_value : Value;
  props_minDate : option Date;
  props_maxDate : option Date;
  props_maxDetail : string;
  props_returnValue : string;
  props_isCalendarOpen : option bool;
  (** whether a change callback was given *)
  props_onChange : bool;
  props_autoFocus : bool;
  props_showLeadingZeros : bool;
}.

(** The segments are [null] or a number; [state_value] is the derived start
    of range kept for the next comparison. *)
Record State : Type := {
  state_year : option number;
  state_month : option number;
  state_day : option number;
  state_value : raw;
  state_isCalendarOpen : option bool;
}.

Definition initialState : State :=
  {| state_year := None; state_month := None; state_day := None;
     state_value := RUndefined; state_isCalendarOpen := None |}.

Definition asDate (r : raw) : option Date :=
  match r with RDate d => Some d | _ => None end.

Definition datesAreDifferent (date1 date2 : option Date) : bool :=
  match date1, date2 with
  | Some _, None => true
  | None, Some _ => true
  | Some d1, Some d2 => negb (num_strict_eq (getTime d1) (getTime d2))
  | None, None => false
  end.

(** The state after the props [nextProps] arrive: the returned object merged
    into [prevState]. *)
Definition getDerivedStateFromProps `{Host} (nextProps : Props) (prevState : State)
    : result State :=
  let minDate := props_minDate nextProps in
  let maxDate := props_maxDate nextProps in
  let maxDetail := props_maxDetail nextProps in
  (* If isCalendarOpen flag has changed, we have to update it. *)
  let flagChanged :=
    bool_decide (props_isCalendarOpen nextProps ≠ state_isCalendarOpen prevState) in
  let nextState_isCalendarOpen : option bool :=
    if flagChanged then props_isCalendarOpen nextProps else None in
  let isCalendarOpen' :=
    if flagChanged then props_isCalendarOpen nextProps
    else state_isCalendarOpen prevState in
  nextValue ← getDetailValueFrom (props_value nextProps) minDate maxDate maxDetail;
  let values := (Single nextValue, Single (state_value prevState)) in
  different ←
    (if bool_decide (nextState_isCalendarOpen = Some true) then Ok true
     else
       from1 ← getDetailValueFrom values.1 minDate maxDate maxDetail;
       from2 ← getDetailValueFrom values.2 minDate maxDate maxDetail;
       if datesAreDifferent (asDate from1) (asDate from2) then Ok true
       else
         to1 ← getDetailValueTo values.1 minDate maxDate maxDetail;
         to2 ← getDetailValueTo values.2 minDate maxDate maxDetail;
         Ok (datesAreDifferent (asDate to1) (asDate to2)));
  if different : bool then
    match asDate nextValue with
    | Some d =>
        Ok {| state_year := Some (getYear d);
              state_month := Some (getMonthHuman d);
              state_day := Some (getDate d);
              state_value := nextValue;
              state_isCalendarOpen := isCalendarOpen' |}
    | None =>
        Ok {| state_year := None; state_month := None; state_day := None;
              state_value := nextValue;
              state_isCalendarOpen := isCalendarOpen' |}
    end
  else
    Ok {| state_year := state_year prevState;
          state_month := state_month prevState;
          state_day := state_day prevState;
          state_value := state_value prevState;
          state_isCalendarOpen := isCalendarOpen' |}.

(** Gets current value in a desired format. *)
Definition getProcessedValue `{Host} (props : Props) (value : Value) : result Value :=
  let minDate := props_minDate props in
  let maxDate := props_maxDate props in
  let maxDetail := props_maxDetail props in
  let returnValue := props_returnValue props in
  if decide (returnValue = "start") then
    Single <$> getDetailValueFrom value minDate maxDate maxDetail
  else if decide (returnValue = "end") then
    Single <$> getDetailValueTo value minDate maxDate maxDetail
  else if decide (returnValue = "range") then
    getDetailValueArray value minDate maxDate maxDetail
  else Throw InvalidReturnValue.

(** *** Elements of the page *)

(** What the handlers read of an element: [checkValidity] is the answer of
    the element's own constraint check, [maxAttr] its max attribute. *)
Record Element : Type := {
  tagName : string;
  type : string;
  name : string;
  value : string;
  maxAttr : option string;
  checkValidity : bool;
}.

Definition isValidInput (element : Element) : bool :=
  bool_decide (tagName element = "INPUT") && bool_decide (type element = "number").

Inductive siblingProperty : Type :=
  | previousElementSibling
  | nextElementSibling.

(** The first valid input of [l], whose head has index [k]. *)
Fixpoint findForward (l : list Element) (k : nat) : option nat :=
  match l with
  | [] => None
  | e :: rest => if isValidInput e then Some k else findForward rest (S k)
  end.

(** The last valid input before index [i]. *)
Fixpoint findBackward (siblings : list Element) (i : nat) : option nat :=
  match i with
  | O => None
  | S j =>
      match siblings !! j with
      | Some e => if isValidInput e then Some j else findBackward siblings j
      | None => findBackward siblings j
      end
  end.

(** [findInput]: from the element at index [i] of its parent's children,
    the nearest valid input in the direction of [property], if any. *)
Definition findInput (siblings : list Element) (i : nat) (property : siblingProperty)
    : option nat :=
  match property with
  | nextElementSibling => findForward (drop (S i) siblings) (S i)
  | previousElementSibling => findBackward siblings i
  end.

(** [focus]: the element that has the focus afterwards. *)
Definition focus (element : option nat) (activeElement : nat) : nat :=
  match element with
  | Some e => e
  | None => activeElement
  end.

Record KeyboardEvent : Type := {
  key : string;
  (** index of the target among its parent's children *)
  target : nat;
}.

(** [onKeyUp]: the element that has the focus after the handler ran. *)
Definition onKeyUp (siblings : list Element) (activeElement : nat)
    (event : KeyboardEvent) : nat :=
  let isNumberKey := negb (isNaN (parseInt (key event))) in
  if negb isNumberKey then activeElement
  else
    match siblings !! target event with
    | Some input =>
        let max := parseInt (default "null" (maxAttr input)) in
        if num_gt (num_mul (StringToNumber (value input)) (Num 10)) max then
          let nextInput := findInput siblings (target event) nextElementSibling in
          focus nextInput activeElement
        else activeElement
    | None => activeElement
    end.

(** *** Segment edits *)

(** A call of the change callback. *)
Inductive emission : Type :=
  | NoCall
  | OnChange (processedValue : Value) (flag : bool).

(** The segment inputs the component holds a reference to. *)
Record Refs : Type := {
  dayInput : option Element;
  monthInput : option Element;
  yearInput : option Element;
}.

Definition formElementsOf (refs : Refs) : list Element :=
  omap id [dayInput refs; monthInput refs; yearInput refs].

Definition valuesOf (formElements : list Element) : gmap string string :=
  foldl (fun values formElement => <[name formElement := value formElement]> values)
        ∅ formElements.

Definition nonEmpty (s : string) : bool := negb (bool_decide (s = "")).

(** The date put together from the texts of the segments. *)
Definition proposedValue (values : gmap string string) : Date :=
  let year := parseInt (default "undefined" (values !! "year")) in
  let month :=
    parseInt (match values !! "month" with
              | Some s => if nonEmpty s then s else "1"
              | None => "1"
              end) in
  let day :=
    parseInt (match values !! "day" with
              | Some s => if nonEmpty s then s else "1"
              | None => "1"
              end) in
  Date_ymd year (num_sub month (Num 1)) day.

(** Called after internal onChange. Checks input validity. If all fields are
    valid, calls props.onChange. *)
Definition onChangeExternal `{Host} (props : Props) (refs : Refs) : result emission :=
  if negb (props_onChange props) then Ok NoCall
  else
    let formElements := formElementsOf refs in
    let values := valuesOf formElements in
    if forallb (fun formElement => negb (nonEmpty (value formElement))) formElements then
      Ok (OnChange (Single RNull) false)
    else if forallb (fun formElement =>
                       nonEmpty (value formElement) && checkValidity formElement)
                    formElements then
      processedValue ← getProcessedValue props (Single (RDate (proposedValue values)));
      Ok (OnChange processedValue false)
    else Ok NoCall.

Definition setSegment (state : State) (segment : string) (v : option number) : State :=
  {| state_year := if decide (segment = "year") then v else state_year state;
     state_month := if decide (segment = "month") then v else state_month state;
     state_day := if decide (segment = "day") then v else state_day state;
     state_value := state_value state;
     state_isCalendarOpen := state_isCalendarOpen state |}.

(** Called when non-native date input is changed: the segment named by the
    target takes its parsed text, then [onChangeExternal] runs. *)
Definition onChange `{Host} (props : Props) (state : State) (refs : Refs)
    (eventTarget : Element) : State * result emission :=
  let v := if nonEmpty (value eventTarget)
           then Some (parseInt (value eventTarget)) else None in
  (setSegment state (name eventTarget) v, onChangeExternal props refs).

(** *** Rendering of the segments *)

Inductive Rendered : Type :=
  | DayInputElement (autoFocus showLeadingZeros : bool) (day month year : option number)
  | MonthSelectElement (autoFocus short : bool) (month year : option number)
  | MonthInputElement (autoFocus showLeadingZeros : bool) (month year : option number)
  | YearInputElement (autoFocus : bool) (year : option number) (valueType : option string).

Definition renderDay (props : Props) (state : State) (currentMatch : string) (index : nat)
    : result Rendered :=
  if nonEmpty currentMatch && bool_decide (2 < String.length currentMatch)%nat then
    Throw (UnsupportedToken currentMatch)
  else
    let showLeadingZerosFromFormat :=
      nonEmpty currentMatch && bool_decide (String.length currentMatch = 2%nat) in
    Ok (DayInputElement
          (bool_decide (index = 0%nat) && props_autoFocus props)
          (showLeadingZerosFromFormat || props_showLeadingZeros props)
          (state_day state) (state_month state) (state_year state)).

Definition renderMonth (props : Props) (state : State) (currentMatch : string) (index : nat)
    : result Rendered :=
  if nonEmpty currentMatch && bool_decide (4 < String.length currentMatch)%nat then
    Throw (UnsupportedToken currentMatch)
  else if bool_decide (2 < String.length currentMatch)%nat then
    Ok (MonthSelectElement
          (bool_decide (index = 0%nat) && props_autoFocus props)
          (bool_decide (String.length currentMatch = 3%nat))
          (state_month state) (state_year state))
  else
    let showLeadingZerosFromFormat :=
      nonEmpty currentMatch && bool_decide (String.length currentMatch = 2%nat) in
    Ok (MonthInputElement
          (bool_decide (index = 0%nat) && props_autoFocus props)
          (showLeadingZerosFromFormat || props_showLeadingZeros props)
          (state_month state) (state_year state)).

Definition renderYear (props : Props) (state : State) (currentMatch : string) (index : nat)
    : result Rendered :=
  Ok (YearInputElement
        (bool_decide (index = 0%nat) && props_autoFocus props)
        (state_year state) (getValueType (props_maxDetail props))).

(** ** MonthInput and MonthSelect *)

(** The values an argument of [min] and [max] takes here. *)
Inductive jsval : Type :=
  | JUndefined
  | JNull
  | JBool (b : bool)
  | JNumber (n : number).

(** [min] and [max] of shared/utils are not among the sources: they are
    taken as they come, and the theorems on the month bounds say what they
    need of them. *)
Class Utils : Type := {
  utils_min : list jsval → number;
  utils_max : list jsval → number;
}.

Definition defaultMinDate : Date := mkDate (TimeClip (- maxTime)).
Definition defaultMaxDate : Date := mkDate (TimeClip maxTime).

(** The bounds as [commonInputProps] hands them to a segment. *)
Definition commonInputProps_maxDate (props : Props) : option Date :=
  Some (default defaultMaxDate (props_maxDate props)).
Definition commonInputProps_minDate (props : Props) : option Date :=
  Some (default defaultMinDate (props_minDate props)).

(** [year === n] for a segment [year] that is [null] or a number. *)
Definition year_strict_eq (year : option number) (n : number) : bool :=
  match year with
  | Some y => num_strict_eq y n
  | None => false
  end.

(** [date && year === getYear(date) && getMonthHuman(date)]. *)
Definition monthOfSameYear (date : option Date) (year : option number) : jsval :=
  match date with
  | None => JUndefined
  | Some d =>
      if year_strict_eq year (getYear d) then JNumber (getMonthHuman d)
      else JBool false
  end.

(** The props [MonthInput] gives its [Input]. *)
Record InputProps : Type := {
  input_max : number;
  input_min : number;
  input_name : string;
}.

Definition MonthInput `{Utils} (maxDate minDate : option Date) (year : option number)
    : InputProps :=
  let maxMonth := utils_min [JNumber (Num 12); monthOfSameYear maxDate year] in
  let minMonth := utils_max [JNumber (Num 1); monthOfSameYear minDate year] in
  {| input_max := maxMonth; input_min := minMonth; input_name := "month" |}.

Record MonthOption : Type := {
  option_value : number;
  option_disabled : bool;
}.

(** The twelve options of [MonthSelect], January first. *)
Definition MonthSelect `{Utils} (maxDate minDate : option Date) (year : option number)
    : list MonthOption :=
  let maxMonth := utils_min [JNumber (Num 12); monthOfSameYear maxDate year] in
  let minMonth := utils_max [JNumber (Num 1); monthOfSameYear minDate year] in
  let dates := (fun index => Date_ymd (Num 2019) (Num index) (Num 1)) <$> seqZ 0 12 in
  (fun date =>
     let month := getMonthHuman date in
     let disabled := num_lt month minMonth || num_gt month maxMonth in
     {| option_value := month; option_disabled := disabled |}) <$> dates.

(** ** Vocabulary of the statements *)

(** [s] and [t] fall in the same year, month or day. *)
Definition sameUnit (unit : string) (s t : Z) : Prop :=
  if decide (unit = "year") then YearFromTime s = YearFromTime t
  else if decide (unit = "month") then
    YearFromTime s = YearFromTime t ∧ MonthFromTime s = MonthFromTime t
  else if decide (unit = "day") then Day s = Day t
  else False.

(** The text of a segment, 1 for a segment that is absent or blank. *)
Definition textOr1 (segment : option Element) : string :=
  match segment with
  | Some e => if nonEmpty (value e) then value e else "1"
  | None => "1"
  end.

(** The segments carry the names their components give them, under which
    [itemRef] stores them. *)
Definition namedRefs (refs : Refs) : Prop :=
  (∀ e, dayInput refs = Some e → name e = "day")
  ∧ (∀ e, monthInput refs = Some e → name e = "month")
  ∧ (∀ e, yearInput refs = Some e → name e = "year").

(** What the month bounds need of [min] and [max]: of a number and another
    argument they return the lesser, respectively the greater, when the
    other is a number too, and the number when it is not. *)
Definition numbersOnly (U : Utils) : Prop :=
  (∀ a b, utils_min [JNumber (Num a); JNumber (Num b)] = Num (Z.min a b))
  ∧ (∀ a v, (∀ n, v ≠ JNumber n) → utils_min [JNumber (Num a); v] = Num a)
  ∧ (∀ a b, utils_max [JNumber (Num a); JNumber (Num b)] = Num (Z.max a b))
  ∧ (∀ a v, (∀ n, v ≠ JNumber n) → utils_max [JNumber (Num a); v] = Num a).

(** The bound in words: the human month of [date] when [date]
    is present and [year] is its year, [fallback] otherwise. *)
Definition monthLimit (fallback : Z) (date : option Date) (year : option number) : Z :=
  match date with
  | Some d =>
      match getYear d, getMonthHuman d with
      | Num y, Num m => if decide (year = Some (Num y)) then m else fallback
      | _, _ => fallback
      end
  | None => fallback
  end.

(** ** A host, helpers and inputs to run the examples with *)

(** Reads the date-only form YYYY-MM-DD; anything else is no date. *)
Definition parseISODate (s : string) : number :=
  match s with
  | String y1 (String y2 (String y3 (String y4 (String "-"
      (String m1 (String m2 (String "-" (String d1 (String d2 EmptyString))))))))) =>
      match digitsOnly 0 (String y1 (String y2 (String y3 (String y4 EmptyString)))),
            digitsOnly 0 (String m1 (String m2 EmptyString)),
            digitsOnly 0 (String d1 (String d2 EmptyString)) with
      | Some y, Some m, Some d =>
          if decide (1 <= m <= 12 ∧ 1 <= d <= 31)
          then TimeClip (MakeDate (MakeDay y (m - 1) d) 0)
          else NaN
      | _, _, _ => NaN
      end
  | _ => NaN
  end.

(** Decades and centuries counted from a year that ends in 1. *)
Definition periodStart (len : Z) (d : Date) : Date :=
  match getYear d with
  | Num y => dateAt (Num (y + Z.rem (1 - y) len)) (Num 0) (Num 1)
  | NaN => mkDate NaN
  end.

Definition periodEnd (len : Z) (d : Date) : Date :=
  match getYear d with
  | Num y => justBefore (dateAt (Num (y + Z.rem (1 - y) len + len)) (Num 0) (Num 1))
  | NaN => mkDate NaN
  end.

Definition exampleHost : Host := {|
  Date_parse := parseISODate;
  getDecadeStart := periodStart 10;
  getDecadeEnd := periodEnd 10;
  getCenturyStart := periodStart 100;
  getCenturyEnd := periodEnd 100;
|}.

Definition numbersOf (args : list jsval) : list Z :=
  omap (fun v => match v with JNumber (Num z) => Some z | _ => None end) args.

(** The least and the greatest of the numbers among the arguments. *)
Definition exampleUtils : Utils := {|
  utils_min := fun args =>
    match numbersOf args with
    | [] => NaN
    | z :: zs => Num (foldr Z.min z zs)
    end;
  utils_max := fun args =>
    match numbersOf args with
    | [] => NaN
    | z :: zs => Num (foldr Z.max z zs)
    end;
|}.

Definition examplePropsOf (v : Value) (maxDetail returnValue : string) : Props :=
  {| props_value := v;
     props_minDate := None;
     props_maxDate := None;
     props_maxDetail := maxDetail;
     props_returnValue := returnValue;
     props_isCalendarOpen := None;
     props_onChange := true;
     props_autoFocus := false;
     props_showLeadingZeros := false |}.

Definition exampleProps : string → string → Props := examplePropsOf (Single RNull).

Definition segmentInput (name value : string) (max : string) (valid : bool) : Element :=
  {| tagName := "INPUT"; type := "number"; name := name; value := value;
     maxAttr := Some max; checkValidity := valid |}.

Definition dividerSpan : Element :=
  {| tagName := "SPAN"; type := ""; name := ""; value := "";
     maxAttr := None; checkValidity := true |}.

(** The answer of a number input that is not required, with the bounds
    [min] and [max], for the validity of its text: a blank is valid, and so
    is an integer within the bounds. *)
Definition numberInputValid (value : string) (min max : Z) : bool :=
  if nonEmpty value then
    match StringToNumber value with
    | Num v => bool_decide (min <= v <= max)
    | NaN => false
    end
  else true.

(** The three fields with the texts [day], [month] and [year].  DayInput
    and YearInput are not among the sources: the example fields take a day
    from 1 to 31, a month from 1 to 12 as MonthInput does without bounds,
    and a year from 1000 to 275760, and answer for their validity
    accordingly. *)
Definition segmentRefs (day month year : string) : Refs :=
  {| dayInput := Some (segmentInput "day" day "31" (numberInputValid day 1 31));
     monthInput := Some (segmentInput "month" month "12" (numberInputValid month 1 12));
     yearInput :=
       Some (segmentInput "year" year "275760" (numberInputValid year 1000 275760)) |}.

Definition july15 : Date := Date_ymd (Num 2023) (Num 6) (Num 15).
Definition march1 : Date := Date_ymd (Num 2023) (Num 2) (Num 1).

(** ** DateInput: the placeholder, key-down, the native input *)

(** What a getter or handler that may also fail with a TypeError comes to. *)
Inductive outcome (A : Type) : Type :=
  | Returns (a : A)
  | Raises (e : error)
  | RaisesTypeError.

Arguments Returns {A} a.
Arguments Raises {A} e.
Arguments RaisesTypeError {A}.

(** [getFormatter] of shared/dateFormatter is not among the sources: the
    formatters it gives for the locale in use are taken as they come, the
    one of a date with a numeric year, and a numeric month and day when
    asked for, and the one of a number without grouping. *)
Class Formatter : Type := {
  formatDate_with : bool → bool → Date → string;
  formatNumber : Z → string;
}.

(** [s] begins with [p]; what follows [p] then. *)
Fixpoint stripPrefix (p s : string) : option string :=
  match p with
  | EmptyString => Some s
  | String a p' =>
      match s with
      | String b s' => if decide (a = b) then stripPrefix p' s' else None
      | EmptyString => None
      end
  end.

(** [s.replace(searchValue, replaceValue)] for strings: the first
    occurrence of [searchValue], if any, gives way to [replaceValue]
    (which holds no [$] here). *)
Fixpoint String_replace (searchValue replaceValue s : string) : string :=
  match stripPrefix searchValue s with
  | Some rest => replaceValue ++ rest
  | None =>
      match s with
      | String c s' => String c (String_replace searchValue replaceValue s')
      | EmptyString => EmptyString
      end
  end.

(** [formatDate]: the month is shown from the detail year on, the day at
    the detail month. *)
Definition formatDate `{Formatter} (maxDetail : string) (date : Date) : string :=
  let level := indexOf maxDetail allViews in
  formatDate_with (bool_decide (level >= 2)) (bool_decide (level >= 3)) date.

(** [placeholder]: the format given, or else the reference date
    11 December 2017 as the locale writes it, with its year, month and day
    turned into y, M and d. *)
Definition placeholder `{Formatter} (format : option string) (maxDetail : string)
    : string :=
  let derived :=
    let year := 2017 in
    let monthIndex := 11 in
    let day := 11 in
    let date := Date_ymd (Num year) (Num monthIndex) (Num day) in
    String_replace (formatNumber day) "d"
      (String_replace (formatNumber (monthIndex + 1)) "M"
         (String_replace (formatNumber year) "y" (formatDate maxDetail date))) in
  match format with
  | Some f => if nonEmpty f then f else derived
  | None => derived
  end.

(** A character that [/[^0-9a-z]/i] does not match: a digit or a letter. *)
Definition isAlphaNumeric (c : ascii) : bool :=
  let n := nat_of_ascii c in
  bool_decide (48 ≤ n ≤ 57 ∨ 65 ≤ n ≤ 90 ∨ 97 ≤ n ≤ 122)%nat.

(** [placeholder.match(/[^0-9a-z]/i)]: the first character matched. *)
Fixpoint matchNonAlphaNumeric (s : string) : option ascii :=
  match s with
  | String c s' => if isAlphaNumeric c then matchNonAlphaNumeric s' else Some c
  | EmptyString => None
  end.

(** [divider]: element 0 of the match, a TypeError when nothing matched. *)
Definition divider (placeholder : string) : outcome string :=
  match matchNonAlphaNumeric placeholder with
  | Some c => Returns (String c EmptyString)
  | None => RaisesTypeError
  end.

(** What [onKeyDown] leaves: whether the default was prevented, and the
    element that has the focus. *)
Record KeyDownEffect : Type := {
  defaultPrevented : bool;
  activeAfter : nat;
}.

(** [onKeyDown]: the cases of the switch are tried in order, the divider
    being read only when the key is neither arrow. *)
Definition onKeyDown (placeholder : string) (siblings : list Element)
    (activeElement : nat) (event : KeyboardEvent) : outcome KeyDownEffect :=
  let move :=
    let property :=
      if decide (key event = "ArrowLeft") then previousElementSibling
      else nextElementSibling in
    let nextInput := findInput siblings (target event) property in
    Returns {| defaultPrevented := true;
               activeAfter := focus nextInput activeElement |} in
  if decide (key event = "ArrowLeft") then move
  else if decide (key event = "ArrowRight") then move
  else
    match divider placeholder with
    | Returns d =>
        if decide (key event = d) then move
        else Returns {| defaultPrevented := false; activeAfter := activeElement |}
    | Raises e => Raises e
    | RaisesTypeError => RaisesTypeError
    end.

(** [s.split(separator)] for a separator of one character. *)
Fixpoint String_split (separator : ascii) (s : string) : list string :=
  match s with
  | EmptyString => [EmptyString]
  | String c s' =>
      if decide (c = separator) then EmptyString :: String_split separator s'
      else
        match String_split separator s' with
        | part :: parts => String c part :: parts
        | [] => [String c EmptyString]
        end
  end.

(** [a || b] on numbers: [b] when [a] is NaN or 0. *)
Definition num_or (a b : number) : number :=
  match a with
  | NaN => b
  | Num z => if decide (z = 0) then b else a
  end.

(** Called when native date input is changed. *)
Definition onChangeNative (props : Props) (value : string) : emission :=
  if negb (props_onChange props) then NoCall
  else
    let processedValue :=
      if negb (nonEmpty value) then RNull
      else
        let parts := String_split "-" value in
        let yearString := default "undefined" (parts !! 0%nat) in
        let monthString := default "undefined" (parts !! 1%nat) in
        let dayString := default "undefined" (parts !! 2%nat) in
        let year := parseInt yearString in
        let monthIndex := num_or (num_sub (parseInt monthString) (Num 1)) (Num 0) in
        let date := num_or (parseInt dayString) (Num 1) in
        RDate (Date_ymd year monthIndex date) in
    OnChange (Single processedValue) false.

(** ** DateInput: the custom inputs *)

(** What [renderCustomInputs] returns an array of: a divider with its
    key index, a bare string, or a segment. *)
Inductive Node : Type :=
  | DividerNode (index : nat) (text : string)
  | TextNode (text : string)
  | SegmentNode (element : Rendered).

(** The keys of [elementFunctions], in their order. *)
Definition elementKeys : list ascii := ["d"; "M"; "y"]%char.

(** The placeholder cut into runs: a run of one key letter, marked with
    the letter, or a run of other characters. *)
Fixpoint runs (s : string) : list (option ascii * string) :=
  match s with
  | EmptyString => []
  | String c s' =>
      let kind := if bool_decide (c ∈ elementKeys) then Some c else None in
      match runs s' with
      | (kind', run) :: rest =>
          if decide (kind = kind') then (kind, String c run) :: rest
          else (kind, String c EmptyString) :: (kind', run) :: rest
      | [] => [(kind, String c EmptyString)]
      end
  end.

(** [placeholder.match(pattern)] for the pattern d+|M+|y+ with the flag g:
    the runs of a key letter, or [null] when there is none. *)
Definition matchPattern (placeholder : string) : option (list string) :=
  match omap (fun r => match r.1 with Some _ => Some r.2 | None => None end)
             (runs placeholder) with
  | [] => None
  | matches => Some matches
  end.

(** The strings between the matches, from [sep] on. *)
Fixpoint between_runs (sep : string) (rs : list (option ascii * string)) : list string :=
  match rs with
  | [] => [sep]
  | (None, lit) :: rest => between_runs (sep ++ lit) rest
  | (Some _, _) :: rest => sep :: between_runs EmptyString rest
  end.

(** [placeholder.split(pattern)]: what lies before, between and after the
    matches, empty strings included. *)
Definition splitPattern (placeholder : string) : list string :=
  between_runs EmptyString (runs placeholder).

Fixpoint occurs (c : ascii) (s : string) : bool :=
  match s with
  | EmptyString => false
  | String c' s' => bool_decide (c = c') || occurs c s'
  end.

(** The render function for a match, named by its key:
    [elementFunctions[currentMatch]], or else that of the first key that
    the match holds. *)
Definition renderFunctionOf (currentMatch : string) : option ascii :=
  match currentMatch with
  | String c EmptyString =>
      if bool_decide (c ∈ elementKeys) then Some c
      else List.find (fun k => occurs k currentMatch) elementKeys
  | _ => List.find (fun k => occurs k currentMatch) elementKeys
  end.

(** The call of the render function of key [k]. *)
Definition callRender (props : Props) (state : State) (k : ascii)
    (currentMatch : string) (index : nat) : result Rendered :=
  if decide (k = "d"%char) then renderDay props state currentMatch index
  else if decide (k = "M"%char) then renderMonth props state currentMatch index
  else renderYear props state currentMatch index.

(** The reduction over the split placeholder, from the element of index
    [index] on, [arr] being the array so far and [usedFunctions] the
    render functions called so far. *)
Fixpoint reduceInputs (props : Props) (state : State) (allowMultipleInstances : bool)
    (matches : option (list string)) (index : nat) (elements : list string)
    (arr : list Node) (usedFunctions : list ascii) : outcome (list Node) :=
  match elements with
  | [] => Returns arr
  | element :: rest =>
      let divider :=
        if nonEmpty element then DividerNode index element else TextNode element in
      let res := arr ++ [divider] in
      let currentMatch :=
        match matches with
        | Some ms => ms !! index
        | None => None
        end in
      match currentMatch with
      | Some cm =>
          if nonEmpty cm then
            match renderFunctionOf cm with
            | Some renderFunction =>
                if negb allowMultipleInstances
                   && bool_decide (renderFunction ∈ usedFunctions)
                then reduceInputs props state allowMultipleInstances matches (S index)
                       rest (res ++ [TextNode cm]) usedFunctions
                else
                  match callRender props state renderFunction cm index with
                  | Ok rendered =>
                      reduceInputs props state allowMultipleInstances matches (S index)
                        rest (res ++ [SegmentNode rendered])
                        (usedFunctions ++ [renderFunction])
                  | Throw e => Raises e
                  end
            | None => RaisesTypeError
            end
          else reduceInputs props state allowMultipleInstances matches (S index)
                 rest res usedFunctions
      | None =>
          reduceInputs props state allowMultipleInstances matches (S index)
            rest res usedFunctions
      end
  end.

Definition renderCustomInputs (props : Props) (state : State) (placeholder : string)
    (allowMultipleInstances : bool) : outcome (list Node) :=
  reduceInputs props state allowMultipleInstances (matchPattern placeholder) 0
    (splitPattern placeholder) [] [].

(** [DateInput.renderCustomInputs]: a token may come again only under a
    format of the caller's. *)
Definition DateInput_renderCustomInputs `{Formatter} (props : Props) (state : State)
    (format : option string) : outcome (list Node) :=
  renderCustomInputs props state (placeholder format (props_maxDetail props))
    (bool_decide (is_Some format)).

(** ** Vocabulary of the further statements *)

(** The state whose segments are those of the derived start [nextValue],
    none for [null]. *)
Definition syncedState (nextValue : raw) (isCalendarOpen : option bool) : State :=
  match asDate nextValue with
  | Some d =>
      {| state_year := Some (getYear d); state_month := Some (getMonthHuman d);
         state_day := Some (getDate d); state_value := nextValue;
         state_isCalendarOpen := isCalendarOpen |}
  | None =>
      {| state_year := None; state_month := None; state_day := None;
         state_value := nextValue; state_isCalendarOpen := isCalendarOpen |}
  end.

(** Whether [getDerivedStateFromProps] takes the segments anew from the
    derived start [nextValue], given the flag it saw change. *)
Definition syncDecision `{Host} (nextProps : Props) (prevState : State)
    (nextValue : raw) : result bool :=
  let minDate := props_minDate nextProps in
  let maxDate := props_maxDate nextProps in
  let maxDetail := props_maxDetail nextProps in
  if bool_decide (props_isCalendarOpen nextProps ≠ state_isCalendarOpen prevState
                  ∧ props_isCalendarOpen nextProps = Some true)
  then Ok true
  else
    from1 ← getDetailValueFrom (Single nextValue) minDate maxDate maxDetail;
    from2 ← getDetailValueFrom (Single (state_value prevState)) minDate maxDate maxDetail;
    if datesAreDifferent (asDate from1) (asDate from2) then Ok true
    else
      to1 ← getDetailValueTo (Single nextValue) minDate maxDate maxDetail;
      to2 ← getDetailValueTo (Single (state_value prevState)) minDate maxDate maxDetail;
      Ok (datesAreDifferent (asDate to1) (asDate to2)).

(** The state that keeps the segments of [prevState] and takes the flag of
    the props. *)
Definition keptState (nextProps : Props) (prevState : State) : State :=
  {| state_year := state_year prevState; state_month := state_month prevState;
     state_day := state_day prevState; state_value := state_value prevState;
     state_isCalendarOpen := props_isCalendarOpen nextProps |}.

(** A derived date that is a date of a valid time, or [null]. *)
Definition comparable (r : raw) : Prop :=
  match r with
  | RDate d => isNaN (getTime d) = false
  | _ => True
  end.

(** Props of the detail month and the mode start, without bounds. *)
Definition propsOf (v : Value) (isCalendarOpen : option bool) : Props :=
  {| props_value := v; props_minDate := None; props_maxDate := None;
     props_maxDetail := "month"; props_returnValue := "start";
     props_isCalendarOpen := isCalendarOpen; props_onChange := true;
     props_autoFocus := false; props_showLeadingZeros := false |}.

(** The character of the digit [k]. *)
Definition digitChar (k : Z) : ascii := ascii_of_nat (48 + Z.to_nat k).

(** [n] in two and in four digits, and a date as a native date input
    writes it, YYYY-MM-DD. *)
Definition pad2 (n : Z) : string :=
  String (digitChar (n / 10)) (String (digitChar (n mod 10)) EmptyString).

Definition pad4 (n : Z) : string :=
  String (digitChar (n / 1000)) (String (digitChar (n / 100 mod 10)) (pad2 (n mod 100))).

Definition isoDate (y m d : Z) : string :=
  (pad4 y ++ "-" ++ pad2 m ++ "-" ++ pad2 d)%string.

(** The segment [segment] is there under the name [segmentName], is valid
    and reads as the integer [n]. *)
Definition segmentReads (segment : option Element) (segmentName : string) (n : Z) : Prop :=
  ∃ e, segment = Some e ∧ name e = segmentName ∧ checkValidity e = true
       ∧ parseInt (value e) = Num n.

(** The time of a date is at most that of another; NaN is in no order. *)
Definition date_le (a b : Date) : Prop :=
  match getTime a, getTime b with
  | Num x, Num y => x <= y
  | _, _ => False
  end.

(** The key of [elementFunctions] whose render function gives the
    element. *)
Definition segmentKey (r : Rendered) : ascii :=
  match r with
  | DayInputElement _ _ _ _ _ => "d"
  | MonthSelectElement _ _ _ _ | MonthInputElement _ _ _ _ => "M"
  | YearInputElement _ _ _ => "y"
  end.

Definition autoFocusOf (r : Rendered) : bool :=
  match r with
  | DayInputElement autoFocus _ _ _ _ | MonthSelectElement autoFocus _ _ _
  | MonthInputElement autoFocus _ _ _ | YearInputElement autoFocus _ _ => autoFocus
  end.

(** The segments among the nodes, and the texts of the dividers. *)
Definition segments (nodes : list Node) : list Rendered :=
  omap (fun n => match n with SegmentNode r => Some r | _ => None end) nodes.

Definition dividerTexts (nodes : list Node) : list string :=
  omap (fun n => match n with DividerNode _ text => Some text | _ => None end) nodes.

(** The tokens of a placeholder, each with its letter. *)
Definition tokensOf (rs : list (option ascii * string)) : list (ascii * string) :=
  omap (fun r => match r.1 with Some c => Some (c, r.2) | None => None end) rs.

Definition tokens (placeholder : string) : list (ascii * string) :=
  tokensOf (runs placeholder).

(** A token that its render function takes: a day of at most two letters,
    a month of at most four, any year. *)
Definition supported (token : ascii * string) : Prop :=
  (token.1 = "d"%char → (String.length token.2 ≤ 2)%nat)
  ∧ (token.1 = "M"%char → (String.length token.2 ≤ 4)%nat).

(** The placeholder without the letters of its tokens. *)
Fixpoint stripKeys (s : string) : string :=
  match s with
  | EmptyString => EmptyString
  | String c s' =>
      if bool_decide (c ∈ elementKeys) then stripKeys s' else String c (stripKeys s')
  end.

(** What holds of a run: it is not empty, and holds its letter only, or
    no letter of a token at all. *)
Definition runOf (r : option ascii * string) : Prop :=
  r.2 ≠ EmptyString
  ∧ match r.1 with
    | Some c => c ∈ elementKeys ∧ ∀ c', occurs c' r.2 = true → c' = c
    | None => ∀ c', occurs c' r.2 = true → c' ∉ elementKeys
    end.

(** [matches && matches[index]]. *)
Definition matchAt (matches : option (list string)) (index : nat) : option string :=
  match matches with
  | Some ms => ms !! index
  | None => None
  end.

(** The strings of a list put one after the other. *)
Definition joined (l : list string) : string := foldr String.append EmptyString l.

(** From the turn [index] on, the matches are the tokens among [rs]. *)
Definition aligned (matches : option (list string)) (index : nat)
    (rs : list (option ascii * string)) : Prop :=
  ∀ j, matchAt matches (index + j) = (tokensOf rs).*2 !! j.

(** The parts of a date as a locale writes it: text of its own, and the
    year, the month and the day. *)
Inductive Part : Type :=
  | Literal (text : string)
  | YearPart
  | MonthPart
  | DayPart.

#[global] Instance Part_eq_dec : EqDecision Part.
Proof. solve_decision. Defined.

(** A part as it stands in the placeholder while it is made: the numeral
    of the reference date 11 December 2017, or the letter once the numeral
    was replaced. *)
Definition spell (yearDone monthDone dayDone : bool) (p : Part) : string :=
  match p with
  | Literal text => text
  | YearPart => if yearDone then "y" else "2017"
  | MonthPart => if monthDone then "M" else "12"
  | DayPart => if dayDone then "d" else "11"
  end.

Definition written : Part → string := spell false false false.
Definition letter : Part → string := spell true true true.

Definition partKey (p : Part) : option ascii :=
  match p with
  | Literal _ => None
  | YearPart => Some "y"%char
  | MonthPart => Some "M"%char
  | DayPart => Some "d"%char
  end.

Definition digitFree (text : string) : Prop :=
  ∀ c, occurs c text = true → digitValue c = None.

(** The year, the month and the day come at most once each, and the text
    between them holds no digit. *)
Definition wellFormed (parts : list Part) : Prop :=
  NoDup (omap partKey parts) ∧ ∀ text, Literal text ∈ parts → digitFree text.

(** [s] does not begin with [c]. *)
Definition notStarting (c : ascii) (s : string) : Prop :=
  match s with
  | String c' _ => c' ≠ c
  | EmptyString => True
  end.

(** The decimal numeral of a number from 0 on. *)
Fixpoint decimalFrom (fuel : nat) (n : Z) (acc : string) : string :=
  match fuel with
  | O => acc
  | S fuel' =>
      let acc' := String (digitChar (n mod 10)) acc in
      if n / 10 =? 0 then acc' else decimalFrom fuel' (n / 10) acc'
  end.

Definition decimal (n : Z) : string := decimalFrom 20 n EmptyString.

(** A formatter to run the examples with: month/day/year in numerals. *)
Definition exampleFormatter : Formatter :=
  {| formatDate_with := fun month day date =>
       match getYear date, getMonthHuman date, getDate date with
       | Num y, Num m, Num d =>
           ((if month then decimal m ++ "/" else "")
            ++ (if day then decimal d ++ "/" else "") ++ decimal y)%string
       | _, _, _ => "Invalid Date"
       end;
     formatNumber := decimal |}.

(** ** Theorems *)

(** *** Years and day numbers *)

Lemma DayFromYear_bounds y :
  146097 * (y - 1970) - 508 <= 400 * DayFromYear y <= 146097 * (y - 1970) + 589.
Proof. unfold DayFromYear. Z.div_mod_to_equations. lia. Qed.

Lemma DayFromYear_succ y : DayFromYear (y + 1) = DayFromYear y + DaysInYear y.
Proof.
  unfold DayFromYear, DaysInYear.
  repeat case_decide; Z.div_mod_to_equations; lia.
Qed.

Lemma DaysInYear_cases y : DaysInYear y = 365 ∨ DaysInYear y = 366.
Proof. unfold DaysInYear. repeat case_decide; auto. Qed.

Lemma DayFromYear_mono y y' : y <= y' → DayFromYear y <= DayFromYear y'.
Proof.
  intros Hle.
  destruct (decide (y = y')) as [->|Hne]; [lia|].
  destruct (decide (y' = y + 1)) as [->|Hne'].
  - rewrite DayFromYear_succ. destruct (DaysInYear_cases y); lia.
  - pose proof (DayFromYear_bounds y). pose proof (DayFromYear_bounds y'). lia.
Qed.

Lemma DayFromYear_lt y y' : y < y' → DayFromYear y < DayFromYear y'.
Proof.
  intros Hlt.
  pose proof (DayFromYear_mono (y + 1) y' ltac:(lia)) as H.
  rewrite DayFromYear_succ in H. destruct (DaysInYear_cases y); lia.
Qed.

(** [YearFromDay d] is the year that day [d] falls in. *)
Lemma YearFromDay_spec d :
  DayFromYear (YearFromDay d) <= d < DayFromYear (YearFromDay d + 1).
Proof.
  unfold YearFromDay.
  set (y := 1970 + 400 * d / 146097).
  assert (146097 * (y - 1970) <= 400 * d < 146097 * (y - 1970) + 146097) as Hy.
  { subst y. Z.div_mod_to_equations. lia. }
  pose proof (DayFromYear_bounds (y - 1)).
  pose proof (DayFromYear_bounds (y + 1 + 1)).
  repeat case_decide; replace (y - 1 + 1) with y by lia; lia.
Qed.

Lemma YearFromDay_unique d y :
  DayFromYear y <= d < DayFromYear (y + 1) → YearFromDay d = y.
Proof.
  intros Hy. pose proof (YearFromDay_spec d) as Hs.
  destruct (Z.lt_trichotomy (YearFromDay d) y) as [Hlt|[Heq|Hgt]]; [|done|].
  - pose proof (DayFromYear_mono (YearFromDay d + 1) y ltac:(lia)). lia.
  - pose proof (DayFromYear_mono (y + 1) (YearFromDay d) ltac:(lia)). lia.
Qed.

(** [YearFromTime t] is the largest year [y] with [TimeFromYear y <= t]. *)
Lemma YearFromTime_largest (t : Z) :
  TimeFromYear (YearFromTime t) <= t
  ∧ ∀ y, TimeFromYear y <= t → y <= YearFromTime t.
Proof.
  pose proof (YearFromDay_spec (Day t)) as [Hle Hlt].
  unfold TimeFromYear, YearFromTime, Day, msPerDay in *. split.
  - Z.div_mod_to_equations. lia.
  - intros y Hy.
    destruct (decide (y <= YearFromDay (t / 86400000))) as [|Hgt]; [done|].
    pose proof (DayFromYear_mono (YearFromDay (t / 86400000) + 1) y ltac:(lia)).
    Z.div_mod_to_equations. lia.
Qed.

(** *** Day numbers and calendar fields *)

Lemma Day_MakeDate d tm : 0 <= tm < msPerDay → Day (MakeDate d tm) = d.
Proof.
  unfold Day, MakeDate, msPerDay. intros Htm.
  Z.div_mod_to_equations. lia.
Qed.

Lemma Day_bounds t : Day t * msPerDay <= t < Day t * msPerDay + msPerDay.
Proof. unfold Day, msPerDay. Z.div_mod_to_equations. lia. Qed.

Lemma DayWithinYear_bounds t :
  0 <= DayWithinYear t < DaysInYear (YearFromTime t).
Proof.
  unfold DayWithinYear, YearFromTime.
  pose proof (YearFromDay_spec (Day t)) as Hs.
  rewrite DayFromYear_succ in Hs. lia.
Qed.

Lemma InLeapYear_cases t :
  (InLeapYear t = 0 ∧ DaysInYear (YearFromTime t) = 365)
  ∨ (InLeapYear t = 1 ∧ DaysInYear (YearFromTime t) = 366).
Proof.
  unfold InLeapYear. destruct (DaysInYear_cases (YearFromTime t)); case_decide; lia.
Qed.

Lemma MonthFromTime_range t : 0 <= MonthFromTime t <= 11.
Proof. unfold MonthFromTime. repeat case_decide; lia. Qed.

(** Splitting a month index from 0 to 11 into its twelve cases. *)
Ltac month_cases m :=
  let H := fresh in
  assert (m = 0 ∨ m = 1 ∨ m = 2 ∨ m = 3 ∨ m = 4 ∨ m = 5 ∨ m = 6 ∨ m = 7
          ∨ m = 8 ∨ m = 9 ∨ m = 10 ∨ m = 11) as H by lia;
  destruct_or! H; subst m.

(** The fields of day [MakeDay y m dt] are [y], [m] and [dt]. *)
Lemma fields_of_MakeDay y m dt t :
  0 <= m <= 11 → 1 <= dt <= DaysInMonth y m → Day t = MakeDay y m dt →
  YearFromTime t = y ∧ MonthFromTime t = m ∧ DateFromTime t = dt.
Proof.
  intros Hm Hdt Hday.
  assert (MakeDay y m dt =
          DayFromYear y
          + DaysBeforeMonth (if decide (DaysInYear y = 366) then 1 else 0) m + dt - 1)
    as Hmk.
  { unfold MakeDay. rewrite (Z.div_small m 12), (Z.mod_small m 12) by lia.
    by rewrite Z.add_0_r. }
  assert (YearFromTime t = y) as Hyear.
  { unfold YearFromTime. apply YearFromDay_unique.
    rewrite DayFromYear_succ, Hday, Hmk.
    destruct (DaysInYear_cases y) as [Hd|Hd]; rewrite Hd in *;
      month_cases m; simpl in *; repeat case_decide; lia. }
  split; [done|].
  assert (DayWithinYear t =
          DaysBeforeMonth (if decide (DaysInYear y = 366) then 1 else 0) m + dt - 1)
    as Hdwy.
  { unfold DayWithinYear. rewrite Hyear, Hday, Hmk. lia. }
  assert (InLeapYear t = if decide (DaysInYear y = 366) then 1 else 0) as Hleap.
  { unfold InLeapYear. by rewrite Hyear. }
  assert (MonthFromTime t = m) as Hmonth.
  { unfold MonthFromTime. rewrite Hdwy, Hleap.
    destruct (DaysInYear_cases y) as [Hd|Hd]; rewrite Hd in *;
      month_cases m; simpl in *; repeat case_decide; lia. }
  split; [done|].
  unfold DateFromTime. rewrite Hmonth, Hdwy, Hleap.
  clear Hmonth Hdwy Hleap Hyear Hday Hmk.
  destruct (DaysInYear_cases y) as [Hd|Hd]; rewrite Hd in *;
    month_cases m; simpl in *; repeat case_decide; lia.
Qed.

(** The day of [t] is [MakeDay] of its fields, and they name a day the
    calendar has. *)
Lemma MakeDay_of_fields t :
  MakeDay (YearFromTime t) (MonthFromTime t) (DateFromTime t) = Day t
  ∧ 1 <= DateFromTime t <= DaysInMonth (YearFromTime t) (MonthFromTime t).
Proof.
  pose proof (DayWithinYear_bounds t) as Hb.
  pose proof (MonthFromTime_range t) as Hm.
  unfold MakeDay.
  rewrite (Z.div_small (MonthFromTime t) 12), (Z.mod_small (MonthFromTime t) 12) by lia.
  rewrite Z.add_0_r.
  assert (Day t = DayFromYear (YearFromTime t) + DayWithinYear t) as ->
    by (unfold DayWithinYear; lia).
  fold (InLeapYear t).
  unfold DateFromTime, DaysInMonth. fold (InLeapYear t).
  unfold MonthFromTime in *.
  destruct (InLeapYear_cases t) as [[Hl Hd]|[Hl Hd]]; rewrite Hl, Hd in *;
    repeat case_decide; simpl; lia.
Qed.

Lemma DayFromYear_range (y : Z) :
  -271820 <= y <= 275760 → -100000000 < DayFromYear y < 100000000.
Proof. intros Hy. pose proof (DayFromYear_bounds y). lia. Qed.

Lemma MakeDay_in_year (y m dt : Z) :
  0 <= m <= 11 → 1 <= dt <= DaysInMonth y m →
  DayFromYear y <= MakeDay y m dt < DayFromYear (y + 1).
Proof.
  intros Hm Hdt.
  pose proof (fields_of_MakeDay y m dt (MakeDate (MakeDay y m dt) 0) Hm Hdt) as (Hy & _).
  { by rewrite Day_MakeDate. }
  pose proof (YearFromDay_spec (MakeDay y m dt)) as Hs.
  unfold YearFromTime in Hy. rewrite Day_MakeDate in Hy by done.
  by rewrite Hy in Hs.
Qed.

(** Midnight of a day the calendar has, in a year the time value reaches:
    a valid date whose fields are those given. *)
Lemma fields_of_dateAt (y m dt : Z) :
  -271820 <= y <= 275759 → 0 <= m <= 11 → 1 <= dt <= DaysInMonth y m →
  dateAt (Num y) (Num m) (Num dt) = mkDate (Num (MakeDay y m dt * msPerDay))
  ∧ getYear (dateAt (Num y) (Num m) (Num dt)) = Num y
  ∧ getMonth (dateAt (Num y) (Num m) (Num dt)) = Num m
  ∧ getDate (dateAt (Num y) (Num m) (Num dt)) = Num dt.
Proof.
  intros Hy Hm Hdt.
  pose proof (MakeDay_in_year y m dt Hm Hdt) as Hin.
  pose proof (DayFromYear_range y ltac:(lia)).
  pose proof (DayFromYear_range (y + 1) ltac:(lia)).
  assert (dateAt (Num y) (Num m) (Num dt) = mkDate (Num (MakeDay y m dt * msPerDay)))
    as ->.
  { unfold dateAt, TimeClip, UTC, LocalTZA, MakeDate, MakeTime, maxTime, msPerDay in *.
    case_decide; [lia|]. do 2 f_equal. lia. }
  split; [done|].
  destruct (fields_of_MakeDay y m dt (MakeDay y m dt * msPerDay) Hm Hdt)
    as (Hyear & Hmonth & Hdate).
  { replace (MakeDay y m dt * msPerDay) with (MakeDate (MakeDay y m dt) 0)
      by (unfold MakeDate; lia).
    by apply Day_MakeDate. }
  unfold getYear, getFullYear, getMonth, getDate, Date_getDate, LocalTime, LocalTZA.
  simpl. rewrite !Z.add_0_r, Hyear, Hmonth, Hdate. done.
Qed.

(** Outside the years 0 to 99, [new Date(year, month, date)] is [dateAt]. *)
Lemma Date_ymd_dateAt (y m dt : Z) :
  ¬ 0 <= y <= 99 → Date_ymd (Num y) (Num m) (Num dt) = dateAt (Num y) (Num m) (Num dt).
Proof. intros Hy. unfold Date_ymd, dateAt. by case_decide. Qed.

(** In the years 0 to 99 the date assembled is that of the year 1900 later. *)
Lemma Date_ymd_two_digit_year (y m dt : Z) :
  0 <= y <= 99 →
  Date_ymd (Num y) (Num m) (Num dt) = dateAt (Num (1900 + y)) (Num m) (Num dt).
Proof. intros Hy. unfold Date_ymd, dateAt. by case_decide. Qed.

(** *** The unit a date is rounded to *)

Lemma Day_between (B E s : Z) :
  B * msPerDay <= s <= E * msPerDay - 1 ↔ B <= Day s < E.
Proof. unfold Day, msPerDay. split; intros Hs; Z.div_mod_to_equations; lia. Qed.

Lemma MakeDay_date_succ (y m dt : Z) : MakeDay y m (dt + 1) = MakeDay y m dt + 1.
Proof. unfold MakeDay. lia. Qed.

Lemma MakeDay_year_start (y : Z) : MakeDay y 0 1 = DayFromYear y.
Proof.
  unfold MakeDay. change (0 / 12) with 0. change (0 mod 12) with 0.
  cbn [DaysBeforeMonth]. rewrite !Z.add_0_r. lia.
Qed.

Lemma MakeDay_next_month (y m : Z) :
  0 <= m <= 11 → MakeDay y (m + 1) 1 = MakeDay y m 1 + DaysInMonth y m.
Proof.
  intros Hm. destruct (decide (m = 11)) as [->|Hne].
  - unfold MakeDay, DaysInMonth.
    change ((11 + 1) / 12) with 1. change ((11 + 1) mod 12) with 0.
    change (11 / 12) with 0. change (11 mod 12) with 11.
    cbn [DaysBeforeMonth]. rewrite DayFromYear_succ, !Z.add_0_r.
    destruct (DaysInYear_cases y) as [Hd|Hd]; rewrite Hd; repeat case_decide; lia.
  - unfold MakeDay, DaysInMonth.
    rewrite (Z.div_small m 12), (Z.mod_small m 12),
      (Z.div_small (m + 1) 12), (Z.mod_small (m + 1) 12) by lia.
    rewrite Z.add_0_r.
    destruct (DaysInYear_cases y) as [Hd|Hd]; rewrite Hd;
      month_cases m; simpl; repeat case_decide; lia.
Qed.

Lemma sameYear_iff (s y : Z) :
  YearFromTime s = y ↔ DayFromYear y <= Day s < DayFromYear (y + 1).
Proof.
  unfold YearFromTime. split.
  - intros <-. apply YearFromDay_spec.
  - apply YearFromDay_unique.
Qed.

Lemma sameMonth_iff (s y m : Z) :
  0 <= m <= 11 →
  YearFromTime s = y ∧ MonthFromTime s = m
  ↔ MakeDay y m 1 <= Day s < MakeDay y (m + 1) 1.
Proof.
  intros Hm. rewrite MakeDay_next_month by done. split.
  - intros [<- <-]. destruct (MakeDay_of_fields s) as [<- Hd].
    unfold MakeDay. lia.
  - intros Hs.
    destruct (fields_of_MakeDay y m (Day s - MakeDay y m 1 + 1) s) as (? & ? & _);
      [done|lia|unfold MakeDay; lia|done].
Qed.

Lemma dateAt_value (y m dt : Z) :
  -100000000 <= MakeDay y m dt <= 100000000 →
  dateAt (Num y) (Num m) (Num dt) = mkDate (Num (MakeDay y m dt * msPerDay)).
Proof.
  intros Hd.
  unfold dateAt, TimeClip, UTC, LocalTZA, MakeDate, MakeTime, maxTime, msPerDay in *.
  case_decide; [lia|]. do 2 f_equal. lia.
Qed.

Lemma justBefore_value (x : Z) :
  - maxTime < x <= maxTime → justBefore (mkDate (Num x)) = mkDate (Num (x - 1)).
Proof.
  intros Hx. unfold justBefore, TimeClip, maxTime in *. simpl. case_decide; [lia|done].
Qed.

(** The year, the month and the day of [t] begin at [b] and end at [e]:
    the times from [b] to [e] are those of the same year, month or day. *)
Lemma unit_of_time (t : Z) :
  -271820 <= YearFromTime t <= 275759 →
  let d := mkDate (Num t) in
  (∃ b e, getYearStart d = mkDate (Num b) ∧ getYearEnd d = mkDate (Num e)
          ∧ ∀ s, sameUnit "year" s t ↔ b <= s <= e)
  ∧ (∃ b e, getMonthStart d = mkDate (Num b) ∧ getMonthEnd d = mkDate (Num e)
            ∧ ∀ s, sameUnit "month" s t ↔ b <= s <= e)
  ∧ (∃ b e, getDayStart d = mkDate (Num b) ∧ getDayEnd d = mkDate (Num e)
            ∧ ∀ s, sameUnit "day" s t ↔ b <= s <= e).
Proof.
  intros Hy d.
  set (y := YearFromTime t) in *. set (m := MonthFromTime t).
  pose proof (MonthFromTime_range t) as Hm. fold m in Hm.
  destruct (MakeDay_of_fields t) as [Hday Hdate]. fold y m in Hday, Hdate.
  pose proof (DayFromYear_range y ltac:(lia)) as Hy0.
  pose proof (DayFromYear_range (y + 1) ltac:(lia)) as Hy1.
  pose proof (MakeDay_in_year y m 1 Hm) as Hm1.
  pose proof (MakeDay_in_year y m (DaysInMonth y m) Hm) as Hm2.
  pose proof (MakeDay_next_month y m Hm) as Hnext.
  assert (1 <= DaysInMonth y m) as Hdim by lia.
  specialize (Hm1 ltac:(lia)). specialize (Hm2 ltac:(lia)).
  assert (MakeDay y m (DaysInMonth y m) = MakeDay y m 1 + DaysInMonth y m - 1) as Hlast
    by (unfold MakeDay; lia).
  assert (getYear d = Num y ∧ getMonth d = Num m ∧ getDate d = Num (DateFromTime t))
    as (Hgy & Hgm & Hgd).
  { unfold getYear, getFullYear, getMonth, getDate, Date_getDate, LocalTime, LocalTZA.
    simpl. by rewrite Z.add_0_r. }
  split; [|split].
  - exists (DayFromYear y * msPerDay), (DayFromYear (y + 1) * msPerDay - 1).
    unfold getYearStart, getYearEnd. rewrite Hgy. cbn [num_add].
    rewrite !dateAt_value by (rewrite MakeDay_year_start; lia).
    rewrite !MakeDay_year_start.
    rewrite justBefore_value by (unfold maxTime, msPerDay; lia).
    split; [done|]. split; [done|]. intros s.
    rewrite Day_between. unfold sameUnit. simpl. by rewrite sameYear_iff.
  - exists (MakeDay y m 1 * msPerDay), (MakeDay y (m + 1) 1 * msPerDay - 1).
    unfold getMonthStart, getMonthEnd. rewrite Hgy, Hgm. cbn [num_add].
    rewrite !dateAt_value by lia.
    rewrite justBefore_value by (unfold maxTime, msPerDay; lia).
    split; [done|]. split; [done|]. intros s.
    rewrite Day_between. unfold sameUnit. simpl. fold y m.
    by rewrite sameMonth_iff.
  - exists (Day t * msPerDay), ((Day t + 1) * msPerDay - 1).
    assert (MakeDay y m 1 <= Day t <= MakeDay y m (DaysInMonth y m)) as Hin
      by (rewrite <- Hday; unfold MakeDay; lia).
    unfold getDayStart, getDayEnd. rewrite Hgy, Hgm, Hgd. cbn [num_add].
    rewrite !dateAt_value by (rewrite ?MakeDay_date_succ, Hday; lia).
    rewrite MakeDay_date_succ, Hday.
    rewrite justBefore_value by (unfold maxTime, msPerDay; lia).
    split; [done|]. split; [done|]. intros s.
    rewrite Day_between. unfold sameUnit. simpl. lia.
Qed.

(** *** Range derivation: parsing, arrays, single values *)

Lemma truthy_false (rawValue : raw) :
  truthy rawValue = false ↔
  rawValue = RUndefined ∨ rawValue = RNull ∨ rawValue = RString "".
Proof.
  destruct rawValue as [| |s|d]; simpl; try (split; [auto | done]).
  - rewrite negb_false_iff, bool_decide_eq_true.
    split; [intros ->; auto | intros [?|[?|[= ->]]]; done].
  - split; [done | intros [?|[?|?]]; done].
Qed.

(** C6. [parseAndValidateDate] returns [null], and raises nothing, on an
    absent or empty candidate ([undefined], [null], the empty string); on
    any other candidate whose date is invalid it raises the invalid date
    error, naming the candidate; otherwise it returns the date. *)
Theorem parseAndValidateDate_cases `{Host} (rawValue : raw) :
  ((rawValue = RUndefined ∨ rawValue = RNull ∨ rawValue = RString "") →
     parseAndValidateDate rawValue = Ok RNull)
  ∧ (¬ (rawValue = RUndefined ∨ rawValue = RNull ∨ rawValue = RString "") →
     getTime (Date_of rawValue) = NaN →
     parseAndValidateDate rawValue = Throw (InvalidDate rawValue))
  ∧ (¬ (rawValue = RUndefined ∨ rawValue = RNull ∨ rawValue = RString "") →
     ∀ t, getTime (Date_of rawValue) = Num t →
     parseAndValidateDate rawValue = Ok (RDate (mkDate (Num t)))).
Proof.
  unfold parseAndValidateDate.
  split; [|split].
  - intros Hfalsy. apply truthy_false in Hfalsy. by rewrite Hfalsy.
  - intros Hnot Hnan.
    destruct (truthy rawValue) eqn:Ht; [|by apply truthy_false in Ht].
    simpl. by rewrite Hnan.
  - intros Hnot t Ht.
    destruct (truthy rawValue) eqn:Htr; [|by apply truthy_false in Htr].
    simpl. rewrite Ht. simpl. f_equal. f_equal.
    destruct (Date_of rawValue) as [n]. simpl in Ht. by subst n.
Qed.

(** An empty string gives [null]; a string that is no date raises; one that
    is a date gives it. *)
Lemma parseAndValidateDate_cases_witness :
  @parseAndValidateDate exampleHost (RString "") = Ok RNull
  ∧ @parseAndValidateDate exampleHost (RString "15/07")
    = Throw (InvalidDate (RString "15/07"))
  ∧ @parseAndValidateDate exampleHost (RString "2023-07-15")
    = Ok (RDate (mkDate (Num 1689379200000))).
Proof.
  pose proof (@parseAndValidateDate_cases exampleHost (RString "")) as (H1 & _ & _).
  pose proof (@parseAndValidateDate_cases exampleHost (RString "15/07")) as (_ & H2 & _).
  pose proof (@parseAndValidateDate_cases exampleHost (RString "2023-07-15")) as (_ & _ & H3).
  split; [|split].
  - apply H1. auto.
  - apply H2; [|reflexivity]. intros [?|[?|?]]; discriminate.
  - apply H3; [|reflexivity]. intros [?|[?|?]]; discriminate.
Defined.

(** C5. An array given as the value comes back from [getDetailValueArray]
    as it is, whatever its length and elements and whatever the bounds and
    the detail: no element is parsed, rounded or put between the bounds. *)
Theorem getDetailValueArray_verbatim `{Host} (items : list raw)
    (minDate maxDate : option Date) (maxDetail : string) :
  getDetailValueArray (Arr items) minDate maxDate maxDetail = Ok (Arr items).
Proof. unfold getDetailValueArray. done. Qed.

Lemma getBegin_units `{Host} (d : Date) :
  getBegin (Some "year") d = Ok (getYearStart d)
  ∧ getBegin (Some "month") d = Ok (getMonthStart d)
  ∧ getBegin (Some "day") d = Ok (getDayStart d).
Proof. unfold getBegin. repeat split; repeat (case_decide; [done|]); by case_decide. Qed.

Lemma getEnd_units `{Host} (d : Date) :
  getEnd (Some "year") d = Ok (getYearEnd d)
  ∧ getEnd (Some "month") d = Ok (getMonthEnd d)
  ∧ getEnd (Some "day") d = Ok (getDayEnd d).
Proof. unfold getEnd. repeat split; repeat (case_decide; [done|]); by case_decide. Qed.

Lemma getBegin_getEnd_decade `{Host} (unit : string) (d : Date) :
  unit = "decade" →
  ∃ start end_, getBegin (Some unit) d = Ok start ∧ getEnd (Some unit) d = Ok end_.
Proof.
  intros ->. exists (getDecadeStart d), (getDecadeEnd d).
  split; vm_compute; reflexivity.
Qed.

Lemma getValueType_views :
  getValueType "century" = Some "decade" ∧ getValueType "decade" = Some "year"
  ∧ getValueType "year" = Some "month" ∧ getValueType "month" = Some "day"
  ∧ getValueType "day" = None.
Proof. vm_compute. done. Qed.

(** No value, no range: an absent or empty single value derives [null] at
    both ends. *)
Lemma getDetailValue_absent `{Host} (rawValue : raw) minDate maxDate maxDetail :
  truthy rawValue = false →
  getDetailValueFrom (Single rawValue) minDate maxDate maxDetail = Ok RNull
  ∧ getDetailValueTo (Single rawValue) minDate maxDate maxDetail = Ok RNull.
Proof.
  intros Hf.
  unfold getDetailValueFrom, getDetailValueTo, getValueFrom, getValueTo,
    parseAndValidateDate.
  cbn [getValueFromRange]. by rewrite Hf.
Qed.

(** A single value that is a date is rounded by [getBegin] and [getEnd] at
    the value type of the detail, then put between the bounds. *)
Lemma getDetailValue_of_date `{Host} (rawValue : raw) (d start end_ : Date)
    (minDate maxDate : option Date) (maxDetail : string) :
  parseAndValidateDate rawValue = Ok (RDate d) →
  getBegin (getValueType maxDetail) d = Ok start →
  getEnd (getValueType maxDetail) d = Ok end_ →
  getDetailValueFrom (Single rawValue) minDate maxDate maxDetail
  = Ok (RDate (between start minDate maxDate))
  ∧ getDetailValueTo (Single rawValue) minDate maxDate maxDetail
    = Ok (RDate (between end_ minDate maxDate)).
Proof.
  intros Hparse Hbegin Hend.
  unfold getDetailValueFrom, getDetailValueTo, getValueFrom, getValueTo.
  cbn [getValueFromRange]. rewrite Hparse. cbn [mbind result_bind].
  by rewrite Hbegin, Hend.
Qed.

(** The derived start and end of a date are dates. *)
Lemma getDetailValueFrom_date `{Host} (d : Date) minDate maxDate maxDetail (r : raw) :
  getDetailValueFrom (Single (RDate d)) minDate maxDate maxDetail = Ok r →
  ∃ d', r = RDate d'.
Proof.
  unfold getDetailValueFrom, getValueFrom, parseAndValidateDate. simpl.
  destruct (isNaN (getTime d)); simpl; [done|].
  destruct (getBegin _ _); simpl; [|done]. intros [= <-]. eauto.
Qed.

Lemma getDetailValueTo_date `{Host} (d : Date) minDate maxDate maxDetail (r : raw) :
  getDetailValueTo (Single (RDate d)) minDate maxDate maxDetail = Ok r →
  ∃ d', r = RDate d'.
Proof.
  unfold getDetailValueTo, getValueTo, parseAndValidateDate. simpl.
  destruct (isNaN (getTime d)); simpl; [done|].
  destruct (getEnd _ _); simpl; [|done]. intros [= <-]. eauto.
Qed.




(** *** Bounds *)

(** Between bounds in order, a valid date comes out within them. *)
Lemma between_within (v lo hi : Date) (x a b : Z) :
  getTime v = Num x → getTime lo = Num a → getTime hi = Num b → a <= b →
  ∃ r, getTime (between v (Some lo) (Some hi)) = Num r ∧ a <= r <= b
       ∧ (a <= x <= b → r = x).
Proof.
  intros Hv Hlo Hhi Hab. unfold between, num_lt, num_gt. rewrite Hv, Hlo, Hhi.
  repeat case_bool_decide.
  - exists a. rewrite Hlo. split; [done|]. lia.
  - exists b. rewrite Hhi. split; [done|]. lia.
  - exists x. rewrite Hv. split; [done|]. lia.
Qed.





(** *** Value projection *)

(** C7. [getProcessedValue] on a candidate date: mode start gives the
    derived start of range, mode end the derived end of range, mode range
    the pair of the two (an error of either derivation is passed on); any
    other mode raises the invalid return value error, at the call. *)
Theorem getProcessedValue_modes `{Host} (props : Props) (d : Date) :
  let candidate := Single (RDate d) in
  let minDate := props_minDate props in
  let maxDate := props_maxDate props in
  let maxDetail := props_maxDetail props in
  (props_returnValue props = "start" →
     getProcessedValue props candidate =
     match getDetailValueFrom candidate minDate maxDate maxDetail with
     | Ok start => Ok (Single start)
     | Throw e => Throw e
     end)
  ∧ (props_returnValue props = "end" →
     getProcessedValue props candidate =
     match getDetailValueTo candidate minDate maxDate maxDetail with
     | Ok end_ => Ok (Single end_)
     | Throw e => Throw e
     end)
  ∧ (props_returnValue props = "range" →
     getProcessedValue props candidate =
     match getDetailValueFrom candidate minDate maxDate maxDetail,
           getDetailValueTo candidate minDate maxDate maxDetail with
     | Ok start, Ok end_ => Ok (Arr [start; end_])
     | Throw e, _ => Throw e
     | Ok _, Throw e => Throw e
     end)
  ∧ (props_returnValue props ∉ ["start"; "end"; "range"] →
     getProcessedValue props candidate = Throw InvalidReturnValue).
Proof.
  intros candidate minDate maxDate maxDetail. unfold getProcessedValue.
  fold minDate maxDate maxDetail.
  repeat split.
  - intros ->. simpl. by destruct (getDetailValueFrom _ _ _ _).
  - intros ->. simpl. by destruct (getDetailValueTo _ _ _ _).
  - intros ->. simpl.
    destruct (getDetailValueFrom _ _ _ _); simpl; [|done].
    by destruct (getDetailValueTo _ _ _ _).
  - intros Hnot. rewrite !elem_of_cons in Hnot.
    repeat case_decide; try done; exfalso; apply Hnot; auto.
Qed.

(** With the detail at month, 15 July 2023 projects to the start of that
    day, to its end, or to the pair; the mode "both" raises. *)
Lemma getProcessedValue_modes_witness :
  let d := Date_ymd (Num 2023) (Num 6) (Num 15) in
  @getProcessedValue exampleHost (exampleProps "month" "start") (Single (RDate d))
    = Ok (Single (RDate (mkDate (Num 1689379200000))))
  ∧ @getProcessedValue exampleHost (exampleProps "month" "end") (Single (RDate d))
    = Ok (Single (RDate (mkDate (Num 1689465599999))))
  ∧ @getProcessedValue exampleHost (exampleProps "month" "range") (Single (RDate d))
    = Ok (Arr [RDate (mkDate (Num 1689379200000)); RDate (mkDate (Num 1689465599999))])
  ∧ @getProcessedValue exampleHost (exampleProps "month" "both") (Single (RDate d))
    = Throw InvalidReturnValue.
Proof.
  intros d.
  pose proof (@getProcessedValue_modes exampleHost (exampleProps "month" "start") d)
    as (H1 & _).
  pose proof (@getProcessedValue_modes exampleHost (exampleProps "month" "end") d)
    as (_ & H2 & _).
  pose proof (@getProcessedValue_modes exampleHost (exampleProps "month" "range") d)
    as (_ & _ & H3 & _).
  pose proof (@getProcessedValue_modes exampleHost (exampleProps "month" "both") d)
    as (_ & _ & _ & H4).
  split; [|split; [|split]].
  - rewrite H1; reflexivity.
  - rewrite H2; reflexivity.
  - rewrite H3; reflexivity.
  - apply H4. cbn [props_returnValue exampleProps].
    rewrite !elem_of_cons, elem_of_nil. intros [?|[?|[?|?]]]; done.
Defined.

(** A candidate date never projects to [null]. *)
Lemma getProcessedValue_date_not_null `{Host} (props : Props) (d : Date) :
  getProcessedValue props (Single (RDate d)) ≠ Ok (Single RNull).
Proof.
  unfold getProcessedValue, getDetailValueArray.
  repeat case_decide; [| | |done].
  - destruct (getDetailValueFrom _ _ _ _) as [r|] eqn:E; simpl; [|done].
    apply getDetailValueFrom_date in E as [d' ->]. done.
  - destruct (getDetailValueTo _ _ _ _) as [r|] eqn:E; simpl; [|done].
    apply getDetailValueTo_date in E as [d' ->]. done.
  - destruct (getDetailValueFrom _ _ _ _) as [r|]; simpl; [|done].
    by destruct (getDetailValueTo _ _ _ _).
Qed.

(** With a known return mode and detail, a valid candidate date projects. *)
Lemma getProcessedValue_succeeds `{Host} (props : Props) (d : Date) :
  props_returnValue props ∈ ["start"; "end"; "range"] →
  props_maxDetail props ∈ allViews →
  isNaN (getTime d) = false →
  ∃ processedValue, getProcessedValue props (Single (RDate d)) = Ok processedValue.
Proof.
  intros Hmode Hdetail Hvalid.
  assert (∃ start end_,
            getBegin (getValueType (props_maxDetail props)) d = Ok start
            ∧ getEnd (getValueType (props_maxDetail props)) d = Ok end_)
    as (start & end_ & Hbegin & Hend).
  { unfold allViews in Hdetail. rewrite !elem_of_cons, elem_of_nil in Hdetail.
    destruct getValueType_views as (Vc & Vd & Vy & Vm & _).
    destruct (getBegin_units d) as (By & Bm & Bd).
    destruct (getEnd_units d) as (Ey & Em & Ed).
    destruct Hdetail as [->|[->|[->|[->|[]]]]].
    - rewrite Vc. by apply getBegin_getEnd_decade.
    - rewrite Vd, By, Ey. eauto.
    - rewrite Vy, Bm, Em. eauto.
    - rewrite Vm, Bd, Ed. eauto. }
  assert (parseAndValidateDate (RDate d) = Ok (RDate d)) as Hparse.
  { unfold parseAndValidateDate. cbn [truthy negb Date_of getTime].
    rewrite Hvalid. by destruct d. }
  destruct (getDetailValue_of_date (RDate d) d start end_ (props_minDate props)
              (props_maxDate props) (props_maxDetail props) Hparse Hbegin Hend)
    as [Hfrom Hto].
  unfold getProcessedValue, getDetailValueArray. rewrite Hfrom, Hto.
  rewrite !elem_of_cons, elem_of_nil in Hmode.
  destruct Hmode as [->|[->|[->|[]]]]; repeat case_decide; try done; simpl; eauto.
Qed.

(** *** Segment edits *)

Lemma nonEmpty_true (s : string) : nonEmpty s = true ↔ s ≠ "".
Proof. unfold nonEmpty. by rewrite negb_true_iff, bool_decide_eq_false. Qed.

Lemma nonEmpty_false (s : string) : nonEmpty s = false ↔ s = "".
Proof. unfold nonEmpty. by rewrite negb_false_iff, bool_decide_eq_true. Qed.

Lemma forallb_blank (l : list Element) :
  forallb (fun e => negb (nonEmpty (value e))) l = true
  ↔ Forall (fun e => value e = "") l.
Proof.
  rewrite forallb_forall, Forall_forall.
  setoid_rewrite negb_true_iff. setoid_rewrite nonEmpty_false.
  setoid_rewrite list_elem_of_In. done.
Qed.

Lemma forallb_valid (l : list Element) :
  forallb (fun e => nonEmpty (value e) && checkValidity e) l = true
  ↔ Forall (fun e => value e ≠ "" ∧ checkValidity e = true) l.
Proof.
  rewrite forallb_forall, Forall_forall.
  setoid_rewrite andb_true_iff. setoid_rewrite nonEmpty_true.
  setoid_rewrite list_elem_of_In. done.
Qed.

(** When the segments carry the names their components give them, the date
    assembled is that of the year read from the year field, of the month
    read from the month field, 1 when it is absent or blank, less one, and
    of the day read from the day field, 1 when it is absent or blank. *)
Lemma proposedValue_segments (refs : Refs) :
  (∀ e, dayInput refs = Some e → name e = "day") →
  (∀ e, monthInput refs = Some e → name e = "month") →
  (∀ e, yearInput refs = Some e → name e = "year") →
  proposedValue (valuesOf (formElementsOf refs)) =
  Date_ymd (parseInt (from_option value "undefined" (yearInput refs)))
           (num_sub (parseInt (textOr1 (monthInput refs))) (Num 1))
           (parseInt (textOr1 (dayInput refs))).
Proof.
  destruct refs as [d m y]. simpl. intros Hd Hm Hy.
  assert (valuesOf (formElementsOf {| dayInput := d; monthInput := m; yearInput := y |})
          !! "year" = value <$> y
          ∧ valuesOf (formElementsOf {| dayInput := d; monthInput := m; yearInput := y |})
            !! "month" = value <$> m
          ∧ valuesOf (formElementsOf {| dayInput := d; monthInput := m; yearInput := y |})
            !! "day" = value <$> d) as (Ey & Em & Ed).
  { unfold valuesOf, formElementsOf.
    destruct d as [d|], m as [m|], y as [y|]; simpl;
      try rewrite (Hd d eq_refl); try rewrite (Hm m eq_refl);
      try rewrite (Hy y eq_refl); by simplify_map_eq. }
  unfold proposedValue. rewrite Ey, Em, Ed.
  by destruct d, m, y.
Qed.

(** A field that is there and not blank gives its own text. *)
Lemma textOr1_present (segment : option Element) :
  (∀ e, segment = Some e → value e ≠ "") →
  textOr1 segment = from_option value "1" segment.
Proof.
  intros Hpresent. destruct segment as [e|]; [|done]. cbn.
  by rewrite (proj2 (nonEmpty_true (value e)) (Hpresent e eq_refl)).
Qed.

(** With every field non-blank, the date assembled is that of the year, the
    month and the day that the fields read as, the month and the day being 1
    where there is no such field. *)
Lemma proposedValue_named (refs : Refs) :
  namedRefs refs →
  Forall (fun e => value e ≠ "" ∧ checkValidity e = true) (formElementsOf refs) →
  proposedValue (valuesOf (formElementsOf refs)) =
  Date_ymd (parseInt (from_option value "undefined" (yearInput refs)))
           (num_sub (parseInt (from_option value "1" (monthInput refs))) (Num 1))
           (parseInt (from_option value "1" (dayInput refs))).
Proof.
  intros (Hd & Hm & Hy) Hvalid. rewrite proposedValue_segments by done.
  rewrite Forall_forall in Hvalid.
  rewrite !textOr1_present; [done| |].
  - intros e He. apply Hvalid. unfold formElementsOf. rewrite He.
    apply list_elem_of_omap. exists (Some e). split; [|done].
    rewrite !elem_of_cons. auto.
  - intros e He. apply Hvalid. unfold formElementsOf. rewrite He.
    apply list_elem_of_omap. exists (Some e). split; [|done].
    rewrite !elem_of_cons. auto.
Qed.

(** A candidate date that is no date makes every known projection raise. *)
Lemma getProcessedValue_invalid_date `{Host} (props : Props) (d : Date) :
  props_returnValue props ∈ ["start"; "end"; "range"] →
  isNaN (getTime d) = true →
  getProcessedValue props (Single (RDate d)) = Throw (InvalidDate (RDate d)).
Proof.
  intros Hmode Hnan.
  assert (parseAndValidateDate (RDate d) = Throw (InvalidDate (RDate d))) as Hparse.
  { unfold parseAndValidateDate. cbn [truthy negb Date_of getTime]. by rewrite Hnan. }
  unfold getProcessedValue, getDetailValueArray, getDetailValueFrom, getDetailValueTo,
    getValueFrom, getValueTo.
  cbn [getValueFromRange]. rewrite Hparse.
  rewrite !elem_of_cons, elem_of_nil in Hmode.
  destruct Hmode as [->|[->|[->|[]]]]; repeat case_decide; done.
Qed.




(** *** Assembling a date and taking it apart *)

(** A day the calendar has, of a year from -271820 to 275759 that is not
    one of 0 to 99, assembled as [onChangeExternal] does and taken apart as
    [getDerivedStateFromProps] does, gives back year, month and day. *)
Lemma assemble_decompose (y m d : Z) :
  validTriple y m d → -271820 <= y <= 275759 → ¬ 0 <= y <= 99 →
  let date := Date_ymd (Num y) (num_sub (Num m) (Num 1)) (Num d) in
  getYear date = Num y ∧ getMonthHuman date = Num m ∧ getDate date = Num d.
Proof.
  intros [Hm Hd] Hy Hy99 date. subst date. cbn [num_sub].
  rewrite Date_ymd_dateAt by done.
  destruct (fields_of_dateAt y (m - 1) d) as (_ & Hyear & Hmonth & Hdate);
    [lia..|done|].
  unfold getMonthHuman. rewrite Hyear, Hmonth, Hdate. cbn [num_add].
  repeat split; f_equal; lia.
Qed.

Lemma parseInt_nonEmpty (s : string) (n : Z) : parseInt s = Num n → nonEmpty s = true.
Proof. by destruct s. Qed.




(** The example fields do not let the year 50 through: its field, which
    takes a year from 1000 on, answers that it is invalid, and the callback
    is not called. *)
Lemma onChangeExternal_year_50_not_called :
  @onChangeExternal exampleHost (exampleProps "month" "start") (segmentRefs "15" "6" "50")
  = Ok NoCall.
Proof. vm_compute. reflexivity. Qed.

(** The external sync of a first value that is midnight of a day the
    calendar has, the detail at month and no bounds: the segments become
    the year, the month and the day of that value. *)
Lemma getDerivedStateFromProps_fields `{Host} (y m d : Z) (returnValue : string) :
  validTriple y m d → -271820 <= y <= 275759 →
  let nextValue := dateAt (Num y) (Num (m - 1)) (Num d) in
  getDerivedStateFromProps (examplePropsOf (Single (RDate nextValue)) "month" returnValue)
                           initialState
  = Ok {| state_year := Some (Num y); state_month := Some (Num m);
          state_day := Some (Num d); state_value := RDate nextValue;
          state_isCalendarOpen := None |}.
Proof.
  intros [Hm Hd] Hy nextValue.
  destruct (fields_of_dateAt y (m - 1) d) as (Hat & Hyear & Hmonth & Hdate);
    [lia..|done|].
  fold nextValue in Hat, Hyear, Hmonth, Hdate.
  assert (∀ v, v = nextValue →
            getDetailValueFrom (Single (RDate v)) None None "month"
            = Ok (RDate nextValue)) as Hfrom.
  { intros v ->. unfold getDetailValueFrom, getValueFrom, parseAndValidateDate.
    cbn [getValueFromRange truthy negb Date_of].
    rewrite Hat. cbn [getTime isNaN mbind result_bind]. rewrite <- Hat.
    change (getValueType "month") with (Some "day").
    unfold getBegin. repeat (case_decide; [done|]). case_decide; [|done].
    cbn [mbind result_bind between]. unfold getDayStart.
    by rewrite Hyear, Hmonth, Hdate. }
  unfold getDerivedStateFromProps.
  cbn [props_minDate props_maxDate props_maxDetail props_value props_isCalendarOpen
       examplePropsOf initialState state_isCalendarOpen state_value].
  rewrite bool_decide_eq_false_2 by by intros [].
  rewrite (Hfrom nextValue eq_refl). cbn [mbind result_bind fst snd].
  rewrite bool_decide_eq_false_2 by done.
  rewrite (Hfrom nextValue eq_refl). cbn [mbind result_bind asDate].
  change (getDetailValueFrom (Single RUndefined) None None "month") with (Ok RNull).
  cbn [mbind result_bind asDate datesAreDifferent].
  unfold getMonthHuman. rewrite Hyear, Hmonth, Hdate. cbn [num_add].
  do 3 f_equal. f_equal. lia.
Qed.

(** In every year from 0 to 99 the year taken apart is the year 1900 later. *)
Lemma two_digit_year_shifted (y m d : Z) :
  0 <= y <= 99 → validTriple (1900 + y) m d →
  getYear (Date_ymd (Num y) (num_sub (Num m) (Num 1)) (Num d)) = Num (1900 + y).
Proof.
  intros Hy [Hm Hd]. cbn [num_sub]. rewrite Date_ymd_two_digit_year by done.
  by destruct (fields_of_dateAt (1900 + y) (m - 1) d) as (_ & -> & _); [lia..|done|].
Qed.

(** *** Focus advancement *)

Lemma findForward_ge (l : list Element) (k j : nat) :
  findForward l k = Some j → (k ≤ j)%nat.
Proof.
  revert k. induction l as [|e l IH]; intros k; simpl; [done|].
  destruct (isValidInput e); [intros [= ->]; lia|].
  intros Hj. apply IH in Hj. lia.
Qed.

(** What [findForward] finds is a valid input, the first one from [k] on. *)
Lemma findForward_first (l : list Element) (k j : nat) :
  findForward l k = Some j →
  (∃ e, l !! (j - k)%nat = Some e ∧ isValidInput e = true)
  ∧ ∀ i e, (i < j - k)%nat → l !! i = Some e → isValidInput e = false.
Proof.
  revert k. induction l as [|e l IH]; intros k; simpl; [done|].
  destruct (isValidInput e) eqn:He.
  - intros [= ->]. rewrite Nat.sub_diag. split; [eauto|]. intros i e' Hi. lia.
  - intros Hj. pose proof (findForward_ge _ _ _ Hj) as Hge.
    destruct (IH _ Hj) as [(e' & Hl & Hv) Hfirst].
    replace (j - k)%nat with (S (j - S k)) by lia. split; [eauto|].
    intros [|i] e''; simpl; [by intros _ [= <-]|].
    intros Hi. apply Hfirst. lia.
Qed.

Lemma findInput_next_after (siblings : list Element) (i j : nat) :
  findInput siblings i nextElementSibling = Some j → (i < j)%nat.
Proof. simpl. intros Hj. apply findForward_ge in Hj. lia. Qed.

(** C8. On key-up of a number key in a field that has the focus, reads as
    the integer [v] and has the maximum [max], with a valid input [next]
    after it: the focus goes to [next] exactly when [v * 10 > max], and
    stays where it was otherwise. *)
Theorem onKeyUp_advances (siblings : list Element) (event : KeyboardEvent)
    (input : Element) (v max : Z) (next : nat) :
  isNaN (parseInt (key event)) = false →
  siblings !! target event = Some input →
  StringToNumber (value input) = Num v →
  parseInt (default "null" (maxAttr input)) = Num max →
  findInput siblings (target event) nextElementSibling = Some next →
  (onKeyUp siblings (target event) event = next ↔ v * 10 > max)
  ∧ (¬ v * 10 > max → onKeyUp siblings (target event) event = target event).
Proof.
  intros Hkey Hinput Hv Hmax Hnext.
  pose proof (findInput_next_after _ _ _ Hnext) as Hlt.
  unfold onKeyUp. rewrite Hkey, Hinput, Hv, Hmax, Hnext. simpl.
  case_bool_decide; simpl; split; try lia; done.
Qed.

(** A month field of maximum 12 followed by a divider and the day field:
    after the key 2, the field reading 2, the focus is on the day field
    (20 > 12). *)
Lemma onKeyUp_advances_witness :
  let siblings :=
    [segmentInput "month" "2" "12" true; dividerSpan; segmentInput "day" "" "31" true] in
  let event := {| key := "2"; target := 0 |} in
  (onKeyUp siblings 0 event = 2%nat ↔ 2 * 10 > 12)
  ∧ (¬ 2 * 10 > 12 → onKeyUp siblings 0 event = 0%nat).
Proof.
  intros siblings event.
  apply (onKeyUp_advances siblings event (segmentInput "month" "2" "12" true) 2 12 2);
    reflexivity.
Defined.

(** After the key 1, the field reading 1, the focus stays (10 <= 12); so
    it does after a key that is no digit. *)
Example onKeyUp_stays :
  let siblings v :=
    [segmentInput "month" v "12" true; dividerSpan; segmentInput "day" "" "31" true] in
  onKeyUp (siblings "1") 0 {| key := "1"; target := 0 |} = 0%nat
  ∧ onKeyUp (siblings "2") 0 {| key := "2"; target := 0 |} = 2%nat
  ∧ onKeyUp (siblings "2") 0 {| key := "Tab"; target := 0 |} = 0%nat.
Proof. repeat split. Qed.

(** In the last field there is no input to go to: the focus stays. *)
Lemma onKeyUp_last (siblings : list Element) (activeElement : nat)
    (event : KeyboardEvent) :
  findInput siblings (target event) nextElementSibling = None →
  onKeyUp siblings activeElement event = activeElement.
Proof.
  intros Hnone. unfold onKeyUp. rewrite Hnone.
  destruct (negb _); [done|]. destruct (siblings !! _); [|done].
  by destruct (num_gt _ _).
Qed.

(** *** Rendering of the day and month tokens *)

(** C9. A day token of at most 2 characters renders the day input and one
    of more than 2 raises the unsupported token error; a month token of
    more than 4 characters raises it too, one of 3 or 4 renders the month
    select (short for 3) and one of at most 2 the numeric month input. *)
Theorem render_token_length (props : Props) (state : State) (currentMatch : string)
    (index : nat) :
  ((String.length currentMatch ≤ 2)%nat →
     ∃ autoFocus showLeadingZeros,
       renderDay props state currentMatch index =
       Ok (DayInputElement autoFocus showLeadingZeros
             (state_day state) (state_month state) (state_year state)))
  ∧ ((2 < String.length currentMatch)%nat →
     renderDay props state currentMatch index = Throw (UnsupportedToken currentMatch))
  ∧ ((4 < String.length currentMatch)%nat →
     renderMonth props state currentMatch index = Throw (UnsupportedToken currentMatch))
  ∧ ((3 ≤ String.length currentMatch ≤ 4)%nat →
     ∃ autoFocus,
       renderMonth props state currentMatch index =
       Ok (MonthSelectElement autoFocus (bool_decide (String.length currentMatch = 3%nat))
             (state_month state) (state_year state)))
  ∧ ((String.length currentMatch ≤ 2)%nat →
     ∃ autoFocus showLeadingZeros,
       renderMonth props state currentMatch index =
       Ok (MonthInputElement autoFocus showLeadingZeros
             (state_month state) (state_year state))).
Proof.
  assert (∀ n : nat, (0 < n)%nat → nonEmpty currentMatch = true
                     ∨ String.length currentMatch ≠ n) as Hne.
  { intros n Hn. destruct currentMatch; simpl; [right; lia | by left]. }
  unfold renderDay, renderMonth.
  split; [|split; [|split; [|split]]].
  - intros Hlen. rewrite (bool_decide_eq_false_2 (2 < _)%nat) by lia.
    rewrite andb_false_r. eauto.
  - intros Hlen. rewrite (bool_decide_eq_true_2 (2 < _)%nat) by lia.
    destruct currentMatch; [simpl in Hlen; lia | done].
  - intros Hlen. rewrite (bool_decide_eq_true_2 (4 < _)%nat) by lia.
    destruct currentMatch; [simpl in Hlen; lia | done].
  - intros Hlen. rewrite (bool_decide_eq_false_2 (4 < _)%nat) by lia.
    rewrite andb_false_r.
    rewrite (bool_decide_eq_true_2 (2 < _)%nat) by lia. eauto.
  - intros Hlen. rewrite (bool_decide_eq_false_2 (4 < _)%nat) by lia.
    rewrite andb_false_r.
    rewrite (bool_decide_eq_false_2 (2 < _)%nat) by lia. eauto.
Qed.

(** The token dd renders a day input and ddd raises; MMMMM raises, MMM
    renders the short month select and MM the numeric month input. *)
Lemma render_token_length_witness :
  (∃ autoFocus showLeadingZeros,
     renderDay (exampleProps "month" "start") initialState "dd" 0
     = Ok (DayInputElement autoFocus showLeadingZeros None None None))
  ∧ renderDay (exampleProps "month" "start") initialState "ddd" 0
    = Throw (UnsupportedToken "ddd")
  ∧ renderMonth (exampleProps "month" "start") initialState "MMMMM" 0
    = Throw (UnsupportedToken "MMMMM")
  ∧ (∃ autoFocus,
       renderMonth (exampleProps "month" "start") initialState "MMM" 0
       = Ok (MonthSelectElement autoFocus true None None))
  ∧ (∃ autoFocus showLeadingZeros,
       renderMonth (exampleProps "month" "start") initialState "MM" 0
       = Ok (MonthInputElement autoFocus showLeadingZeros None None)).
Proof.
  pose proof (render_token_length (exampleProps "month" "start") initialState "dd" 0)
    as (H1 & _).
  pose proof (render_token_length (exampleProps "month" "start") initialState "ddd" 0)
    as (_ & H2 & _).
  pose proof (render_token_length (exampleProps "month" "start") initialState "MMMMM" 0)
    as (_ & _ & H3 & _).
  pose proof (render_token_length (exampleProps "month" "start") initialState "MMM" 0)
    as (_ & _ & _ & H4 & _).
  pose proof (render_token_length (exampleProps "month" "start") initialState "MM" 0)
    as (_ & _ & _ & _ & H5).
  split; [|split; [|split; [|split]]].
  - apply H1. simpl. lia.
  - apply H2. simpl. lia.
  - apply H3. simpl. lia.
  - apply H4. simpl. lia.
  - apply H5. simpl. lia.
Defined.

(** *** Month bounds *)

Lemma exampleUtils_numbersOnly : numbersOnly exampleUtils.
Proof.
  split; [|split; [|split]]; simpl; intros a v.
  - f_equal. lia.
  - intros Hv. destruct v as [| | |[|z]]; try done. by destruct (Hv (Num z)).
  - f_equal. lia.
  - intros Hv. destruct v as [| | |[|z]]; try done. by destruct (Hv (Num z)).
Qed.

Lemma getMonthHuman_range (d : Date) (m : Z) : getMonthHuman d = Num m → 1 <= m <= 12.
Proof.
  unfold getMonthHuman, getMonth. destruct (getTime d) as [|t]; simpl; [done|].
  intros [= <-]. pose proof (MonthFromTime_range (LocalTime t)). lia.
Qed.

Lemma getYear_getMonthHuman (d : Date) :
  (getYear d = NaN ∧ getMonthHuman d = NaN)
  ∨ ∃ y m, getYear d = Num y ∧ getMonthHuman d = Num m.
Proof.
  unfold getYear, getFullYear, getMonthHuman, getMonth.
  destruct (getTime d); simpl; eauto.
Qed.

Lemma year_strict_eq_Num (year : option number) (y : Z) :
  year_strict_eq year (Num y) = bool_decide (year = Some (Num y)).
Proof.
  destruct year as [[|z]|]; simpl; try done.
  apply bool_decide_ext. split; [by intros -> | by intros [= ->]].
Qed.

Lemma utils_min_monthOfSameYear `{Utils} (date : option Date) (year : option number) :
  numbersOnly _ →
  utils_min [JNumber (Num 12); monthOfSameYear date year] = Num (monthLimit 12 date year).
Proof.
  intros (Hmin & Hmin' & _). unfold monthOfSameYear, monthLimit.
  destruct date as [d|]; [|by apply Hmin'].
  destruct (getYear_getMonthHuman d) as [[-> ->]|(y & m & Hy & Hm)].
  - destruct year as [[|?]|]; simpl; by apply Hmin'.
  - pose proof (getMonthHuman_range _ _ Hm). rewrite Hy, Hm, year_strict_eq_Num.
    case_bool_decide; case_decide; try done; [|by apply Hmin'].
    rewrite Hmin. f_equal. lia.
Qed.

Lemma utils_max_monthOfSameYear `{Utils} (date : option Date) (year : option number) :
  numbersOnly _ →
  utils_max [JNumber (Num 1); monthOfSameYear date year] = Num (monthLimit 1 date year).
Proof.
  intros (_ & _ & Hmax & Hmax'). unfold monthOfSameYear, monthLimit.
  destruct date as [d|]; [|by apply Hmax'].
  destruct (getYear_getMonthHuman d) as [[-> ->]|(y & m & Hy & Hm)].
  - destruct year as [[|?]|]; simpl; by apply Hmax'.
  - pose proof (getMonthHuman_range _ _ Hm). rewrite Hy, Hm, year_strict_eq_Num.
    case_bool_decide; case_decide; try done; [|by apply Hmax'].
    rewrite Hmax. f_equal. lia.
Qed.

(** The months of the twelve dates [MonthSelect] builds are 1 to 12. *)
Lemma MonthSelect_months :
  (fun index => getMonthHuman (Date_ymd (Num 2019) (Num index) (Num 1))) <$> seqZ 0 12
  = Num <$> seqZ 1 12.
Proof. vm_compute. reflexivity. Qed.

(** C10. Provided [min] and [max] keep to the numbers among their
    arguments: the maximum of the numeric month field is the human month of
    maxDate when maxDate is present and the year segment is its year, and
    12 otherwise; the minimum is the human month of minDate when minDate is
    present and the year segment is its year, and 1 otherwise; and the
    month select disables exactly the months below that minimum or above
    that maximum. *)
Theorem month_bounds `{Utils} (maxDate minDate : option Date) (year : option number) :
  numbersOnly _ →
  input_max (MonthInput maxDate minDate year) = Num (monthLimit 12 maxDate year)
  ∧ input_min (MonthInput maxDate minDate year) = Num (monthLimit 1 minDate year)
  ∧ MonthSelect maxDate minDate year =
    (fun m => {| option_value := Num m;
                 option_disabled :=
                   bool_decide (m < monthLimit 1 minDate year
                                ∨ monthLimit 12 maxDate year < m) |}) <$> seqZ 1 12.
Proof.
  intros Hutils. unfold MonthInput, MonthSelect. cbn [input_max input_min].
  rewrite utils_min_monthOfSameYear, utils_max_monthOfSameYear by done.
  split; [done|]. split; [done|].
  set (lo := monthLimit 1 minDate year). set (hi := monthLimit 12 maxDate year).
  transitivity
    ((fun month => {| option_value := month;
                      option_disabled := num_lt month (Num lo) || num_gt month (Num hi) |})
       <$> ((fun index => getMonthHuman (Date_ymd (Num 2019) (Num index) (Num 1)))
              <$> seqZ 0 12)).
  { by rewrite <- !list_fmap_compose. }
  rewrite MonthSelect_months, <- list_fmap_compose.
  apply list_fmap_ext. intros _ m _. simpl.
  f_equal. unfold num_lt, num_gt. simpl.
  apply eq_true_iff_eq. rewrite orb_true_iff, !bool_decide_eq_true. done.
Qed.

(** With maxDate 15 July 2023 and minDate 1 March 2023: in 2023 the month
    runs from 3 to 7, in 2022 from 1 to 12. *)
Lemma month_bounds_witness :
  let maxDate := Some (Date_ymd (Num 2023) (Num 6) (Num 15)) in
  let minDate := Some (Date_ymd (Num 2023) (Num 2) (Num 1)) in
  (input_max (@MonthInput exampleUtils maxDate minDate (Some (Num 2023))) = Num 7
   ∧ input_min (@MonthInput exampleUtils maxDate minDate (Some (Num 2023))) = Num 3)
  ∧ (input_max (@MonthInput exampleUtils maxDate minDate (Some (Num 2022))) = Num 12
     ∧ input_min (@MonthInput exampleUtils maxDate minDate (Some (Num 2022))) = Num 1).
Proof.
  intros maxDate minDate.
  pose proof (@month_bounds exampleUtils maxDate minDate (Some (Num 2023))
                exampleUtils_numbersOnly) as (H1 & H2 & _).
  pose proof (@month_bounds exampleUtils maxDate minDate (Some (Num 2022))
                exampleUtils_numbersOnly) as (H3 & H4 & _).
  split; split.
  - etransitivity; [exact H1|]. vm_compute. reflexivity.
  - etransitivity; [exact H2|]. vm_compute. reflexivity.
  - etransitivity; [exact H3|]. vm_compute. reflexivity.
  - etransitivity; [exact H4|]. vm_compute. reflexivity.
Defined.

(** ** Further properties of the code *)

(** *** Finding the input to focus *)

Lemma findForward_none (l : list Element) (k : nat) :
  findForward l k = None ↔ ∀ m e, l !! m = Some e → isValidInput e = false.
Proof.
  revert k. induction l as [|e l IH]; intros k; simpl; [done|].
  destruct (isValidInput e) eqn:He.
  - split; [done|]. intros Hall. by rewrite (Hall 0%nat e eq_refl) in He.
  - rewrite IH. split.
    + intros Hall [|m] e'; simpl; [by intros [= <-]|]. apply Hall.
    + intros Hall m e' Hm. by apply (Hall (S m)).
Qed.

Lemma findBackward_some (siblings : list Element) (i j : nat) :
  findBackward siblings i = Some j →
  (j < i)%nat
  ∧ (∃ e, siblings !! j = Some e ∧ isValidInput e = true)
  ∧ ∀ k e, (j < k < i)%nat → siblings !! k = Some e → isValidInput e = false.
Proof.
  induction i as [|i IH]; simpl; [done|].
  destruct (siblings !! i) as [e|] eqn:Hi.
  - destruct (isValidInput e) eqn:He.
    + intros [= <-]. split; [lia|]. split; [eauto|]. intros k e' Hk. lia.
    + intros Hj. destruct (IH Hj) as (Hlt & Hv & Hbetween).
      split; [lia|]. split; [done|]. intros k e' Hk Hke.
      destruct (decide (k = i)) as [->|]; [congruence|]. apply (Hbetween k); [lia|done].
  - intros Hj. destruct (IH Hj) as (Hlt & Hv & Hbetween).
    split; [lia|]. split; [done|]. intros k e' Hk Hke.
    destruct (decide (k = i)) as [->|]; [congruence|]. apply (Hbetween k); [lia|done].
Qed.

Lemma findBackward_none (siblings : list Element) (i : nat) :
  findBackward siblings i = None ↔
  ∀ k e, (k < i)%nat → siblings !! k = Some e → isValidInput e = false.
Proof.
  induction i as [|i IH]; simpl; [split; [intros _ k e Hk; lia|done]|].
  destruct (siblings !! i) as [e|] eqn:Hi.
  - destruct (isValidInput e) eqn:He.
    + split; [done|]. intros Hall. rewrite (Hall i e) in He; [done|lia|done].
    + rewrite IH. split.
      * intros Hall k e' Hk Hke. destruct (decide (k = i)) as [->|]; [congruence|].
        apply (Hall k); [lia|done].
      * intros Hall k e' Hk. apply Hall. lia.
  - rewrite IH. split.
    + intros Hall k e' Hk Hke. destruct (decide (k = i)) as [->|]; [congruence|].
      apply (Hall k); [lia|done].
    + intros Hall k e' Hk. apply Hall. lia.
Qed.

(** What [findInput] returns, and when it returns nothing. *)
Lemma findInput_spec (siblings : list Element) (i : nat) (property : siblingProperty) :
  match findInput siblings i property with
  | Some j =>
      match property with
      | nextElementSibling => (i < j)%nat
      | previousElementSibling => (j < i)%nat
      end
      ∧ (∃ e, siblings !! j = Some e ∧ isValidInput e = true)
      ∧ ∀ k e, (i < k < j ∨ j < k < i)%nat → siblings !! k = Some e →
               isValidInput e = false
  | None =>
      ∀ k e,
        match property with
        | nextElementSibling => (i < k)%nat
        | previousElementSibling => (k < i)%nat
        end → siblings !! k = Some e → isValidInput e = false
  end.
Proof.
  destruct property; simpl.
  - destruct (findBackward siblings i) as [j|] eqn:Hj.
    + destruct (findBackward_some _ _ _ Hj) as (Hlt & Hv & Hb).
      split; [done|]. split; [done|].
      intros k e' [Hk|Hk]; [lia|]. by apply Hb.
    + by apply findBackward_none.
  - destruct (findForward (drop (S i) siblings) (S i)) as [j|] eqn:Hj.
    + pose proof (findForward_ge _ _ _ Hj) as Hge.
      destruct (findForward_first _ _ _ Hj) as ((e & He & Hv) & Hb).
      rewrite lookup_drop in He. replace (S i + (j - S i))%nat with j in He by lia.
      split; [lia|]. split; [eauto|].
      intros k e' [Hk|Hk]; [|lia]. intros Hke.
      apply (Hb (k - S i)%nat); [lia|].
      rewrite lookup_drop. by replace (S i + (k - S i))%nat with k by lia.
    + intros k e Hk Hke. apply (proj1 (findForward_none _ _) Hj (k - S i)%nat).
      rewrite lookup_drop. by replace (S i + (k - S i))%nat with k by lia.
Qed.

Lemma isValidInput_true (e : Element) :
  isValidInput e = true ↔ tagName e = "INPUT" ∧ type e = "number".
Proof. unfold isValidInput. by rewrite andb_true_iff, !bool_decide_eq_true. Qed.

(** X1. [findInput] finds the nearest number input on the side asked
    for: what it returns lies strictly on that side of the start, is an
    INPUT of type number, and no element between the start and it is one;
    it returns nothing exactly when that side holds no such input. *)
Theorem findInput_nearest (siblings : list Element) (i : nat)
    (property : siblingProperty) :
  let onSide k :=
    match property with
    | nextElementSibling => (i < k)%nat
    | previousElementSibling => (k < i)%nat
    end in
  match findInput siblings i property with
  | Some j =>
      onSide j
      ∧ (∃ e, siblings !! j = Some e ∧ tagName e = "INPUT" ∧ type e = "number")
      ∧ ∀ k e, (i < k < j ∨ j < k < i)%nat → siblings !! k = Some e →
               ¬ (tagName e = "INPUT" ∧ type e = "number")
  | None =>
      ∀ k e, onSide k → siblings !! k = Some e →
             ¬ (tagName e = "INPUT" ∧ type e = "number")
  end.
Proof.
  intros onSide. subst onSide.
  pose proof (findInput_spec siblings i property) as Hspec.
  destruct (findInput siblings i property) as [j|].
  - destruct Hspec as (Hside & (e & He & Hv) & Hb).
    split; [done|]. split; [exists e; split; [done|by apply isValidInput_true]|].
    intros k e' Hk Hke Hv'. apply isValidInput_true in Hv'.
    by rewrite (Hb k e' Hk Hke) in Hv'.
  - intros k e Hk Hke Hv. apply isValidInput_true in Hv.
    by rewrite (Hspec k e Hk Hke) in Hv.
Qed.

(** X2. Going right and then left comes back: from a number input with
    the focus, ArrowRight moves the focus to the next number input, and
    ArrowLeft pressed there moves it back to where it was; both prevent
    the default, and neither reads the divider.  *)
Theorem onKeyDown_right_then_left (placeholder : string) (siblings : list Element)
    (i j : nat) (input : Element) :
  siblings !! i = Some input → isValidInput input = true →
  findInput siblings i nextElementSibling = Some j →
  onKeyDown placeholder siblings i {| key := "ArrowRight"; target := i |}
  = Returns {| defaultPrevented := true; activeAfter := j |}
  ∧ onKeyDown placeholder siblings j {| key := "ArrowLeft"; target := j |}
    = Returns {| defaultPrevented := true; activeAfter := i |}.
Proof.
  intros Hi Hv Hj.
  pose proof (findInput_spec siblings i nextElementSibling) as Hnext.
  rewrite Hj in Hnext. destruct Hnext as (Hlt & _ & Hbetween).
  split.
  - unfold onKeyDown. cbn [key target].
    rewrite decide_False by done. rewrite decide_True by done.
    rewrite decide_False by done. by rewrite Hj.
  - unfold onKeyDown. cbn [key target]. rewrite !decide_True by done.
    pose proof (findInput_spec siblings j previousElementSibling) as Hprev.
    destruct (findInput siblings j previousElementSibling) as [k|].
    + destruct Hprev as (Hk & (e & He & Hev) & Hb). simpl.
      destruct (Nat.lt_trichotomy k i) as [Hki|[->|Hki]]; [|done|].
      * rewrite (Hb i input) in Hv; [done|right; lia|done].
      * rewrite (Hbetween k e) in Hev; [done|left; lia|done].
    + rewrite (Hprev i input) in Hv; [done|lia|done].
Qed.

(** A month field, a divider and a day field: ArrowRight from the month
    field reaches the day field, ArrowLeft from there the month field. *)
Lemma onKeyDown_right_then_left_witness :
  let siblings :=
    [segmentInput "month" "2" "12" true; dividerSpan; segmentInput "day" "" "31" true] in
  onKeyDown "M/d/y" siblings 0 {| key := "ArrowRight"; target := 0 |}
  = Returns {| defaultPrevented := true; activeAfter := 2 |}
  ∧ onKeyDown "M/d/y" siblings 2 {| key := "ArrowLeft"; target := 2 |}
    = Returns {| defaultPrevented := true; activeAfter := 0 |}.
Proof.
  intros siblings.
  apply (onKeyDown_right_then_left "M/d/y" siblings 0 2
           (segmentInput "month" "2" "12" true)); reflexivity.
Defined.

(** *** The divider and key-down *)

Lemma matchNonAlphaNumeric_some (s : string) (c : ascii) :
  matchNonAlphaNumeric s = Some c →
  ∃ pre post, s = (pre ++ String c post)%string ∧ isAlphaNumeric c = false
              ∧ Forall (fun a => isAlphaNumeric a = true) (list_ascii_of_string pre).
Proof.
  induction s as [|a s IH]; simpl; [done|].
  destruct (isAlphaNumeric a) eqn:Ha.
  - intros Hc. destruct (IH Hc) as (pre & post & -> & Hc' & Hpre).
    exists (String a pre), post. simpl. split; [done|]. split; [done|].
    by constructor.
  - intros [= <-]. exists EmptyString, s. simpl. split; [done|]. split; [done|].
    constructor.
Qed.

Lemma matchNonAlphaNumeric_none (s : string) :
  matchNonAlphaNumeric s = None ↔
  Forall (fun a => isAlphaNumeric a = true) (list_ascii_of_string s).
Proof.
  induction s as [|a s IH]; simpl; [split; [constructor|done]|].
  destruct (isAlphaNumeric a) eqn:Ha.
  - rewrite IH. split; [by constructor|]. by intros [_ ?]%Forall_cons.
  - split; [done|]. intros [Ha' _]%Forall_cons. congruence.
Qed.

(** X3. The divider is the first character of the placeholder that is
    neither a digit nor a letter; reading it raises a TypeError exactly when
    the placeholder has no such character, and it never raises anything
    else. *)
Theorem divider_first (placeholder : string) :
  match divider placeholder with
  | Returns d =>
      ∃ pre c post,
        d = String c EmptyString ∧ placeholder = (pre ++ String c post)%string
        ∧ isAlphaNumeric c = false
        ∧ Forall (fun a => isAlphaNumeric a = true) (list_ascii_of_string pre)
  | RaisesTypeError =>
      Forall (fun a => isAlphaNumeric a = true) (list_ascii_of_string placeholder)
  | Raises _ => False
  end.
Proof.
  unfold divider. destruct (matchNonAlphaNumeric placeholder) as [c|] eqn:Hc.
  - destruct (matchNonAlphaNumeric_some _ _ Hc) as (pre & post & Hp & Hc' & Hpre).
    exists pre, c, post. done.
  - by apply matchNonAlphaNumeric_none.
Qed.

(** X4. On key-down of a key that is neither arrow, under a placeholder
    that is all digits and letters (the year alone, say), the handler raises
    a TypeError, whatever the key; under a placeholder with a divider it
    raises nothing: the divider key moves the focus to the next number input
    and prevents the default, and any other key leaves the focus and the
    default alone. *)
Theorem onKeyDown_other_keys (placeholder : string) (siblings : list Element)
    (activeElement : nat) (event : KeyboardEvent) :
  key event ≠ "ArrowLeft" → key event ≠ "ArrowRight" →
  match divider placeholder with
  | Returns d =>
      onKeyDown placeholder siblings activeElement event =
      if decide (key event = d) then
        Returns {| defaultPrevented := true;
                   activeAfter :=
                     focus (findInput siblings (target event) nextElementSibling)
                           activeElement |}
      else Returns {| defaultPrevented := false; activeAfter := activeElement |}
  | _ =>
      Forall (fun a => isAlphaNumeric a = true) (list_ascii_of_string placeholder)
      ∧ onKeyDown placeholder siblings activeElement event = RaisesTypeError
  end.
Proof.
  intros Hleft Hright.
  unfold onKeyDown. rewrite !(decide_False (P := key event = "ArrowLeft")) by done.
  rewrite (decide_False (P := key event = "ArrowRight")) by done.
  unfold divider.
  destruct (matchNonAlphaNumeric placeholder) as [c|] eqn:Hc; [done|].
  split; [by apply matchNonAlphaNumeric_none|done].
Qed.

(** Under M/d/y the key / moves on from the month field and the key 5 does
    nothing; under y the key 5 raises. *)
Lemma onKeyDown_other_keys_witness :
  let siblings :=
    [segmentInput "month" "2" "12" true; dividerSpan; segmentInput "day" "" "31" true] in
  onKeyDown "M/d/y" siblings 0 {| key := "/"; target := 0 |}
  = Returns {| defaultPrevented := true; activeAfter := 2 |}
  ∧ onKeyDown "M/d/y" siblings 0 {| key := "5"; target := 0 |}
    = Returns {| defaultPrevented := false; activeAfter := 0 |}
  ∧ onKeyDown "y" [segmentInput "year" "" "275760" true] 0 {| key := "5"; target := 0 |}
    = RaisesTypeError.
Proof.
  intros siblings.
  pose proof (onKeyDown_other_keys "M/d/y" siblings 0 {| key := "/"; target := 0 |}
                ltac:(discriminate) ltac:(discriminate)) as H1.
  pose proof (onKeyDown_other_keys "M/d/y" siblings 0 {| key := "5"; target := 0 |}
                ltac:(discriminate) ltac:(discriminate)) as H2.
  pose proof (onKeyDown_other_keys "y" [segmentInput "year" "" "275760" true] 0
                {| key := "5"; target := 0 |}
                ltac:(discriminate) ltac:(discriminate)) as H3.
  split; [exact H1|]. split; [exact H2|]. exact (proj2 H3).
Defined.

(** *** The sync of the segments with the props *)

Lemma getDerivedStateFromProps_unfold `{Host} (nextProps : Props) (prevState : State) :
  getDerivedStateFromProps nextProps prevState =
  nextValue ← getDetailValueFrom (props_value nextProps) (props_minDate nextProps)
                (props_maxDate nextProps) (props_maxDetail nextProps);
  different ← syncDecision nextProps prevState nextValue;
  Ok (if different : bool then syncedState nextValue (props_isCalendarOpen nextProps)
      else keptState nextProps prevState).
Proof.
  unfold getDerivedStateFromProps, syncDecision, syncedState, keptState.
  destruct (getDetailValueFrom (props_value nextProps) _ _ _) as [nextValue|e];
    [|done].
  cbn [mbind result_bind fst snd].
  destruct (decide (props_isCalendarOpen nextProps = state_isCalendarOpen prevState))
    as [Heq|Hne].
  - rewrite (bool_decide_eq_false_2 (_ ≠ _)) by (intros Hc; by apply Hc).
    rewrite (bool_decide_eq_false_2 (None = Some true)) by done.
    rewrite (bool_decide_eq_false_2 (_ ∧ _)) by (intros [Hc _]; by apply Hc).
    rewrite <- Heq.
    destruct (getDetailValueFrom (Single nextValue) _ _ _); [|done].
    cbn [mbind result_bind].
    destruct (getDetailValueFrom (Single (state_value prevState)) _ _ _); [|done].
    cbn [mbind result_bind].
    destruct (datesAreDifferent _ _); cbn [mbind result_bind].
    + by destruct (asDate nextValue).
    + destruct (getDetailValueTo (Single nextValue) _ _ _); [|done].
      cbn [mbind result_bind].
      destruct (getDetailValueTo (Single (state_value prevState)) _ _ _); [|done].
      cbn [mbind result_bind].
      destruct (datesAreDifferent _ _); [by destruct (asDate nextValue)|done].
  - rewrite (bool_decide_eq_true_2 (_ ≠ _)) by done.
    destruct (decide (props_isCalendarOpen nextProps = Some true)) as [Ht|Hnt].
    + rewrite (bool_decide_eq_true_2 (_ = Some true)) by done.
      rewrite (bool_decide_eq_true_2 (_ ∧ _)) by done.
      cbn [mbind result_bind]. by destruct (asDate nextValue).
    + rewrite (bool_decide_eq_false_2 (_ = Some true)) by done.
      rewrite (bool_decide_eq_false_2 (_ ∧ _)) by (by intros [_ ?]).
      destruct (getDetailValueFrom (Single nextValue) _ _ _); [|done].
      cbn [mbind result_bind].
      destruct (getDetailValueFrom (Single (state_value prevState)) _ _ _); [|done].
      cbn [mbind result_bind].
      destruct (datesAreDifferent _ _); cbn [mbind result_bind].
      * by destruct (asDate nextValue).
      * destruct (getDetailValueTo (Single nextValue) _ _ _); [|done].
        cbn [mbind result_bind].
        destruct (getDetailValueTo (Single (state_value prevState)) _ _ _); [|done].
        cbn [mbind result_bind].
        destruct (datesAreDifferent _ _); [by destruct (asDate nextValue)|done].
Qed.

Lemma syncDecision_kept `{Host} (nextProps : Props) (prevState : State) (nextValue : raw) :
  syncDecision nextProps prevState nextValue = Ok false →
  syncDecision nextProps (keptState nextProps prevState) nextValue = Ok false.
Proof.
  unfold syncDecision. cbn [keptState state_isCalendarOpen state_value].
  intros Hd.
  rewrite (bool_decide_eq_false_2
             (props_isCalendarOpen nextProps ≠ props_isCalendarOpen nextProps ∧ _))
    by (intros [Hc _]; by apply Hc).
  by case_bool_decide.
Qed.

(** X5. The sync is idempotent: when [getDerivedStateFromProps] has
    returned a state for some props, running it again on that state with the
    same props, if it returns, returns that state unchanged. *)
Theorem getDerivedStateFromProps_idempotent `{Host} (nextProps : Props)
    (prevState state' state'' : State) :
  getDerivedStateFromProps nextProps prevState = Ok state' →
  getDerivedStateFromProps nextProps state' = Ok state'' →
  state'' = state'.
Proof.
  rewrite !getDerivedStateFromProps_unfold.
  destruct (getDetailValueFrom (props_value nextProps) _ _ _) as [nextValue|];
    [|done].
  cbn [mbind result_bind].
  destruct (syncDecision nextProps prevState nextValue) as [d1|] eqn:Hd1; [|done].
  cbn [mbind result_bind]. intros [= <-].
  destruct d1.
  - destruct (syncDecision _ (syncedState _ _) _) as [[|]|]; cbn [mbind result_bind];
      [by intros [= <-]| |done].
    intros [= <-]. unfold keptState, syncedState. by destruct (asDate nextValue).
  - rewrite (syncDecision_kept _ _ _ Hd1). cbn [mbind result_bind].
    by intros [= <-].
Qed.

(** The first sync of 15 July 2023 gives the segments 2023, 7, 15, and a
    second run changes nothing. *)
Lemma getDerivedStateFromProps_idempotent_witness :
  let state' := syncedState (RDate july15) None in
  @getDerivedStateFromProps exampleHost (propsOf (Single (RDate july15)) None)
    initialState = Ok state'
  ∧ @getDerivedStateFromProps exampleHost (propsOf (Single (RDate july15)) None)
      state' = Ok state'
  ∧ state' = state'.
Proof.
  intros state'.
  assert (@getDerivedStateFromProps exampleHost (propsOf (Single (RDate july15)) None)
            initialState = Ok state') as H1 by (vm_compute; reflexivity).
  assert (@getDerivedStateFromProps exampleHost (propsOf (Single (RDate july15)) None)
            state' = Ok state') as H2 by (vm_compute; reflexivity).
  split; [exact H1|]. split; [exact H2|].
  exact (@getDerivedStateFromProps_idempotent exampleHost _ _ _ _ H1 H2).
Defined.

Lemma datesAreDifferent_same (r : raw) :
  comparable r → datesAreDifferent (asDate r) (asDate r) = false.
Proof.
  destruct r as [| | |[[|t]]]; simpl; try done.
  intros _. by rewrite bool_decide_eq_true_2.
Qed.

(** X6. Segments in mid-edit outlive a render with an unchanged value:
    when the state already holds the start derived from the props, the
    calendar is not being opened by these props, and the start and end
    derived from that start are valid dates (or null), the sync keeps the
    year, month and day of the state, whatever they are. *)
Theorem getDerivedStateFromProps_keeps_segments `{Host} (nextProps : Props)
    (prevState : State) (nextValue from to : raw) :
  getDetailValueFrom (props_value nextProps) (props_minDate nextProps)
    (props_maxDate nextProps) (props_maxDetail nextProps) = Ok nextValue →
  state_value prevState = nextValue →
  ¬ (props_isCalendarOpen nextProps ≠ state_isCalendarOpen prevState
     ∧ props_isCalendarOpen nextProps = Some true) →
  getDetailValueFrom (Single nextValue) (props_minDate nextProps)
    (props_maxDate nextProps) (props_maxDetail nextProps) = Ok from →
  getDetailValueTo (Single nextValue) (props_minDate nextProps)
    (props_maxDate nextProps) (props_maxDetail nextProps) = Ok to →
  comparable from → comparable to →
  ∃ state',
    getDerivedStateFromProps nextProps prevState = Ok state'
    ∧ state_year state' = state_year prevState
    ∧ state_month state' = state_month prevState
    ∧ state_day state' = state_day prevState
    ∧ state_value state' = nextValue
    ∧ state_isCalendarOpen state' = props_isCalendarOpen nextProps.
Proof.
  intros Hnext Hvalue Hflag Hfrom Hto Hcf Hct.
  exists (keptState nextProps prevState).
  split; [|by rewrite <- Hvalue].
  rewrite getDerivedStateFromProps_unfold, Hnext. cbn [mbind result_bind].
  unfold syncDecision. rewrite bool_decide_eq_false_2 by done.
  rewrite Hvalue, Hfrom. cbn [mbind result_bind].
  rewrite datesAreDifferent_same by done.
  rewrite Hto. cbn [mbind result_bind].
  by rewrite datesAreDifferent_same.
Qed.

(** The value 15 July 2023 synced, the user has cleared the day and typed
    month 8: a render with the same value keeps month 8 and the blank
    day. *)
Lemma getDerivedStateFromProps_keeps_segments_witness :
  let edited :=
    {| state_year := Some (Num 2023); state_month := Some (Num 8); state_day := None;
       state_value := RDate july15; state_isCalendarOpen := None |} in
  ∃ state',
    @getDerivedStateFromProps exampleHost (propsOf (Single (RDate july15)) None) edited
    = Ok state'
    ∧ state_year state' = Some (Num 2023)
    ∧ state_month state' = Some (Num 8)
    ∧ state_day state' = None
    ∧ state_value state' = RDate july15
    ∧ state_isCalendarOpen state' = None.
Proof.
  intros edited.
  apply (@getDerivedStateFromProps_keeps_segments exampleHost
           (propsOf (Single (RDate july15)) None) edited (RDate july15)
           (RDate july15) (RDate (justBefore (Date_ymd (Num 2023) (Num 6) (Num 16))))).
  - vm_compute. reflexivity.
  - reflexivity.
  - intros [Hne _]. by apply Hne.
  - vm_compute. reflexivity.
  - vm_compute. reflexivity.
  - vm_compute. reflexivity.
  - vm_compute. reflexivity.
Defined.

(** X7. Opening the calendar takes the segments anew: when the props
    say the calendar is open and the state did not, the state returned has
    the year, month and day of the start derived from the value, or none
    when there is no value, whatever the segments were; no end is derived
    and nothing is compared. *)
Theorem getDerivedStateFromProps_on_open `{Host} (nextProps : Props) (prevState : State)
    (nextValue : raw) :
  props_isCalendarOpen nextProps = Some true →
  state_isCalendarOpen prevState ≠ Some true →
  getDetailValueFrom (props_value nextProps) (props_minDate nextProps)
    (props_maxDate nextProps) (props_maxDetail nextProps) = Ok nextValue →
  getDerivedStateFromProps nextProps prevState
  = Ok (syncedState nextValue (Some true)).
Proof.
  intros Hopen Hprev Hnext.
  rewrite getDerivedStateFromProps_unfold, Hnext. cbn [mbind result_bind].
  unfold syncDecision. rewrite bool_decide_eq_true_2; [by rewrite Hopen|].
  split; [congruence|done].
Qed.

(** The calendar opens while month 8 and a blank day are in mid-edit over
    the value 15 July 2023: the segments are 2023, 7, 15 again. *)
Lemma getDerivedStateFromProps_on_open_witness :
  let edited :=
    {| state_year := Some (Num 2023); state_month := Some (Num 8); state_day := None;
       state_value := RDate july15; state_isCalendarOpen := None |} in
  @getDerivedStateFromProps exampleHost (propsOf (Single (RDate july15)) (Some true))
    edited
  = Ok {| state_year := Some (Num 2023); state_month := Some (Num 7);
          state_day := Some (Num 15); state_value := RDate july15;
          state_isCalendarOpen := Some true |}.
Proof.
  intros edited.
  etransitivity.
  - apply (@getDerivedStateFromProps_on_open exampleHost
             (propsOf (Single (RDate july15)) (Some true)) edited (RDate july15)).
    + reflexivity.
    + discriminate.
    + vm_compute. reflexivity.
  - vm_compute. reflexivity.
Defined.

(** X8. Taking the value away empties the segments: when the props
    carry no value and the state holds a date whose derived start is a date,
    the sync sets year, month and day to null and the stored value to
    null. *)
Theorem getDerivedStateFromProps_cleared `{Host} (nextProps : Props) (prevState : State)
    (rawValue : raw) (from : Date) :
  props_value nextProps = Single rawValue → truthy rawValue = false →
  getDetailValueFrom (Single (state_value prevState)) (props_minDate nextProps)
    (props_maxDate nextProps) (props_maxDetail nextProps) = Ok (RDate from) →
  getDerivedStateFromProps nextProps prevState
  = Ok {| state_year := None; state_month := None; state_day := None;
          state_value := RNull;
          state_isCalendarOpen := props_isCalendarOpen nextProps |}.
Proof.
  intros Hvalue Hfalsy Hprev.
  rewrite getDerivedStateFromProps_unfold, Hvalue.
  destruct (getDetailValue_absent rawValue (props_minDate nextProps)
              (props_maxDate nextProps) (props_maxDetail nextProps) Hfalsy) as [-> _].
  cbn [mbind result_bind]. unfold syncDecision.
  destruct (getDetailValue_absent RNull (props_minDate nextProps)
              (props_maxDate nextProps) (props_maxDetail nextProps) eq_refl) as [-> _].
  rewrite Hprev. cbn [mbind result_bind asDate datesAreDifferent].
  by case_bool_decide.
Qed.

(** The value 15 July 2023 is replaced by null: the segments are null. *)
Lemma getDerivedStateFromProps_cleared_witness :
  @getDerivedStateFromProps exampleHost (propsOf (Single RNull) None)
    (syncedState (RDate july15) None)
  = Ok {| state_year := None; state_month := None; state_day := None;
          state_value := RNull; state_isCalendarOpen := None |}.
Proof.
  apply (@getDerivedStateFromProps_cleared exampleHost (propsOf (Single RNull) None)
           (syncedState (RDate july15) None) RNull july15).
  - reflexivity.
  - reflexivity.
  - vm_compute. reflexivity.
Defined.

(** *** The native input *)

Ltac digit_cases k :=
  let H := fresh in
  assert (k = 0 ∨ k = 1 ∨ k = 2 ∨ k = 3 ∨ k = 4 ∨ k = 5 ∨ k = 6 ∨ k = 7
          ∨ k = 8 ∨ k = 9) as H by lia;
  destruct_or! H; subst k.

Lemma digitsPrefix_digit (acc : option Z) (k : Z) (rest : string) :
  0 <= k <= 9 →
  digitsPrefix acc (String (digitChar k) rest)
  = digitsPrefix (Some (10 * default 0 acc + k)) rest.
Proof. intros Hk. digit_cases k; reflexivity. Qed.

Lemma parseInt_digit (k : Z) (rest : string) :
  0 <= k <= 9 →
  parseInt (String (digitChar k) rest)
  = from_option Num NaN (digitsPrefix (Some k) rest).
Proof.
  intros Hk. digit_cases k; unfold parseInt; cbn [trimStart digitChar];
    simpl; by destruct (digitsPrefix _ rest) as [n|]; [destruct n|].
Qed.

Lemma parseInt_pad2 (n : Z) : 0 <= n <= 99 → parseInt (pad2 n) = Num n.
Proof.
  intros Hn. unfold pad2.
  rewrite parseInt_digit by (Z.div_mod_to_equations; lia).
  rewrite digitsPrefix_digit by (Z.div_mod_to_equations; lia).
  simpl. f_equal. Z.div_mod_to_equations. lia.
Qed.

Lemma parseInt_pad4 (n : Z) : 0 <= n <= 9999 → parseInt (pad4 n) = Num n.
Proof.
  intros Hn. unfold pad4, pad2.
  rewrite parseInt_digit by (Z.div_mod_to_equations; lia).
  rewrite !digitsPrefix_digit by (Z.div_mod_to_equations; lia).
  simpl. f_equal. Z.div_mod_to_equations. lia.
Qed.

Lemma String_split_digit (k : Z) (rest : string) :
  0 <= k <= 9 →
  String_split "-" (String (digitChar k) rest)
  = match String_split "-" rest with
    | part :: parts => String (digitChar k) part :: parts
    | [] => [String (digitChar k) EmptyString]
    end.
Proof. intros Hk. digit_cases k; reflexivity. Qed.

Lemma String_split_dash (rest : string) :
  String_split "-" (String "-" rest) = EmptyString :: String_split "-" rest.
Proof. reflexivity. Qed.

Lemma String_split_isoDate (y m d : Z) :
  0 <= y <= 9999 → 0 <= m <= 99 → 0 <= d <= 99 →
  String_split "-" (isoDate y m d) = [pad4 y; pad2 m; pad2 d].
Proof.
  intros Hy Hm Hd. unfold isoDate, pad4, pad2.
  cbv beta iota delta [String.append].
  repeat first [ rewrite String_split_dash
               | (rewrite String_split_digit by (Z.div_mod_to_equations; lia)) ].
  reflexivity.
Qed.

Lemma nonEmpty_isoDate (y m d : Z) : nonEmpty (isoDate y m d) = true.
Proof. reflexivity. Qed.

Lemma DaysInMonth_le_31 (y mn : Z) : DaysInMonth y mn <= 31.
Proof. unfold DaysInMonth. repeat case_match; lia. Qed.



(** *** From the segments to the callback and back *)



(** *** The derived range is in order *)

Lemma between_mono (x y : Z) (minDate maxDate : option Date) :
  x <= y →
  (∀ lo hi a b, minDate = Some lo → maxDate = Some hi →
                getTime lo = Num a → getTime hi = Num b → a <= b) →
  date_le (between (mkDate (Num x)) minDate maxDate)
          (between (mkDate (Num y)) minDate maxDate).
Proof.
  intros Hxy Hbounds. unfold date_le, between, num_lt, num_gt.
  destruct minDate as [[[|a]]|], maxDate as [[[|b]]|]; simpl;
    repeat case_bool_decide; simpl; try lia.
  all: pose proof (Hbounds _ _ a b eq_refl eq_refl eq_refl eq_refl); lia.
Qed.

Lemma sameUnit_refl (unit : string) (t : Z) :
  unit ∈ ["year"; "month"; "day"] → sameUnit unit t t.
Proof.
  rewrite !elem_of_cons, elem_of_nil. unfold sameUnit.
  intros [->|[->|[->|[]]]]; repeat case_decide; done.
Qed.

(** X11. The range derived from a single value is in order: for a
    value that is a valid date, at the detail decade, year or month, and
    bounds that are in order when both are given, the derived start is not
    after the derived end. *)
Theorem derived_start_le_end `{Host} (rawValue : raw) (t : Z)
    (minDate maxDate : option Date) (maxDetail : string) :
  parseAndValidateDate rawValue = Ok (RDate (mkDate (Num t))) →
  -271820 <= YearFromTime t <= 275759 →
  maxDetail ∈ ["decade"; "year"; "month"] →
  (∀ lo hi a b, minDate = Some lo → maxDate = Some hi →
                getTime lo = Num a → getTime hi = Num b → a <= b) →
  ∃ start end_,
    getDetailValueFrom (Single rawValue) minDate maxDate maxDetail = Ok (RDate start)
    ∧ getDetailValueTo (Single rawValue) minDate maxDate maxDetail = Ok (RDate end_)
    ∧ date_le start end_.
Proof.
  intros Hparse Hyear Hdetail Hbounds.
  destruct (unit_of_time t Hyear)
    as ((by_ & ey & Hby & Hey & Hy) & (bm & em & Hbm & Hem & Hm)
        & (bd & ed & Hbd & Hed & Hd)).
  destruct (getBegin_units (mkDate (Num t))) as (Bby & Bbm & Bbd).
  destruct (getEnd_units (mkDate (Num t))) as (Eey & Eem & Eed).
  destruct getValueType_views as (_ & Vd & Vy & Vm & _).
  assert (sameUnit "year" t t ∧ sameUnit "month" t t ∧ sameUnit "day" t t)
    as (Sy & Sm & Sd)
    by (repeat split; apply sameUnit_refl; rewrite !elem_of_cons; auto).
  apply Hy in Sy. apply Hm in Sm. apply Hd in Sd.
  rewrite !elem_of_cons, elem_of_nil in Hdetail.
  destruct Hdetail as [->|[->|[->|[]]]].
  - destruct (getDetailValue_of_date rawValue _ _ _ minDate maxDate "decade" Hparse
                ltac:(rewrite Vd; exact Bby) ltac:(rewrite Vd; exact Eey))
      as [-> ->].
    do 2 eexists. split; [done|]. split; [done|].
    rewrite Hby, Hey. apply between_mono; [lia|done].
  - destruct (getDetailValue_of_date rawValue _ _ _ minDate maxDate "year" Hparse
                ltac:(rewrite Vy; exact Bbm) ltac:(rewrite Vy; exact Eem))
      as [-> ->].
    do 2 eexists. split; [done|]. split; [done|].
    rewrite Hbm, Hem. apply between_mono; [lia|done].
  - destruct (getDetailValue_of_date rawValue _ _ _ minDate maxDate "month" Hparse
                ltac:(rewrite Vm; exact Bbd) ltac:(rewrite Vm; exact Eed))
      as [-> ->].
    do 2 eexists. split; [done|]. split; [done|].
    rewrite Hbd, Hed. apply between_mono; [lia|done].
Qed.

(** 15 July 2023 at the detail year, from 1 March 2023 on: 1 July to the
    end of 31 July. *)
Lemma derived_start_le_end_witness :
  ∃ start end_,
    @getDetailValueFrom exampleHost (Single (RDate july15)) (Some march1) None "year"
    = Ok (RDate start)
    ∧ @getDetailValueTo exampleHost (Single (RDate july15)) (Some march1) None "year"
      = Ok (RDate end_)
    ∧ date_le start end_.
Proof.
  apply (@derived_start_le_end exampleHost (RDate july15) 1689379200000).
  - vm_compute. reflexivity.
  - split; vm_compute; discriminate.
  - rewrite !elem_of_cons. auto.
  - intros lo hi a b _ Hhi. discriminate Hhi.
Defined.

(** *** The month bounds under the default bounds *)

Lemma default_years :
  getYear defaultMaxDate = Num 275760 ∧ getMonthHuman defaultMaxDate = Num 9
  ∧ getYear defaultMinDate = Num (-271821) ∧ getMonthHuman defaultMinDate = Num 4.
Proof. vm_compute. done. Qed.

Lemma monthLimit_of (fallback : Z) (d : Date) (year : option number) (y m : Z) :
  getYear d = Num y → getMonthHuman d = Num m →
  monthLimit fallback (Some d) year = if decide (year = Some (Num y)) then m else fallback.
Proof. intros Hy Hm. unfold monthLimit. by rewrite Hy, Hm. Qed.

(** X12. With no bounds in the props, the bounds that [commonInputProps]
    hands on leave the month free in every year but the two at the ends of
    the range of dates: provided [min] and [max] keep to the numbers among
    their arguments, the month field gets the maximum 12 and the minimum 1
    unless the year segment is 275760, where the maximum is 9, or -271821,
    where the minimum is 4. *)
Theorem default_month_bounds `{Utils} (props : Props) (year : option number) :
  numbersOnly _ →
  props_minDate props = None → props_maxDate props = None →
  let input :=
    MonthInput (commonInputProps_maxDate props) (commonInputProps_minDate props) year in
  input_max input = (if decide (year = Some (Num 275760)) then Num 9 else Num 12)
  ∧ input_min input = (if decide (year = Some (Num (-271821))) then Num 4 else Num 1).
Proof.
  intros Hutils Hmin Hmax input. subst input.
  unfold MonthInput, commonInputProps_maxDate, commonInputProps_minDate.
  rewrite Hmin, Hmax. cbn [default from_option id input_max input_min].
  rewrite (utils_min_monthOfSameYear _ _ Hutils), (utils_max_monthOfSameYear _ _ Hutils).
  destruct default_years as (Hy1 & Hm1 & Hy2 & Hm2).
  rewrite (monthLimit_of 12 _ year _ _ Hy1 Hm1), (monthLimit_of 1 _ year _ _ Hy2 Hm2).
  split; case_decide; reflexivity.
Qed.

(** The year 2023 and the year 275760. *)
Lemma default_month_bounds_witness :
  (input_max (@MonthInput exampleUtils
                (commonInputProps_maxDate (exampleProps "month" "start"))
                (commonInputProps_minDate (exampleProps "month" "start"))
                (Some (Num 2023))) = Num 12
   ∧ input_min (@MonthInput exampleUtils
                  (commonInputProps_maxDate (exampleProps "month" "start"))
                  (commonInputProps_minDate (exampleProps "month" "start"))
                  (Some (Num 2023))) = Num 1)
  ∧ input_max (@MonthInput exampleUtils
                 (commonInputProps_maxDate (exampleProps "month" "start"))
                 (commonInputProps_minDate (exampleProps "month" "start"))
                 (Some (Num 275760))) = Num 9.
Proof.
  split.
  - exact (@default_month_bounds exampleUtils (exampleProps "month" "start")
             (Some (Num 2023)) exampleUtils_numbersOnly eq_refl eq_refl).
  - exact (proj1 (@default_month_bounds exampleUtils (exampleProps "month" "start")
                    (Some (Num 275760)) exampleUtils_numbersOnly eq_refl eq_refl)).
Defined.

(** *** Key-up never moves the focus back *)

(** X13. Whatever the key and the fields, after key-up the focus is
    where it was or on a number input that comes after the target; it moves
    only for a key that reads as a number. *)
Theorem onKeyUp_only_forward (siblings : list Element) (activeElement : nat)
    (event : KeyboardEvent) :
  onKeyUp siblings activeElement event = activeElement
  ∨ (isNaN (parseInt (key event)) = false
     ∧ (target event < onKeyUp siblings activeElement event)%nat
     ∧ ∃ e, siblings !! onKeyUp siblings activeElement event = Some e
            ∧ tagName e = "INPUT" ∧ type e = "number").
Proof.
  unfold onKeyUp.
  destruct (isNaN (parseInt (key event))) eqn:Hkey; [by left|]. cbn [negb].
  destruct (siblings !! target event) as [input|]; [|by left].
  destruct (num_gt _ _); [|by left].
  pose proof (findInput_spec siblings (target event) nextElementSibling) as Hspec.
  destruct (findInput siblings (target event) nextElementSibling) as [j|]; [|by left].
  destruct Hspec as (Hlt & (e & He & Hv) & _). right. cbn [focus].
  split; [done|]. split; [done|]. exists e. split; [done|].
  by apply isValidInput_true.
Qed.

(** *** The custom inputs *)

Lemma runs_runOf (s : string) : Forall runOf (runs s).
Proof.
  induction s as [|c s IH]; [constructor|].
  cbn [runs]. destruct (runs s) as [|[kind' run] rest].
  - constructor; [|constructor]. split; [done|]. cbn [fst snd occurs].
    case_bool_decide as Hc.
    + split; [done|]. intros c'. rewrite orb_false_r, bool_decide_eq_true. done.
    + intros c'. rewrite orb_false_r, bool_decide_eq_true. by intros ->.
  - apply Forall_cons in IH as [[Hne Hrun] IH]. cbn [fst snd] in Hne, Hrun.
    case_decide as Hk.
    + constructor; [|done]. split; [done|]. cbn [fst snd occurs]. subst kind'.
      case_bool_decide as Hc.
      * destruct Hrun as [_ Hrun]. split; [done|]. intros c'.
        rewrite orb_true_iff, bool_decide_eq_true. intros [?|?]; [done|by apply Hrun].
      * intros c'. rewrite orb_true_iff, bool_decide_eq_true.
        intros [->|?]; [done|by apply Hrun].
    + constructor; [|by constructor]. split; [done|]. cbn [fst snd occurs].
      case_bool_decide as Hc.
      * split; [done|]. intros c'. rewrite orb_false_r, bool_decide_eq_true. done.
      * intros c'. rewrite orb_false_r, bool_decide_eq_true. by intros ->.
Qed.

Lemma renderFunctionOf_run (c : ascii) (token : string) :
  runOf (Some c, token) → renderFunctionOf token = Some c.
Proof.
  intros (Hne & Hc & Hrun). cbn [fst snd] in *.
  destruct token as [|a token]; [done|].
  assert (a = c) as ->.
  { apply Hrun. cbn [occurs]. by rewrite bool_decide_eq_true_2. }
  assert (List.find (fun k => occurs k (String c token)) elementKeys = Some c) as Hfind.
  { unfold elementKeys in *. rewrite !elem_of_cons, elem_of_nil in Hc.
    cbn [List.find occurs].
    destruct (decide (c = "d"%char)) as [->|Hd].
    { by rewrite bool_decide_eq_true_2. }
    assert (occurs "d" token = false) as ->.
    { destruct (occurs "d" token) eqn:E; [|done].
      exfalso. apply Hd. symmetry. apply Hrun. cbn [occurs]. by rewrite E, orb_true_r. }
    rewrite (bool_decide_eq_false_2 ("d"%char = c)) by done. cbn [orb].
    destruct (decide (c = "M"%char)) as [->|HM].
    { by rewrite bool_decide_eq_true_2. }
    assert (occurs "M" token = false) as ->.
    { destruct (occurs "M" token) eqn:E; [|done].
      exfalso. apply HM. symmetry. apply Hrun. cbn [occurs]. by rewrite E, orb_true_r. }
    rewrite (bool_decide_eq_false_2 ("M"%char = c)) by done. cbn [orb].
    destruct Hc as [?|[?|[->|[]]]]; [done|done|].
    by rewrite bool_decide_eq_true_2. }
  unfold renderFunctionOf. destruct token; [|done].
  by rewrite bool_decide_eq_true_2.
Qed.

Lemma matchAt_matchPattern (placeholder : string) (index : nat) :
  matchAt (matchPattern placeholder) index = (tokens placeholder).*2 !! index.
Proof.
  unfold matchPattern, tokens, tokensOf.
  assert (omap (fun r : option ascii * string =>
                  match r.1 with Some _ => Some r.2 | None => None end)
               (runs placeholder)
          = (omap (fun r : option ascii * string =>
                     match r.1 with Some c => Some (c, r.2) | None => None end)
                  (runs placeholder)).*2) as ->.
  { induction (runs placeholder) as [|[[c|] run] rs IH]; cbn; [done| |done].
    by rewrite IH. }
  by destruct (_.*2).
Qed.

(** One turn of the reduction at a token: the token is kept as a string
    when its render function was used and no second use is allowed, and
    rendered otherwise. *)
Lemma reduceInputs_token (props : Props) (state : State) (allow : bool)
    (matches : option (list string)) (index : nat) (sep : string) (rest : list string)
    (arr : list Node) (used : list ascii) (c : ascii) (token : string) :
  matchAt matches index = Some token → runOf (Some c, token) →
  reduceInputs props state allow matches index (sep :: rest) arr used
  = let res := arr ++ [if nonEmpty sep then DividerNode index sep else TextNode sep] in
    if negb allow && bool_decide (c ∈ used)
    then reduceInputs props state allow matches (S index) rest
           (res ++ [TextNode token]) used
    else match callRender props state c token index with
         | Ok rendered =>
             reduceInputs props state allow matches (S index) rest
               (res ++ [SegmentNode rendered]) (used ++ [c])
         | Throw e => Raises e
         end.
Proof.
  intros Hm Hrun. cbn [reduceInputs]. fold (matchAt matches index). rewrite Hm.
  rewrite (renderFunctionOf_run c token Hrun).
  destruct Hrun as [Hne _]. apply nonEmpty_true in Hne. cbn [snd] in Hne.
  by rewrite Hne.
Qed.

Lemma reduceInputs_last (props : Props) (state : State) (allow : bool)
    (matches : option (list string)) (index : nat) (sep : string)
    (arr : list Node) (used : list ascii) :
  matchAt matches index = None →
  reduceInputs props state allow matches index [sep] arr used
  = Returns (arr ++ [if nonEmpty sep then DividerNode index sep else TextNode sep]).
Proof. intros Hm. cbn [reduceInputs]. fold (matchAt matches index). by rewrite Hm. Qed.

Lemma callRender_ok (props : Props) (state : State) (c : ascii) (token : string)
    (index : nat) (rendered : Rendered) :
  c ∈ elementKeys →
  callRender props state c token index = Ok rendered →
  segmentKey rendered = c
  ∧ autoFocusOf rendered = bool_decide (index = 0%nat) && props_autoFocus props.
Proof.
  unfold elementKeys. rewrite !elem_of_cons, elem_of_nil.
  unfold callRender, renderDay, renderMonth, renderYear.
  intros [->|[->|[->|[]]]]; cbn [decide]; repeat case_decide; try done;
    repeat (match goal with |- context [if ?b then _ else _] => destruct b end);
    intros [= <-]; done.
Qed.

Lemma callRender_supported (props : Props) (state : State) (c : ascii) (token : string)
    (index : nat) :
  supported (c, token) → ∃ rendered, callRender props state c token index = Ok rendered.
Proof.
  intros [Hd HM]. cbn [fst snd] in *.
  unfold callRender, renderDay, renderMonth, renderYear.
  case_decide as Hc; [|case_decide as Hc'].
  - rewrite (bool_decide_eq_false_2 (2 < _)%nat) by (specialize (Hd Hc); lia).
    rewrite andb_false_r. eauto.
  - rewrite (bool_decide_eq_false_2 (4 < _)%nat) by (specialize (HM Hc'); lia).
    rewrite andb_false_r. case_bool_decide; eauto.
  - eauto.
Qed.

Lemma callRender_throw (props : Props) (state : State) (c : ascii) (token : string)
    (index : nat) (e : error) :
  callRender props state c token index = Throw e →
  e = UnsupportedToken token ∧ ¬ supported (c, token).
Proof.
  unfold callRender, renderDay, renderMonth, renderYear, supported. cbn [fst snd].
  case_decide as Hc; [|case_decide as Hc'].
  - destruct (nonEmpty token); cbn [andb]; [|done].
    case_bool_decide; [|done]. intros [= <-]. split; [done|]. intros [Hd _].
    specialize (Hd Hc). lia.
  - destruct (nonEmpty token); cbn [andb]; [|by case_bool_decide].
    case_bool_decide; [|by case_bool_decide]. intros [= <-]. split; [done|].
    intros [_ HM]. specialize (HM Hc'). lia.
  - done.
Qed.

Lemma callRender_ok_supported (props : Props) (state : State) (c : ascii)
    (token : string) (index : nat) (rendered : Rendered) :
  token ≠ EmptyString →
  callRender props state c token index = Ok rendered → supported (c, token).
Proof.
  intros Hne%nonEmpty_true.
  unfold callRender, renderDay, renderMonth, supported. cbn [fst snd]. rewrite Hne.
  cbn [andb]. case_decide as Hc; [|case_decide as Hc'].
  - case_bool_decide; [done|]. intros _. split; [lia|]. intros ->. done.
  - case_bool_decide; [done|]. intros _. split; [done|]. lia.
  - intros _. done.
Qed.

Lemma aligned_nil (matches : option (list string)) (index : nat) :
  aligned matches index [] → matchAt matches index = None.
Proof. intros H. specialize (H 0%nat). by rewrite Nat.add_0_r in H. Qed.

Lemma aligned_literal (matches : option (list string)) (index : nat) (run : string)
    (rs : list (option ascii * string)) :
  aligned matches index ((None, run) :: rs) → aligned matches index rs.
Proof. done. Qed.

Lemma aligned_token (matches : option (list string)) (index : nat) (c : ascii)
    (run : string) (rs : list (option ascii * string)) :
  aligned matches index ((Some c, run) :: rs) →
  matchAt matches index = Some run ∧ aligned matches (S index) rs.
Proof.
  intros H. split.
  - specialize (H 0%nat). by rewrite Nat.add_0_r in H.
  - intros j. specialize (H (S j)). by rewrite Nat.add_succ_r in H.
Qed.

Lemma aligned_matchPattern (placeholder : string) :
  aligned (matchPattern placeholder) 0 (runs placeholder).
Proof. intros j. apply matchAt_matchPattern. Qed.

(** The induction over the runs that the statements on the reduction
    share: the end, a run of other characters, a token. *)
Ltac over_runs rs IH Hrun Hm :=
  let Hruns := fresh "Hruns" in
  intros Hruns; induction Hruns as [|[[?c|] ?run] rs Hrun Hruns IH];
  intros ?sep ?index ?arr ?used Hm;
  [ apply aligned_nil in Hm; cbn [between_runs]; rewrite (reduceInputs_last _ _ _ _ _ _ _ _ Hm)
  | apply aligned_token in Hm as [?Hat Hm]; cbn [between_runs];
    erewrite reduceInputs_token by done; cbv zeta
  | apply aligned_literal in Hm; cbn [between_runs] ].

Lemma reduceInputs_outcome (props : Props) (state : State) (allow : bool)
    (matches : option (list string)) (rs : list (option ascii * string)) :
  Forall runOf rs →
  ∀ sep index arr used, aligned matches index rs →
  match reduceInputs props state allow matches index (between_runs sep rs) arr used with
  | Returns _ => True
  | Raises e =>
      ∃ token, token ∈ tokensOf rs ∧ ¬ supported token ∧ e = UnsupportedToken token.2
  | RaisesTypeError => False
  end.
Proof.
  over_runs rs IH Hrun Hm; [done| |by apply IH].
  assert (∀ arr' used',
    match reduceInputs props state allow matches (S index) (between_runs "" rs) arr' used'
    with
    | Returns _ => True
    | Raises e =>
        ∃ token, token ∈ tokensOf ((Some c, run) :: rs) ∧ ¬ supported token
                 ∧ e = UnsupportedToken token.2
    | RaisesTypeError => False
    end) as IH'.
  { intros arr' used'. specialize (IH "" (S index) arr' used' Hm).
    destruct (reduceInputs _ _ _ _ _ _ _ _); [done| |done].
    destruct IH as (token & ? & ? & ?). exists token. split; [|done].
    cbn. by right. }
  destruct (negb allow && bool_decide (c ∈ used)); [apply IH'|].
  destruct (callRender props state c run index) as [rendered|e] eqn:Hcall; [apply IH'|].
  apply callRender_throw in Hcall as [-> Hs]. exists (c, run). split; [|done].
  cbn. by left.
Qed.

Lemma reduceInputs_returns (props : Props) (state : State) (allow : bool)
    (matches : option (list string)) (rs : list (option ascii * string)) :
  Forall runOf rs →
  ∀ sep index arr used, aligned matches index rs →
  Forall supported (tokensOf rs) →
  ∃ nodes,
    reduceInputs props state allow matches index (between_runs sep rs) arr used
    = Returns nodes.
Proof.
  over_runs rs IH Hrun Hm; [by eauto| |by apply IH].
  cbn. intros [Hs Hrest]%Forall_cons.
  destruct (negb allow && bool_decide (c ∈ used)); [by apply IH|].
  destruct (callRender_supported props state c run index Hs) as [rendered ->].
  by apply IH.
Qed.

Lemma reduceInputs_all_supported (props : Props) (state : State)
    (matches : option (list string)) (rs : list (option ascii * string)) :
  Forall runOf rs →
  ∀ sep index arr used, aligned matches index rs →
  ∀ nodes,
    reduceInputs props state true matches index (between_runs sep rs) arr used
    = Returns nodes →
    Forall supported (tokensOf rs).
Proof.
  over_runs rs IH Hrun Hm; [by constructor| |by apply IH].
  intros nodes. cbn [negb andb].
  destruct (callRender props state c run index) as [rendered|e] eqn:Hcall; [|done].
  intros Hnodes. cbn. constructor; [|by eapply IH].
  eapply callRender_ok_supported; [|done]. apply Hrun.
Qed.

Lemma segments_snoc_divider (arr : list Node) (index : nat) (sep : string) :
  segments (arr ++ [if nonEmpty sep then DividerNode index sep else TextNode sep])
  = segments arr.
Proof.
  unfold segments. rewrite omap_app. destruct (nonEmpty sep); cbn; by rewrite app_nil_r.
Qed.

Lemma segments_snoc_text (arr : list Node) (text : string) :
  segments (arr ++ [TextNode text]) = segments arr.
Proof. unfold segments. rewrite omap_app. cbn. by rewrite app_nil_r. Qed.

Lemma segments_snoc_segment (arr : list Node) (rendered : Rendered) :
  segments (arr ++ [SegmentNode rendered]) = segments arr ++ [rendered].
Proof. unfold segments. by rewrite omap_app. Qed.

(** The segments that the reduction adds: one for each token when a token
    may come again; else one for each letter, at its first token. *)
Lemma reduceInputs_segments (props : Props) (state : State) (allow : bool)
    (matches : option (list string)) (rs : list (option ascii * string)) :
  Forall runOf rs →
  ∀ sep index arr used, aligned matches index rs →
  ∀ nodes,
    reduceInputs props state allow matches index (between_runs sep rs) arr used
    = Returns nodes →
    ∃ l, segments nodes = segments arr ++ l
         ∧ (allow = true → segmentKey <$> l = (tokensOf rs).*1)
         ∧ (allow = false → NoDup used →
            NoDup (used ++ (segmentKey <$> l))
            ∧ (segmentKey <$> l) `sublist_of` (tokensOf rs).*1
            ∧ ∀ k, k ∈ (tokensOf rs).*1 → k ∈ used ++ (segmentKey <$> l)).
Proof.
  over_runs rs IH Hrun Hm.
  - intros nodes [= <-]. exists []. rewrite segments_snoc_divider, app_nil_r.
    split; [done|]. split; [done|]. intros _ Hused. rewrite app_nil_r.
    split; [done|]. split; [done|]. intros k. cbn. by rewrite elem_of_nil.
  - intros nodes. destruct allow; cbn [negb andb].
    + destruct (callRender props state c run index) as [rendered|e] eqn:Hcall; [|done].
      intros Hnodes. destruct (IH _ _ _ _ Hm _ Hnodes) as (l & Hl & Hkeys & _).
      rewrite segments_snoc_segment, segments_snoc_divider in Hl.
      exists (rendered :: l). split; [by rewrite Hl, <-app_assoc|].
      split; [|done]. intros _. cbn. rewrite Hkeys by done. f_equal.
      eapply callRender_ok; [|done]. apply Hrun.
    + case_bool_decide as Hc.
      * intros Hnodes. destruct (IH _ _ _ _ Hm _ Hnodes) as (l & Hl & _ & Hkeys).
        rewrite segments_snoc_text, segments_snoc_divider in Hl.
        exists l. split; [done|]. split; [done|]. intros _ Hused.
        destruct (Hkeys eq_refl Hused) as (Hnd & Hsub & Hall).
        split; [done|]. split; [by apply sublist_cons|].
        intros k. cbn. rewrite elem_of_cons. intros [->|Hk]; [|by apply Hall].
        rewrite elem_of_app. by left.
      * destruct (callRender props state c run index) as [rendered|e] eqn:Hcall; [|done].
        intros Hnodes. destruct (IH _ _ _ _ Hm _ Hnodes) as (l & Hl & _ & Hkeys).
        rewrite segments_snoc_segment, segments_snoc_divider in Hl.
        assert (segmentKey rendered = c) as Hkey.
        { eapply callRender_ok; [|done]. apply Hrun. }
        exists (rendered :: l). split; [by rewrite Hl, <-app_assoc|].
        split; [done|]. intros _ Hused. cbn. rewrite Hkey.
        destruct (Hkeys eq_refl) as (Hnd & Hsub & Hall).
        { apply NoDup_app. split; [done|]. split; [|apply NoDup_singleton].
          intros k Hk Hk'%list_elem_of_singleton. by subst k. }
        rewrite <-app_assoc in Hnd, Hall. cbn in Hnd, Hall.
        split; [done|]. split; [by apply sublist_skip|].
        intros k. rewrite elem_of_cons. intros [->|Hk]; [|by apply Hall].
        rewrite elem_of_app, elem_of_cons. right. by left.
  - by apply IH.
Qed.

Lemma append_cons (x : ascii) (a b : string) :
  (String x a ++ b)%string = String x (a ++ b)%string.
Proof. reflexivity. Qed.

Lemma append_assoc (a b c : string) : ((a ++ b) ++ c = a ++ (b ++ c))%string.
Proof.
  induction a as [|x a IH]; [done|].
  change (String x ((a +:+ b) +:+ c) = String x (a +:+ (b +:+ c))). by rewrite IH.
Qed.

Lemma append_nil_r (a : string) : (a ++ "")%string = a.
Proof.
  induction a as [|x a IH]; [done|]. change (String x (a +:+ "") = String x a).
  by rewrite IH.
Qed.

Lemma joined_app (l1 l2 : list string) :
  joined (l1 ++ l2) = (joined l1 ++ joined l2)%string.
Proof.
  induction l1 as [|a l1 IH]; [done|].
  change (a +:+ joined (l1 ++ l2) = (a +:+ joined l1) +:+ joined l2).
  by rewrite IH, append_assoc.
Qed.

Lemma stripKeys_app (a b : string) :
  stripKeys (a ++ b) = (stripKeys a ++ stripKeys b)%string.
Proof.
  induction a as [|x a IH]; [done|]. rewrite append_cons. cbn [stripKeys].
  rewrite IH. by case_bool_decide.
Qed.

Lemma stripKeys_token (c : ascii) (run : string) :
  runOf (Some c, run) → stripKeys run = EmptyString.
Proof.
  intros (_ & Hc & Hrun). cbn [fst snd] in *.
  induction run as [|x run IH]; cbn; [done|].
  assert (x = c) as ->. { apply Hrun. cbn. by rewrite bool_decide_eq_true_2. }
  rewrite bool_decide_eq_true_2 by done. apply IH. intros c' Hc'. apply Hrun.
  cbn. by rewrite Hc', orb_true_r.
Qed.

Lemma stripKeys_literal (run : string) :
  runOf (None, run) → stripKeys run = run.
Proof.
  intros (_ & Hrun). cbn [fst snd] in *.
  induction run as [|x run IH]; cbn; [done|].
  rewrite bool_decide_eq_false_2.
  - f_equal. apply IH. intros c' Hc'. apply Hrun. cbn. by rewrite Hc', orb_true_r.
  - apply Hrun. cbn. by rewrite bool_decide_eq_true_2.
Qed.

Lemma joined_runs (s : string) : joined (runs s).*2 = s.
Proof.
  induction s as [|c s IH]; [done|]. cbn [runs].
  destruct (runs s) as [|[kind' run] rest]; cbn in *; [by rewrite <-IH|].
  case_decide; cbn; by rewrite <-IH.
Qed.

Lemma dividerTexts_snoc_divider (arr : list Node) (index : nat) (sep : string) :
  dividerTexts (arr ++ [if nonEmpty sep then DividerNode index sep else TextNode sep])
  = dividerTexts arr ++ (if nonEmpty sep then [sep] else []).
Proof. unfold dividerTexts. rewrite omap_app. by destruct (nonEmpty sep). Qed.

Lemma dividerTexts_snoc_other (arr : list Node) (node : Node) :
  (∀ index text, node ≠ DividerNode index text) →
  dividerTexts (arr ++ [node]) = dividerTexts arr.
Proof.
  intros Hnode. unfold dividerTexts. rewrite omap_app.
  destruct node; cbn; rewrite ?app_nil_r; try done. by edestruct Hnode.
Qed.

Lemma joined_snoc_divider (texts : list string) (sep : string) :
  joined (texts ++ (if nonEmpty sep then [sep] else [])) = (joined texts ++ sep)%string.
Proof.
  rewrite joined_app. f_equal. destruct (nonEmpty sep) eqn:Hsep; cbn.
  - apply append_nil_r.
  - apply nonEmpty_false in Hsep. by subst sep.
Qed.

Lemma Forall_snoc_divider (texts : list string) (sep : string) :
  Forall (fun text => text ≠ EmptyString) texts →
  Forall (fun text => text ≠ EmptyString) (texts ++ (if nonEmpty sep then [sep] else [])).
Proof.
  intros Htexts. apply Forall_app. split; [done|].
  destruct (nonEmpty sep) eqn:Hsep; [|constructor].
  apply nonEmpty_true in Hsep. by repeat constructor.
Qed.

(** The dividers that the reduction adds spell what the runs hold beside
    the tokens. *)
Lemma reduceInputs_dividers (props : Props) (state : State) (allow : bool)
    (matches : option (list string)) (rs : list (option ascii * string)) :
  Forall runOf rs →
  ∀ sep index arr used, aligned matches index rs →
  ∀ nodes,
    reduceInputs props state allow matches index (between_runs sep rs) arr used
    = Returns nodes →
    joined (dividerTexts nodes)
    = (joined (dividerTexts arr) ++ sep ++ stripKeys (joined rs.*2))%string
    ∧ (Forall (fun text => text ≠ EmptyString) (dividerTexts arr) →
       Forall (fun text => text ≠ EmptyString) (dividerTexts nodes)).
Proof.
  over_runs rs IH Hrun Hm.
  - intros nodes [= <-]. rewrite dividerTexts_snoc_divider, joined_snoc_divider.
    cbn. rewrite append_nil_r. split; [done|]. apply Forall_snoc_divider.
  - intros nodes.
    assert (∀ node used',
      (∀ index text, node ≠ DividerNode index text) →
      reduceInputs props state allow matches (S index) (between_runs "" rs)
        ((arr ++ [if nonEmpty sep then DividerNode index sep else TextNode sep])
         ++ [node]) used' = Returns nodes →
      joined (dividerTexts nodes)
      = (joined (dividerTexts arr) ++ sep
         ++ stripKeys (joined ((Some c, run) :: rs).*2))%string
      ∧ (Forall (fun text => text ≠ EmptyString) (dividerTexts arr) →
         Forall (fun text => text ≠ EmptyString) (dividerTexts nodes))) as IH'.
    { intros node used' Hnode Hnodes.
      destruct (IH _ _ _ _ Hm _ Hnodes) as [Hjoined Hall].
      rewrite dividerTexts_snoc_other, dividerTexts_snoc_divider in Hjoined, Hall by done.
      rewrite joined_snoc_divider in Hjoined. split.
      - rewrite Hjoined. cbn [fmap list_fmap snd joined foldr].
        fold (joined rs.*2). rewrite stripKeys_app, (stripKeys_token c run Hrun).
        cbn. by rewrite append_assoc.
      - intros Harr. by apply Hall, Forall_snoc_divider. }
    destruct (negb allow && bool_decide (c ∈ used)); [by apply IH'|].
    destruct (callRender props state c run index) as [rendered|e]; [by apply IH'|done].
  - intros nodes Hnodes. destruct (IH _ _ _ _ Hm _ Hnodes) as [Hjoined Hall].
    split; [|done]. rewrite Hjoined. cbn [fmap list_fmap snd joined foldr].
    fold (joined rs.*2). rewrite stripKeys_app, (stripKeys_literal run Hrun).
    by rewrite !append_assoc.
Qed.

(** After the first turn no segment asks for the focus. *)
Lemma reduceInputs_autoFocus_later (props : Props) (state : State) (allow : bool)
    (matches : option (list string)) (rs : list (option ascii * string)) :
  Forall runOf rs →
  ∀ sep index arr used, aligned matches index rs →
  (0 < index)%nat →
  ∀ nodes,
    reduceInputs props state allow matches index (between_runs sep rs) arr used
    = Returns nodes →
    ∃ l, segments nodes = segments arr ++ l
         ∧ Forall (fun rendered => autoFocusOf rendered = false) l.
Proof.
  over_runs rs IH Hrun Hm.
  - intros _ nodes [= <-]. exists []. by rewrite segments_snoc_divider, app_nil_r.
  - intros Hindex nodes.
    destruct (negb allow && bool_decide (c ∈ used)).
    + intros Hnodes. destruct (IH _ _ _ _ Hm (Nat.lt_0_succ _) _ Hnodes) as (l & Hl & Hall).
      rewrite segments_snoc_text, segments_snoc_divider in Hl. by exists l.
    + destruct (callRender props state c run index) as [rendered|e] eqn:Hcall; [|done].
      intros Hnodes. destruct (IH _ _ _ _ Hm (Nat.lt_0_succ _) _ Hnodes) as (l & Hl & Hall).
      rewrite segments_snoc_segment, segments_snoc_divider in Hl.
      exists (rendered :: l). split; [by rewrite Hl, <-app_assoc|].
      constructor; [|done].
      apply callRender_ok in Hcall as [_ ->]; [|apply Hrun].
      rewrite bool_decide_eq_false_2 by lia. done.
  - by apply IH.
Qed.

(** From the first turn on, with no render function used yet, the first
    segment asks for the focus when the props do, and no other does. *)
Lemma reduceInputs_autoFocus (props : Props) (state : State) (allow : bool)
    (matches : option (list string)) (rs : list (option ascii * string)) :
  Forall runOf rs →
  ∀ sep index arr used, aligned matches index rs →
  index = 0%nat → used = [] →
  ∀ nodes,
    reduceInputs props state allow matches index (between_runs sep rs) arr used
    = Returns nodes →
    ∃ l, segments nodes = segments arr ++ l
         ∧ match l with
           | [] => True
           | first :: others =>
               autoFocusOf first = props_autoFocus props
               ∧ Forall (fun rendered => autoFocusOf rendered = false) others
           end.
Proof.
  over_runs rs IH Hrun Hm.
  - intros _ _ nodes [= <-]. exists []. by rewrite segments_snoc_divider, app_nil_r.
  - intros -> -> nodes. rewrite bool_decide_eq_false_2 by apply not_elem_of_nil.
    rewrite andb_false_r.
    destruct (callRender props state c run 0) as [rendered|e] eqn:Hcall; [|done].
    intros Hnodes.
    destruct (reduceInputs_autoFocus_later _ _ _ _ _ Hruns _ _ _ _ Hm (Nat.lt_0_succ _)
                _ Hnodes) as (l & Hl & Hall).
    rewrite segments_snoc_segment, segments_snoc_divider in Hl.
    exists (rendered :: l). split; [by rewrite Hl, <-app_assoc|].
    split; [|done]. by apply callRender_ok in Hcall as [_ ->]; [|apply Hrun].
  - by apply IH.
Qed.

(** X14. Rendering the custom inputs never fails for want of a render
    function: it returns the nodes, or raises the unsupported-token error
    of a token of the placeholder that is a day of more than two letters or
    a month of more than four. It returns whenever every token is
    supported, and only then when a token may come again. *)
Theorem renderCustomInputs_outcome (props : Props) (state : State)
    (placeholder : string) (allowMultipleInstances : bool) :
  match renderCustomInputs props state placeholder allowMultipleInstances with
  | Returns _ =>
      allowMultipleInstances = true → Forall supported (tokens placeholder)
  | Raises e =>
      ∃ token, token ∈ tokens placeholder ∧ ¬ supported token
               ∧ e = UnsupportedToken token.2
  | RaisesTypeError => False
  end
  ∧ (Forall supported (tokens placeholder) →
     ∃ nodes,
       renderCustomInputs props state placeholder allowMultipleInstances
       = Returns nodes).
Proof.
  unfold renderCustomInputs, splitPattern, tokens. split.
  - pose proof (reduceInputs_outcome props state allowMultipleInstances
                  (matchPattern placeholder) (runs placeholder) (runs_runOf placeholder)
                  "" 0%nat [] [] (aligned_matchPattern placeholder)) as Hout.
    destruct (reduceInputs _ _ _ _ _ _ _ _) as [nodes| |] eqn:Hnodes; [|done|done].
    intros ->.
    exact (reduceInputs_all_supported props state (matchPattern placeholder)
             (runs placeholder) (runs_runOf placeholder) "" 0%nat [] []
             (aligned_matchPattern placeholder) nodes Hnodes).
  - apply reduceInputs_returns; [apply runs_runOf|apply aligned_matchPattern].
Qed.

(** X15. The segments of the custom inputs follow the tokens of the
    placeholder. When a token may come again there is one segment for each
    token, in their order; when it may not, there is one segment for each
    letter that the placeholder has a token of, no two of the same letter,
    in the order of the tokens. *)
Theorem renderCustomInputs_segments (props : Props) (state : State)
    (placeholder : string) (allowMultipleInstances : bool) (nodes : list Node) :
  renderCustomInputs props state placeholder allowMultipleInstances = Returns nodes →
  let keys := segmentKey <$> segments nodes in
  let letters := (tokens placeholder).*1 in
  (allowMultipleInstances = true → keys = letters)
  ∧ (allowMultipleInstances = false →
     NoDup keys ∧ keys `sublist_of` letters ∧ ∀ k, k ∈ letters → k ∈ keys).
Proof.
  unfold renderCustomInputs, splitPattern, tokens. intros Hnodes.
  destruct (reduceInputs_segments props state allowMultipleInstances
              (matchPattern placeholder) (runs placeholder) (runs_runOf placeholder)
              "" 0%nat [] [] (aligned_matchPattern placeholder) nodes Hnodes)
    as (l & -> & Hallow & Hdedup).
  cbn. split; [done|]. intros Hno. apply Hdedup; [done|apply NoDup_nil_2].
Qed.

(** The tokens d, M, y and d again, no second use allowed: a day, a month
    and a year field. *)
Lemma renderCustomInputs_segments_witness :
  ∃ nodes,
    renderCustomInputs (exampleProps "month" "start") initialState "d/M/y d" false
    = Returns nodes
    ∧ NoDup (segmentKey <$> segments nodes)
    ∧ (segmentKey <$> segments nodes) `sublist_of` (tokens "d/M/y d").*1
    ∧ ∀ k, k ∈ (tokens "d/M/y d").*1 → k ∈ segmentKey <$> segments nodes.
Proof.
  eexists. split; [vm_compute; reflexivity|].
  refine (proj2 (renderCustomInputs_segments (exampleProps "month" "start") initialState
                   "d/M/y d" false _ _) eq_refl).
  vm_compute. reflexivity.
Defined.

(** X16. The dividers of the custom inputs spell the placeholder without
    the letters of its tokens, and none of them is empty. *)
Theorem renderCustomInputs_dividers (props : Props) (state : State)
    (placeholder : string) (allowMultipleInstances : bool) (nodes : list Node) :
  renderCustomInputs props state placeholder allowMultipleInstances = Returns nodes →
  joined (dividerTexts nodes) = stripKeys placeholder
  ∧ Forall (fun text => text ≠ EmptyString) (dividerTexts nodes).
Proof.
  unfold renderCustomInputs, splitPattern. intros Hnodes.
  destruct (reduceInputs_dividers props state allowMultipleInstances
              (matchPattern placeholder) (runs placeholder) (runs_runOf placeholder)
              "" 0%nat [] [] (aligned_matchPattern placeholder) nodes Hnodes)
    as [Hjoined Hall].
  split; [|by apply Hall]. by rewrite Hjoined, joined_runs.
Qed.

Lemma renderCustomInputs_dividers_witness :
  ∃ nodes,
    renderCustomInputs (exampleProps "month" "start") initialState "dd.MM. y" true
    = Returns nodes
    ∧ joined (dividerTexts nodes) = stripKeys "dd.MM. y"
    ∧ Forall (fun text => text ≠ EmptyString) (dividerTexts nodes).
Proof.
  eexists. split; [vm_compute; reflexivity|].
  apply (renderCustomInputs_dividers (exampleProps "month" "start") initialState
           "dd.MM. y" true).
  vm_compute. reflexivity.
Defined.

(** X17. Of the segments of the custom inputs only the first can ask for
    the focus, and it does when the props ask for it. *)
Theorem renderCustomInputs_autoFocus (props : Props) (state : State)
    (placeholder : string) (allowMultipleInstances : bool) (nodes : list Node) :
  renderCustomInputs props state placeholder allowMultipleInstances = Returns nodes →
  ∀ j rendered,
    segments nodes !! j = Some rendered →
    autoFocusOf rendered = bool_decide (j = 0%nat) && props_autoFocus props.
Proof.
  unfold renderCustomInputs, splitPattern. intros Hnodes.
  destruct (reduceInputs_autoFocus props state allowMultipleInstances
              (matchPattern placeholder) (runs placeholder) (runs_runOf placeholder)
              "" 0%nat [] [] (aligned_matchPattern placeholder) eq_refl eq_refl
              nodes Hnodes) as (l & -> & Hl).
  cbn [segments omap list_omap app]. intros j rendered Hj.
  destruct l as [|first others]; [done|]. destruct Hl as [Hfirst Hothers].
  destruct j as [|j]; cbn in Hj.
  - injection Hj as <-. by rewrite Hfirst.
  - rewrite Forall_lookup in Hothers. by rewrite (Hothers _ _ Hj).
Qed.

(** Under props that ask for the focus, the month field of M/d/y has it and
    the day field has not. *)
Lemma renderCustomInputs_autoFocus_witness :
  let props :=
    {| props_value := Single RNull; props_minDate := None; props_maxDate := None;
       props_maxDetail := "month"; props_returnValue := "start";
       props_isCalendarOpen := None; props_onChange := true;
       props_autoFocus := true; props_showLeadingZeros := false |} in
  ∃ nodes first second,
    renderCustomInputs props initialState "M/d/y" false = Returns nodes
    ∧ segments nodes !! 0%nat = Some first ∧ segments nodes !! 1%nat = Some second
    ∧ autoFocusOf first = true ∧ autoFocusOf second = false.
Proof.
  intros props. eexists _, _, _.
  split; [vm_compute; reflexivity|].
  split; [vm_compute; reflexivity|]. split; [vm_compute; reflexivity|]. split.
  - refine (renderCustomInputs_autoFocus props initialState "M/d/y" false _ _ 0%nat _ _);
      vm_compute; reflexivity.
  - refine (renderCustomInputs_autoFocus props initialState "M/d/y" false _ _ 1%nat _ _);
      vm_compute; reflexivity.
Defined.

(** *** The placeholder of a locale *)

Lemma String_replace_here (a b rest : string) :
  String_replace a b (a ++ rest) = (b ++ rest)%string.
Proof.
  assert (stripPrefix a (a ++ rest) = Some rest) as Hstrip.
  { induction a as [|x a IH]; [by destruct rest|].
    rewrite append_cons. cbn [stripPrefix]. by rewrite decide_True. }
  destruct (a ++ rest)%string; cbn [String_replace]; by rewrite Hstrip.
Qed.

Lemma String_replace_skip (a0 : ascii) (a b : string) (c : ascii) (rest : string) :
  c ≠ a0 →
  String_replace (String a0 a) b (String c rest)
  = String c (String_replace (String a0 a) b rest).
Proof. intros Hc. cbn [String_replace stripPrefix]. by rewrite decide_False. Qed.

Lemma String_replace_skip_next (a0 a1 : ascii) (a b : string) (rest : string) :
  notStarting a1 rest →
  String_replace (String a0 (String a1 a)) b (String a0 rest)
  = String a0 (String_replace (String a0 (String a1 a)) b rest).
Proof.
  intros Hrest. cbn [String_replace stripPrefix]. rewrite decide_True by done.
  destruct rest as [|c rest]; [done|]. cbn in Hrest. by rewrite decide_False.
Qed.

Lemma String_replace_literal (a0 : ascii) (a b text rest : string) :
  digitValue a0 ≠ None → digitFree text →
  String_replace (String a0 a) b (text ++ rest)
  = (text ++ String_replace (String a0 a) b rest)%string.
Proof.
  intros Ha0. induction text as [|c text IH]; intros Htext; [done|].
  rewrite !append_cons, String_replace_skip, IH; [done| |].
  - intros c' Hc'. apply Htext. cbn. by rewrite Hc', orb_true_r.
  - intros ->. apply Ha0, Htext. cbn. by rewrite bool_decide_eq_true_2.
Qed.

Lemma notStarting_literal (c : ascii) (text rest : string) :
  digitValue c ≠ None → digitFree text → notStarting c rest →
  notStarting c (text ++ rest).
Proof.
  intros Hc Htext Hrest. destruct text as [|x text]; [done|].
  cbn. intros ->. apply Hc, Htext. cbn. by rewrite bool_decide_eq_true_2.
Qed.

(** One replacement on the parts: the numeral of the part [p] gives way
    to its letter, where every other part lets the search pass. *)
Lemma String_replace_part (a0 : ascii) (a b : string) (p : Part) (k : ascii)
    (before after : Part → string) (ok : string → Prop) :
  partKey p = Some k →
  before p = String a0 a → after p = b →
  ok EmptyString →
  ∀ parts,
    NoDup (omap partKey parts) →
    (∀ q, q ∈ parts →
       (∀ rest, ok rest → ok (before q ++ rest)%string)
       ∧ (q ≠ p →
          after q = before q
          ∧ ∀ rest, ok rest →
              String_replace (String a0 a) b (before q ++ rest)
              = (before q ++ String_replace (String a0 a) b rest)%string)) →
    String_replace (String a0 a) b (joined (before <$> parts))
    = joined (after <$> parts).
Proof.
  intros Hk Hbefore Hafter Hok parts Hnd Hparts.
  assert (ok (joined (before <$> parts))
          ∧ String_replace (String a0 a) b (joined (before <$> parts))
            = joined (after <$> parts)) as [_ ?]; [|done].
  induction parts as [|q parts IH]; [done|].
  change (ok (before q ++ joined (before <$> parts))%string
          ∧ String_replace (String a0 a) b (before q ++ joined (before <$> parts))
            = (after q ++ joined (after <$> parts))%string).
  destruct IH as [Hjoined IH].
  { cbn in Hnd. destruct (partKey q); [by apply NoDup_cons in Hnd as [_ ?]|done]. }
  { intros q' Hq'. apply Hparts. by right. }
  destruct (Hparts q) as [Hclosed Hother]; [by left|].
  split; [by apply Hclosed|].
  destruct (decide (q = p)) as [->|Hq].
  - rewrite Hbefore, String_replace_here, Hafter. f_equal. f_equal.
    cbn in Hnd. rewrite Hk in Hnd. apply NoDup_cons in Hnd as [Hnot _].
    apply list_fmap_ext. intros i q Hi. symmetry. apply Hparts.
    + right. by eapply list_elem_of_lookup_2.
    + intros ->. apply Hnot. apply list_elem_of_omap. exists p. split; [|done].
      by eapply list_elem_of_lookup_2.
  - destruct (Hother Hq) as [Hsame Hskip].
    by rewrite Hskip, Hsame, IH.
Qed.

Lemma digit_0 : digitValue "0" ≠ None.
Proof. done. Qed.

Lemma digit_1 : digitValue "1" ≠ None.
Proof. done. Qed.

Lemma digit_2 : digitValue "2" ≠ None.
Proof. done. Qed.

(** The three replacements of [placeholder], one after the other. *)
Lemma String_replace_year (parts : list Part) :
  wellFormed parts →
  String_replace "2017" "y" (joined (spell false false false <$> parts))
  = joined (spell true false false <$> parts).
Proof.
  intros [Hnd Hliteral].
  apply (String_replace_part "2" "017" "y" YearPart "y" _ _ (notStarting "0"));
    try done.
  intros q Hq. destruct q as [text| | |]; cbn [spell].
  - split.
    + intros rest. apply notStarting_literal; [apply digit_0|by apply Hliteral].
    + intros _. split; [done|]. intros rest _.
      apply String_replace_literal; [apply digit_2|by apply Hliteral].
  - split; [done|]. done.
  - split; [done|]. intros _. split; [done|]. intros rest Hrest.
    change ("12" +:+ rest) with (String "1" (String "2" rest)).
    rewrite String_replace_skip by done.
    by rewrite String_replace_skip_next.
  - split; [done|]. intros _. split; [done|]. intros rest Hrest.
    change ("11" +:+ rest) with (String "1" (String "1" rest)).
    by rewrite !String_replace_skip.
Qed.

Lemma String_replace_month (parts : list Part) :
  wellFormed parts →
  String_replace "12" "M" (joined (spell true false false <$> parts))
  = joined (spell true true false <$> parts).
Proof.
  intros [Hnd Hliteral].
  apply (String_replace_part "1" "2" "M" MonthPart "M" _ _ (notStarting "2"));
    try done.
  intros q Hq. destruct q as [text| | |]; cbn [spell].
  - split.
    + intros rest. apply notStarting_literal; [apply digit_2|by apply Hliteral].
    + intros _. split; [done|]. intros rest _.
      apply String_replace_literal; [apply digit_1|by apply Hliteral].
  - split; [done|]. intros _. split; [done|]. intros rest Hrest.
    change ("y" +:+ rest) with (String "y" rest).
    by rewrite String_replace_skip.
  - split; [done|]. done.
  - split; [done|]. intros _. split; [done|]. intros rest Hrest.
    change ("11" +:+ rest) with (String "1" (String "1" rest)).
    rewrite String_replace_skip_next by done.
    by rewrite String_replace_skip_next.
Qed.

Lemma String_replace_day (parts : list Part) :
  wellFormed parts →
  String_replace "11" "d" (joined (spell true true false <$> parts))
  = joined (spell true true true <$> parts).
Proof.
  intros [Hnd Hliteral].
  apply (String_replace_part "1" "1" "d" DayPart "d" _ _ (fun _ => True));
    try done.
  intros q Hq. destruct q as [text| | |]; cbn [spell].
  - split; [done|]. intros _. split; [done|]. intros rest _.
    apply String_replace_literal; [apply digit_1|by apply Hliteral].
  - split; [done|]. intros _. split; [done|]. intros rest Hrest.
    change ("y" +:+ rest) with (String "y" rest).
    by rewrite String_replace_skip.
  - split; [done|]. intros _. split; [done|]. intros rest Hrest.
    change ("M" +:+ rest) with (String "M" rest).
    by rewrite String_replace_skip.
  - split; [done|]. done.
Qed.

(** X18. The placeholder of a locale: when the locale writes 2017, 12
    and 11 as these numerals and the reference date 11 December 2017 as
    its year, month and day, each at most once and in any order, with text
    that holds no digit between them, the placeholder without a format is
    that writing with y, M and d for the year, the month and the day. *)
Theorem placeholder_of_locale `{Formatter} (maxDetail : string) (parts : list Part) :
  formatNumber 2017 = "2017" → formatNumber 12 = "12" → formatNumber 11 = "11" →
  formatDate maxDetail (Date_ymd (Num 2017) (Num 11) (Num 11))
  = joined (written <$> parts) →
  wellFormed parts →
  placeholder None maxDetail = joined (letter <$> parts).
Proof.
  intros Hyear Hmonth Hday Hdate Hparts. unfold placeholder. cbv zeta.
  change (11 + 1) with 12. rewrite Hyear, Hmonth, Hday, Hdate. unfold written, letter.
  by rewrite String_replace_year, String_replace_month, String_replace_day.
Qed.

(** Month/day/year at the detail month, month/year at the detail year. *)
Lemma placeholder_of_locale_witness :
  @placeholder exampleFormatter None "month" = "M/d/y"
  ∧ @placeholder exampleFormatter None "year" = "M/y".
Proof.
  split.
  - apply (@placeholder_of_locale exampleFormatter "month"
             [MonthPart; Literal "/"; DayPart; Literal "/"; YearPart]);
      try (vm_compute; reflexivity).
    split; [vm_compute; repeat constructor; rewrite ?elem_of_cons, ?elem_of_nil;
            intros H; decompose [or] H; done|].
    intros text. rewrite !elem_of_cons, elem_of_nil.
    intros [?|[[= ->]|[?|[[= ->]|[?|[]]]]]]; try done;
      intros c; cbn; rewrite orb_false_r, bool_decide_eq_true; by intros ->.
  - apply (@placeholder_of_locale exampleFormatter "year"
             [MonthPart; Literal "/"; YearPart]);
      try (vm_compute; reflexivity).
    split; [vm_compute; repeat constructor; rewrite ?elem_of_cons, ?elem_of_nil;
            intros H; decompose [or] H; done|].
    intros text. rewrite !elem_of_cons, elem_of_nil.
    intros [?|[[= ->]|[?|[]]]]; try done;
      intros c; cbn; rewrite orb_false_r, bool_decide_eq_true; by intros ->.
Defined.

(** X19. The fields of the date input: when the caller gives a format
    there is one field for each token of the placeholder (the format
    itself, unless it is empty), in their order; without a format there is
    a field for each letter that the placeholder of the locale has a token
    of, and no two fields of the same letter. *)
Theorem DateInput_renderCustomInputs_fields `{Formatter} (props : Props) (state : State)
    (format : option string) (nodes : list Node) :
  DateInput_renderCustomInputs props state format = Returns nodes →
  let keys := segmentKey <$> segments nodes in
  let letters := (tokens (placeholder format (props_maxDetail props))).*1 in
  match format with
  | Some _ => keys = letters
  | None => NoDup keys ∧ keys `sublist_of` letters ∧ ∀ k, k ∈ letters → k ∈ keys
  end.
Proof.
  unfold DateInput_renderCustomInputs, renderCustomInputs, splitPattern, tokens.
  set (p := placeholder format (props_maxDetail props)). intros Hnodes.
  destruct (reduceInputs_segments props state (bool_decide (is_Some format))
              (matchPattern p) (runs p) (runs_runOf p)
              "" 0%nat [] [] (aligned_matchPattern p) nodes Hnodes)
    as (l & -> & Hallow & Hdedup).
  cbn. destruct format as [f|].
  - apply Hallow. by apply bool_decide_eq_true_2.
  - apply Hdedup; [|apply NoDup_nil_2]. apply bool_decide_eq_false_2. by intros [? ?].
Qed.

(** The format dd.MM.y has a day, a month and a year field; so has the
    locale that writes month/day/year, in its order. *)
Lemma DateInput_renderCustomInputs_fields_witness :
  ∃ nodes nodes',
    @DateInput_renderCustomInputs exampleFormatter (exampleProps "month" "start")
      initialState (Some "dd.MM.y") = Returns nodes
    ∧ segmentKey <$> segments nodes = ["d"; "M"; "y"]%char
    ∧ @DateInput_renderCustomInputs exampleFormatter (exampleProps "month" "start")
        initialState None = Returns nodes'
    ∧ NoDup (segmentKey <$> segments nodes').
Proof.
  eexists _, _. split; [vm_compute; reflexivity|]. split.
  { refine (@DateInput_renderCustomInputs_fields exampleFormatter
              (exampleProps "month" "start") initialState (Some "dd.MM.y") _ _).
    vm_compute. reflexivity. }
  split; [vm_compute; reflexivity|].
  refine (proj1 (@DateInput_renderCustomInputs_fields exampleFormatter
                   (exampleProps "month" "start") initialState None _ _)).
  vm_compute. reflexivity.
Defined.
